(** * Resilient request pipeline of the health-care AI backend

    A shallow embedding of the generative-AI service layer of the backend
    (the multi-key service with jitter, fallback model and text-to-speech,
    and the earlier single-key service under backend/services), and the
    properties of its retry wrapper, input guards, response validation,
    fallback escalation, voice output and hospital lookup.

    The code is asynchronous JavaScript that talks to an external provider.
    It is modelled with explicit state passing: a computation takes the
    trace of observable events so far (provider calls, random draws, sleeps)
    and yields an outcome (a returned value or a thrown value) together with
    the extended trace.  The provider and [Math.random] are oracles indexed
    by how many calls, respectively draws, happened before. *)

From Stdlib Require Import ZArith QArith Qround List String Ascii Bool Arith Lia.
From Stdlib Require Import DecimalString.
From Stdlib Require Import Lqa.
Import ListNotations.

Set Implicit Arguments.
Set Warnings "-register-all".

(** ** JavaScript errors and thrown values *)

Inductive error_class : Type :=
| ErrorClass        (* new Error(...) *)
| SyntaxErrorClass  (* thrown by JSON.parse *)
| TypeErrorClass    (* property read on undefined or null *)
| ApiErrorClass.    (* raised by the provider SDK, carries a status *)

(** An error object: its class, its [status] property (absent, or a numeric
    HTTP code) and its message. *)
Record js_error : Type := mkError {
  err_class : error_class;
  err_status : option Z;
  err_message : string
}.

(** What a [throw] can carry: an error object, or [undefined] (the value of
    [lastError] when the retry loop never ran). *)
Inductive thrown : Type :=
| ThrownUndefined
| ThrownError (e : js_error).

Definition new_Error (msg : string) : thrown :=
  ThrownError (mkError ErrorClass None msg).

Definition new_TypeError (msg : string) : thrown :=
  ThrownError (mkError TypeErrorClass None msg).

Definition new_SyntaxError (msg : string) : thrown :=
  ThrownError (mkError SyntaxErrorClass None msg).

(** [error instanceof SyntaxError] *)
Definition instanceof_SyntaxError (x : thrown) : bool :=
  match x with
  | ThrownError e =>
      match err_class e with SyntaxErrorClass => true | _ => false end
  | ThrownUndefined => false
  end.

Inductive outcome (A : Type) : Type :=
| Returned (a : A)
| Threw (x : thrown).

Arguments Returned {A} a.
Arguments Threw {A} x.

(** ** Observable events and the computation monad *)

Inductive event (L : Type) : Type :=
| EvCall (l : L)      (* one invocation of the wrapped provider call *)
| EvRandom (r : Q)    (* one Math.random() draw and its value *)
| EvSleep (ms : Q).   (* one awaited setTimeout of [ms] milliseconds *)

Arguments EvCall {L} l.
Arguments EvRandom {L} r.
Arguments EvSleep {L} ms.

Definition trace (L : Type) : Type := list (event L).

Definition is_call {L} (e : event L) : bool :=
  match e with EvCall _ => true | _ => false end.

Definition is_draw {L} (e : event L) : bool :=
  match e with EvRandom _ => true | _ => false end.

Definition ncalls {L} (t : trace L) : nat := List.length (filter is_call t).
Definition ndraws {L} (t : trace L) : nat := List.length (filter is_draw t).

Fixpoint sleeps_of {L} (t : trace L) : list Q :=
  match t with
  | [] => []
  | EvSleep ms :: t' => ms :: sleeps_of t'
  | _ :: t' => sleeps_of t'
  end.

Definition M (L A : Type) : Type := trace L -> outcome A * trace L.

Definition ret {L A} (a : A) : M L A := fun t => (Returned a, t).

Definition throw {L A} (x : thrown) : M L A := fun t => (Threw x, t).

Definition bind {L A B} (m : M L A) (k : A -> M L B) : M L B :=
  fun t =>
    match m t with
    | (Returned a, t') => k a t'
    | (Threw x, t') => (Threw x, t')
    end.

(** [try { body } catch (error) { handler }] *)
Definition try_catch {L A} (body : M L A) (handler : thrown -> M L A) : M L A :=
  fun t =>
    match body t with
    | (Returned a, t') => (Returned a, t')
    | (Threw x, t') => handler x t'
    end.

Declare Scope js_scope.
Delimit Scope js_scope with js.
Notation "x <- m ;; k" := (bind m (fun x => k))
  (at level 61, m at next level, right associativity) : js_scope.
Notation "m ;;; k" := (bind m (fun _ => k))
  (at level 61, right associativity) : js_scope.
Open Scope js_scope.

(** [error.status]: reading a property of [undefined] is a TypeError. *)
Definition get_status {L} (error : thrown) : M L (option Z) :=
  match error with
  | ThrownUndefined =>
      throw (new_TypeError "Cannot read properties of undefined (reading 'status')")
  | ThrownError e => ret (err_status e)
  end.

(** [error.status && error.status >= 500 && error.status < 600] *)
Definition is_server_status (st : option Z) : bool :=
  match st with
  | None => false
  | Some s => negb (s =? 0)%Z && (500 <=? s)%Z && (s <? 600)%Z
  end.

(** ** The retry wrapper *)

Section Runtime.

Context {L : Type}.

  (** [random n] is the value of the [n]-th [Math.random()] draw. *)
Variable random : nat -> Q.

Definition Math_random : M L Q :=
    fun t => let r := random (ndraws t) in (Returned r, t ++ [EvRandom r]).

  (** [await new Promise(res => setTimeout(res, ms))] *)
Definition sleep (ms : Q) : M L unit :=
    fun t => (Returned tt, t ++ [EvSleep ms]).

  (** The wrapped call: the [n]-th invocation (counted over the whole trace)
      of the call labelled [l] has the outcome the oracle gives it. *)
Definition invoke {A} (oracle : L -> nat -> outcome A) (l : L) : M L A :=
    fun t => (oracle l (ncalls t), t ++ [EvCall l]).

End Runtime.

(** ** Data exchanged with the provider *)

Open Scope string_scope.
Open Scope list_scope.
Infix "+++" := String.append (at level 60, right associativity).

(** A parsed JSON document.  Numbers are kept as exact rationals; an object
    keeps its fields in order. *)
Inductive json : Type :=
| JNull
| JBool (b : bool)
| JNumber (q : Q)
| JString (s : string)
| JArray (items : list json)
| JObject (fields : list (string * json)).

(** A JavaScript value read from a property: [None] is [undefined]. *)
Definition js_value : Type := option json.

(** Truthiness, as used by [!x], [x && y] and [x || y]. *)
Definition truthy (v : js_value) : bool :=
  match v with
  | None => false
  | Some JNull => false
  | Some (JBool b) => b
  | Some (JNumber q) => negb (Qeq_bool q 0)
  | Some (JString s) => negb (s =? EmptyString)%string
  | Some (JArray _) => true
  | Some (JObject _) => true
  end.

Definition truthy_string (s : option string) : bool :=
  match s with
  | None => false
  | Some s => negb (s =? EmptyString)%string
  end.

Definition truthy_number (q : option Q) : bool :=
  match q with
  | None => false
  | Some q => negb (Qeq_bool q 0)
  end.

Fixpoint lookup (k : string) (fields : list (string * json)) : js_value :=
  match fields with
  | [] => None
  | (k', v) :: rest => if (k =? k')%string then Some v else lookup k rest
  end.

(** [v.k] for one of the field names the service reads (none of them is a
    built-in property of strings or arrays): a TypeError on [null], the
    field of an object, [undefined] otherwise. *)
Definition get_prop {L} (v : json) (k : string) : M L js_value :=
  match v with
  | JNull => throw (new_TypeError ("Cannot read properties of null (reading '" +++ k +++ "')"))
  | JObject fields => ret (lookup k fields)
  | _ => ret None
  end.

(** [String.prototype.trim].  A string is held as the bytes of its UTF-8
    encoding.  [trim] strips, at both ends, every WhiteSpace and
    LineTerminator code point of the language:
    - one byte: U+0009 to U+000D and U+0020;
    - two bytes: U+00A0 (C2 A0);
    - three bytes: U+1680 (E1 9A 80), U+2000 to U+200A (E2 80 80..8A),
      U+2028 and U+2029 (E2 80 A8, A9), U+202F (E2 80 AF),
      U+205F (E2 81 9F), U+3000 (E3 80 80) and U+FEFF (EF BB BF). *)
Definition is_whitespace (c : ascii) : bool :=
  let n := nat_of_ascii c in
  ((n =? 9) || (n =? 10) || (n =? 11) || (n =? 12) || (n =? 13) || (n =? 32))%nat.

(** The two-byte white space, given lead byte and continuation byte. *)
Definition is_whitespace2 (c1 c2 : ascii) : bool :=
  ((nat_of_ascii c1 =? 194) && (nat_of_ascii c2 =? 160))%nat.

(** The three-byte white space, given the bytes in reading order. *)
Definition is_whitespace3 (c1 c2 c3 : ascii) : bool :=
  let a := nat_of_ascii c1 in
  let b := nat_of_ascii c2 in
  let c := nat_of_ascii c3 in
  (((a =? 225) && (b =? 154) && (c =? 128))
   || ((a =? 226) && (b =? 128)
       && (((128 <=? c) && (c <=? 138)) || (c =? 168) || (c =? 169)
           || (c =? 175)))
   || ((a =? 226) && (b =? 129) && (c =? 159))
   || ((a =? 227) && (b =? 128) && (c =? 128))
   || ((a =? 239) && (b =? 187) && (c =? 191)))%nat.

Fixpoint trim_start (s : list ascii) : list ascii :=
  match s with
  | [] => []
  | c1 :: s1 =>
      if is_whitespace c1 then trim_start s1
      else
        match s1 with
        | [] => s
        | c2 :: s2 =>
            if is_whitespace2 c1 c2 then trim_start s2
            else
              match s2 with
              | [] => s
              | c3 :: s3 =>
                  if is_whitespace3 c1 c2 c3 then trim_start s3 else s
              end
        end
  end.

(** The same from the end: [s] is the reversed string, so the bytes of a
    code point come last byte first. *)
Fixpoint trim_end_reversed (s : list ascii) : list ascii :=
  match s with
  | [] => []
  | c1 :: s1 =>
      if is_whitespace c1 then trim_end_reversed s1
      else
        match s1 with
        | [] => s
        | c2 :: s2 =>
            if is_whitespace2 c2 c1 then trim_end_reversed s2
            else
              match s2 with
              | [] => s
              | c3 :: s3 =>
                  if is_whitespace3 c3 c2 c1 then trim_end_reversed s3
                  else s
              end
        end
  end.

Definition trim (s : string) : string :=
  string_of_list_ascii
    (rev (trim_end_reversed (rev (trim_start (list_ascii_of_string s))))).

(** The provider's reply, as far as the service reads it. *)
Record inline_data : Type := mkInlineData {
  inline_mimeType : option string;
  inline_bytes : option string
}.

Record part : Type := mkPart {
  part_text : option string;
  part_inlineData : option inline_data
}.

Record content : Type := mkContent {
  content_parts : option (list part)
}.

Record maps_chunk : Type := mkMaps {
  maps_uri : option string;
  maps_title : option string
}.

Record grounding_chunk : Type := mkChunk {
  chunk_maps : option maps_chunk
}.

Record grounding_metadata : Type := mkGrounding {
  groundingChunks : option (list grounding_chunk)
}.

Record candidate : Type := mkCandidate {
  cand_content : option content;
  cand_groundingMetadata : option grounding_metadata
}.

Record response : Type := mkResponse {
  resp_text : option string;
  resp_candidates : option (list candidate)
}.

(** The requests the service sends. *)
Inductive client : Type :=
| aiAnalyze | aiSymptoms | aiChat | aiTTS | aiMaps   (* multi-key service *)
| ai.                                                (* single-key service *)

Inductive schema : Type :=
| analysisSchema
| symptomPredictionSchema
| healthTipsSchema.

(** The [required] list of each declared response schema. *)
Definition schema_required (s : schema) : list string :=
  match s with
  | analysisSchema =>
      ["summary"; "predictions"; "healthScore"; "recommendations"]%string
  | symptomPredictionSchema => ["predictions"]%string
  | healthTipsSchema => ["tips"]%string
  end.

Inductive request_part : Type :=
| TextPart (text : string)
| InlineDataPart (mimeType : option string) (data : string).

Inductive contents : Type :=
| ContentsString (s : string)                      (* contents: "..." *)
| ContentsObject (parts : list request_part)       (* contents: { parts } *)
| ContentsList (items : list (list request_part)). (* contents: [{ parts }] *)

Inductive gen_config : Type :=
| JsonConfig (responseSchema : schema)
| SpeechConfig (voiceName : option string)
| MapsConfig (latLng : option (Q * Q)).

Record turn : Type := mkTurn {
  turn_role : string;
  turn_text : string
}.

Inductive request : Type :=
| GenerateContent (c : client) (model : string) (body : contents)
                  (config : gen_config)
| SendMessage (c : client) (model : string) (systemInstruction : string)
              (history : option (list turn)) (message : string).

Definition request_model (r : request) : string :=
  match r with
  | GenerateContent _ m _ _ => m
  | SendMessage _ m _ _ _ => m
  end.

(** Number of provider calls in a trace that went to model [m]. *)
Definition calls_to_model (m : string) (t : trace request) : nat :=
  List.length
    (filter (fun e => match e with
                      | EvCall r => (request_model r =? m)%string
                      | _ => false
                      end) t).

(** Caller-supplied inputs. *)
Record file_data : Type := mkFileData {
  file_bytes : option string;     (* fileData.data *)
  file_mimeType : option string   (* fileData.mimeType *)
}.

Record user_context : Type := mkUserContext {
  age : js_value;
  weight : js_value;
  medical_conditions : js_value;
  symptoms : js_value
}.

Record voice_config : Type := mkVoiceConfig {
  enabled : bool;
  voice : option string
}.

Record chat_result : Type := mkChatResult {
  chat_response : option string;   (* result.response *)
  chat_audio : option string       (* result.audio, None is null *)
}.

Record hospital : Type := mkHospital {
  hospital_name : string;
  hospital_uri : string
}.

Record hospital_result : Type := mkHospitalResult {
  summary : string;
  hospitals : list hospital
}.

(** [response.text.trim()] *)
Definition trimmed_text {L} (r : response) : M L string :=
  match resp_text r with
  | None => throw (new_TypeError "Cannot read properties of undefined (reading 'trim')")
  | Some s => ret (trim s)
  end.

(** [response.candidates?.[0]] *)
Definition first_candidate (r : response) : option candidate :=
  match resp_candidates r with
  | Some (c :: _) => Some c
  | _ => None
  end.

(** [response.candidates?.[0]?.content?.parts?.[0]?.inlineData?.data] *)
Definition first_inline_data (r : response) : option string :=
  match first_candidate r with
  | None => None
  | Some c =>
      match cand_content c with
      | None => None
      | Some ct =>
          match content_parts ct with
          | Some (p :: _) =>
              match part_inlineData p with
              | None => None
              | Some d => inline_bytes d
              end
          | _ => None
          end
      end
  end.

(** [response.candidates?.[0]?.groundingMetadata?.groundingChunks] *)
Definition first_grounding_chunks (r : response) : option (list grounding_chunk) :=
  match first_candidate r with
  | None => None
  | Some c =>
      match cand_groundingMetadata c with
      | None => None
      | Some g => groundingChunks g
      end
  end.

(** [chunk.maps && chunk.maps.uri && chunk.maps.title] *)
Definition chunk_has_place (chunk : grounding_chunk) : bool :=
  match chunk_maps chunk with
  | None => false
  | Some m => truthy_string (maps_uri m) && truthy_string (maps_title m)
  end.

(** [{ name: chunk.maps.title, uri: chunk.maps.uri }], applied after the
    filter above, so both fields are strings. *)
Definition chunk_to_hospital (chunk : grounding_chunk) : hospital :=
  match chunk_maps chunk with
  | Some (mkMaps (Some u) (Some n)) => mkHospital n u
  | _ => mkHospital EmptyString EmptyString
  end.

(** ** Pieces shared by the two services *)

(** Computations of the service layer: their calls are provider requests. *)
Definition J (A : Type) : Type := M request A.

(** The string held by a value already tested truthy. *)
Definition str (s : option string) : string :=
  match s with Some s => s | None => EmptyString end.

(** The number held by a value already tested truthy. *)
Definition num (q : option Q) : Q :=
  match q with Some q => q | None => 0 end.

(** [fileData && fileData.data] *)
Definition fileData_data (fileData : option file_data) : option string :=
  match fileData with Some f => file_bytes f | None => None end.

Definition fileData_mimeType (fileData : option file_data) : option string :=
  match fileData with Some f => file_mimeType f | None => None end.

Definition LF : string := String (ascii_of_nat 10) EmptyString.
Definition DQ : string := String (ascii_of_nat 34) EmptyString.

(** [JSON.parse(s)]: the runtime's parser is a parameter, [None] standing
    for a thrown SyntaxError. *)
Definition parse_or_throw {L} (JSON_parse : string -> option json)
           (s : string) : M L json :=
  match JSON_parse s with
  | Some v => ret v
  | None => throw (new_SyntaxError "Unexpected token in JSON")
  end.

Fixpoint mapM {L A B} (f : A -> M L B) (l : list A) : M L (list B) :=
  match l with
  | [] => ret []
  | a :: l' => b <- f a ;; bs <- mapM f l' ;; ret (b :: bs)
  end.

(** [Array.prototype.join(sep)] on strings *)
Fixpoint join (sep : string) (l : list string) : string :=
  match l with
  | [] => EmptyString
  | [s] => s
  | s :: l' => s +++ sep +++ join sep l'
  end.

Definition is_array (v : js_value) : bool :=
  match v with
  | Some (JArray _) => true
  | _ => false
  end.

Definition analysis_prompt : string :=
  "Analyze the provided medical report. Based on the data, generate a health analysis according to the provided JSON schema. The report content is either in the following text or in the attached PDF file.".

Definition msg_no_report : string := "No report data provided to analyze.".
Definition msg_missing_fields : string := "AI response is missing required fields.".
Definition msg_parse_analysis : string :=
  "Failed to parse the AI's JSON response. The model may have returned an unexpected format.".
Definition msg_invalid_analysis : string := "Failed to get a valid analysis from the AI.".
Definition msg_no_audio : string := "No audio data received from TTS API.".
Definition msg_no_chat : string := "Could not get a response from the assistant.".
Definition msg_missing_predictions : string :=
  "AI response is missing the 'predictions' field.".
Definition msg_parse_symptoms : string :=
  "Failed to parse the AI's JSON response for symptoms.".
Definition msg_invalid_prediction : string :=
  "Failed to get a valid prediction from the AI.".
Definition msg_no_location : string := "No location data provided to find hospitals.".
Definition msg_no_hospitals : string := "Failed to get hospital data from the AI.".
Definition msg_invalid_tips : string := "AI response for tips is in an invalid format.".
Definition msg_no_tips : string := "Failed to generate health tips from the AI.".
Definition default_summary : string :=
  "Here are some hospitals found near your location.".

Section Prompts.

  (** Template-literal conversion of a value, numeric conversion and
      [toFixed(0)] are built-ins of the runtime. *)
Variable js_to_string : js_value -> string.
Variable js_to_number : js_value -> option Q.   (* None is NaN *)
Variable toFixed0 : option Q -> string.

  (** [v || d] inside a template literal *)
Definition or_default (v : js_value) (d : string) : string :=
    if truthy v then js_to_string v else d.

Definition chat_instruction (base : string)
             (userContext : option user_context) : string :=
    match userContext with
    | None => base
    | Some u =>
        base +++ " Personalize your response for the following user: Age: "
             +++ js_to_string (age u)
             +++ ", Weight: " +++ or_default (weight u) "N/A"
             +++ "kg. Pre-existing conditions: "
             +++ or_default (medical_conditions u) "None"
             +++ ". Current symptoms: " +++ or_default (symptoms u) "None"
             +++ "."
    end.

  (** One entry of [predictions.map(p => ...)] in [generateHealthTips]. *)
Definition render_risk {L} (p : json) : M L string :=
    disease <- get_prop p "disease" ;;
    probability <- get_prop p "probability" ;;
    let percent := option_map (fun q => q * 100) (js_to_number probability) in
    ret (js_to_string disease +++ " (" +++ toFixed0 percent +++ "% risk)").

  (** Lines up to the prompt of [generateHealthTips]: destructuring,
      [predictions.map(...).join(', ')] and the template. *)
Definition tips_prompt {L} (analysisData : json) : M L string :=
    healthScore <- get_prop analysisData "healthScore" ;;
    summary <- get_prop analysisData "summary" ;;
    predictions <- get_prop analysisData "predictions" ;;
    risks <- match predictions with
             | Some (JArray items) => mapM render_risk items
             | None => throw (new_TypeError "Cannot read properties of undefined (reading 'map')")
             | Some JNull => throw (new_TypeError "Cannot read properties of null (reading 'map')")
             | Some _ => throw (new_TypeError "predictions.map is not a function")
             end ;;
    let potentialRisks := join ", " risks in
    ret (LF +++ "            Based on the following health summary, generate 3-4 personalized, actionable, and encouraging health tips."
         +++ LF +++ "            The tips should be directly related to the provided data. Be creative and helpful."
         +++ LF +++ "            "
         +++ LF +++ "            Health Score: " +++ js_to_string healthScore +++ "/100"
         +++ LF +++ "            AI Summary: " +++ DQ +++ js_to_string summary +++ DQ
         +++ LF +++ "            Potential Risks: "
         +++ (if (potentialRisks =? EmptyString)%string then "None detected" else potentialRisks)
         +++ LF +++ "            "
         +++ LF +++ "            Generate the tips according to the JSON schema."
         +++ LF +++ "        ").

End Prompts.

(** ** Operations the two services share

    [analyzeHealthReport], [findHospitalsNearLocation] and
    [generateHealthTips] read the same in both files, up to the client
    object and the retry wrapper of the file ([with_retry] below is
    [retryWithBackoff(() => client.models.generateContent(...))] with that
    file's defaults). *)
Module Operations.
Section Operations.

Variable with_retry : request -> J response.
Variable analyze_client maps_client : client.
Variable JSON_parse : string -> option json.
Variable js_to_string : js_value -> string.
Variable js_to_number : js_value -> option Q.
Variable toFixed0 : option Q -> string.

  (** The [if]/[else if]/[else] that builds [contents] in
      [analyzeHealthReport]: the file when it carries data, else the text,
      else the input error. *)
Definition analysis_contents (reportText : option string)
             (fileData : option file_data) : J contents :=
    let prompt := analysis_prompt in
    if truthy_string (fileData_data fileData) then
      ret (ContentsObject
             [TextPart prompt;
              InlineDataPart (fileData_mimeType fileData)
                             (str (fileData_data fileData))])
    else if truthy_string reportText then
      ret (ContentsString
             (prompt +++ LF +++ LF +++ "Here is the report:"
                     +++ LF +++ LF +++ str reportText))
    else throw (new_Error msg_no_report).

  (** The [try] block of [analyzeHealthReport]. *)
Definition analyzeHealthReport_try (reportText : option string)
             (fileData : option file_data) : J json :=
    contents <- analysis_contents reportText fileData ;;
    response <- with_retry
                  (GenerateContent analyze_client "gemini-2.5-flash" contents
                                   (JsonConfig analysisSchema)) ;;
    jsonText <- trimmed_text response ;;
    parsedJson <- parse_or_throw JSON_parse jsonText ;;
    healthScore <- get_prop parsedJson "healthScore" ;;
    if negb (truthy healthScore) then throw (new_Error msg_missing_fields)
    else
      summary <- get_prop parsedJson "summary" ;;
      if negb (truthy summary) then throw (new_Error msg_missing_fields)
      else ret parsedJson.

Definition analyzeHealthReport (reportText : option string)
             (fileData : option file_data) : J json :=
    try_catch (analyzeHealthReport_try reportText fileData)
      (fun error =>
         if instanceof_SyntaxError error
         then throw (new_Error msg_parse_analysis)
         else throw (new_Error msg_invalid_analysis)).

  (** The [if]/[else if]/[else] that builds [contents] and [config] in
      [findHospitalsNearLocation]: the coordinates when both are truthy,
      else the query, else the input error. *)
Definition hospital_request (latitude longitude : option Q)
             (query : option string) : J request :=
    if truthy_number latitude && truthy_number longitude then
      ret (GenerateContent maps_client "gemini-2.5-flash"
             (ContentsString
                (if truthy_string query
                 then str query +++ ". Provide a brief summary and list them."
                 else "What hospitals are nearby my current location? Provide a brief summary and list them."))
             (MapsConfig (Some (num latitude, num longitude))))
    else if truthy_string query then
      ret (GenerateContent maps_client "gemini-2.5-flash"
             (ContentsString
                ("What hospitals are near " +++ str query
                   +++ "? Provide a brief summary and list them."))
             (MapsConfig None))
    else throw (new_Error msg_no_location).

  (** The [try] block of [findHospitalsNearLocation]. *)
Definition findHospitalsNearLocation_try (latitude longitude : option Q)
             (query : option string) : J hospital_result :=
    request <- hospital_request latitude longitude query ;;
    response <- with_retry request ;;
    let chunks := first_grounding_chunks response in
    let hospitals :=
      map chunk_to_hospital
          (filter chunk_has_place
                  (match chunks with Some l => l | None => [] end)) in
    let summaryText :=
      if truthy_string (resp_text response) then str (resp_text response)
      else default_summary in
    ret (mkHospitalResult summaryText hospitals).

Definition findHospitalsNearLocation (latitude longitude : option Q)
             (query : option string) : J hospital_result :=
    try_catch (findHospitalsNearLocation_try latitude longitude query)
      (fun error => throw (new_Error msg_no_hospitals)).

  (** [generateHealthTips] returns [parsedJson.tips]. *)
Definition generateHealthTips (analysisData : json) : J js_value :=
    try_catch
      (prompt <- tips_prompt js_to_string js_to_number toFixed0 analysisData ;;
       response <- with_retry
                     (GenerateContent analyze_client "gemini-2.5-flash"
                                      (ContentsString prompt)
                                      (JsonConfig healthTipsSchema)) ;;
       jsonText <- trimmed_text response ;;
       parsedJson <- parse_or_throw JSON_parse jsonText ;;
       tips <- get_prop parsedJson "tips" ;;
       if negb (truthy tips) || negb (is_array tips)
       then throw (new_Error msg_invalid_tips)
       else ret tips)
      (fun error => throw (new_Error msg_no_tips)).

End Operations.
End Operations.

(** The multi-key service: retries default to 5, jitter to 200 ms. *)
Module AiService.
Section Retry.

Context {L : Type}.
Variable random : nat -> Q.

  (** The [for] loop of [retryWithBackoff] with [remaining = retries - i]
      iterations left; [delay] and [lastError] are the loop's variables. *)
Fixpoint retry_loop {A} (fn : M L A) (remaining : nat)
           (delay jitter : Q) (lastError : thrown) : M L A :=
    match remaining with
    | O => throw lastError
    | S remaining' =>
        try_catch fn (fun error =>
          st <- get_status error ;;
          if is_server_status st then
            r <- Math_random random ;;
            let jitterDelay := r * jitter in
            let waitTime := delay + jitterDelay in
            sleep waitTime ;;;
            retry_loop fn remaining' (delay * 2) jitter error
          else
            throw error)
    end.

Definition retryWithBackoff {A} (fn : M L A)
             (retries : nat) (delay jitter : Q) : M L A :=
    retry_loop fn retries delay jitter ThrownUndefined.

End Retry.

Section Services.

  (** The provider: the outcome of the [n]-th call when it carries request
      [r].  [Math.random], [JSON.parse] and the string conversions are the
      runtime's. *)
Variable provider : request -> nat -> outcome response.
Variable random : nat -> Q.
Variable JSON_parse : string -> option json.
Variable js_to_string : js_value -> string.
Variable js_to_number : js_value -> option Q.
Variable toFixed0 : option Q -> string.

  (** [retryWithBackoff(() => ...)] with the default parameters *)
Definition with_retry (r : request) : J response :=
    retryWithBackoff random (invoke provider r) 5 1000 200.

  (** The [try] block of [textToSpeech]. *)
Definition textToSpeech_try (text : string) (voice : option string)
    : J (option string) :=
    let prompt := "Say: " +++ text in
    response <- with_retry
                  (GenerateContent aiTTS "gemini-2.5-flash-preview-tts"
                                   (ContentsList [[TextPart prompt]])
                                   (SpeechConfig voice)) ;;
    let base64Audio := first_inline_data response in
    if negb (truthy_string base64Audio) then throw (new_Error msg_no_audio)
    else ret base64Audio.

  (** [textToSpeech]: any failure becomes [null]. *)
Definition textToSpeech (text : string) (voice : option string)
    : J (option string) :=
    try_catch (textToSpeech_try text voice) (fun _ => ret None).

Definition chat_base_instruction : string :=
    "You are a friendly and helpful AI health assistant providing information relevant to Nepal. You can answer general health questions. When providing emergency contact information, use Nepali emergency numbers (e.g., Police: 100, Ambulance: 102). You are not a doctor and must always remind the user to consult a healthcare professional for medical advice. Keep your answers concise and easy to understand. Do Not Reply if User Answers are Inappropriate or Irrelevant or out of Context. Answer only Medical Related Questions.".

Definition getChatResponse (message : string) (history : option (list turn))
             (userContext : option user_context)
             (voiceConfig : option voice_config) : J chat_result :=
    let model := "gemini-1.5-flash" in
    let systemInstruction :=
      chat_instruction js_to_string chat_base_instruction userContext in
    try_catch
      (response <- with_retry
                     (SendMessage aiChat model systemInstruction history message) ;;
       let responseText := resp_text response in
       vc <- match voiceConfig with
             | None => throw (new_TypeError "Cannot read properties of undefined (reading 'enabled')")
             | Some vc => ret vc
             end ;;
       if enabled vc && truthy_string responseText then
         audio <- textToSpeech (str responseText) (voice vc) ;;
         ret (mkChatResult responseText audio)
       else ret (mkChatResult responseText None))
      (fun error => throw (new_Error msg_no_chat)).

Definition symptom_prompt (symptomsText : string)
             (userContext : option user_context) : string :=
    let prompt :=
      "You are an AI Symptom Checker. Analyze the following symptoms for a user and provide a list of potential diseases. For each disease, include its probability, a brief description, and the recommended medical specialist. IMPORTANT: This is for informational purposes only and is not a substitute for professional medical advice. Symptoms: "
        +++ DQ +++ symptomsText +++ DQ in
    match userContext with
    | None => prompt
    | Some u =>
        prompt +++ LF +++ LF +++ "User context: Age: " +++ js_to_string (age u)
               +++ ", Pre-existing conditions: "
               +++ or_default js_to_string (medical_conditions u) "None" +++ "."
    end.

Definition primaryModel : string := "gemini-1.5-flash".
Definition fallbackModel : string := "gemini-pro".

  (** The inner [generate] helper of [predictSymptomsFromText]. *)
Definition generate (prompt : string) (model : string) : J response :=
    with_retry (GenerateContent aiSymptoms model
                                (ContentsList [[TextPart prompt]])
                                (JsonConfig symptomPredictionSchema)).

  (** The inner [try]/[catch] of [predictSymptomsFromText]: the primary
      model, then the fallback when the error's status is 503. *)
Definition generate_with_fallback (prompt : string) : J response :=
    try_catch (generate prompt primaryModel)
      (fun error =>
         st <- get_status error ;;
         match st with
         | Some s => if (s =? 503)%Z then generate prompt fallbackModel
                     else throw error
         | None => throw error
         end).

Definition predictSymptomsFromText (symptomsText : string)
             (userContext : option user_context) : J json :=
    let prompt := symptom_prompt symptomsText userContext in
    try_catch
      (response <- generate_with_fallback prompt ;;
       jsonText <- trimmed_text response ;;
       parsedJson <- parse_or_throw JSON_parse jsonText ;;
       predictions <- get_prop parsedJson "predictions" ;;
       if negb (truthy predictions)
       then throw (new_Error msg_missing_predictions)
       else ret parsedJson)
      (fun error =>
         if instanceof_SyntaxError error
         then throw (new_Error msg_parse_symptoms)
         else throw (new_Error msg_invalid_prediction)).

Definition analyzeHealthReport : option string -> option file_data -> J json :=
    Operations.analyzeHealthReport with_retry aiAnalyze JSON_parse.

Definition findHospitalsNearLocation
    : option Q -> option Q -> option string -> J hospital_result :=
    Operations.findHospitalsNearLocation with_retry aiMaps.

Definition generateHealthTips : json -> J js_value :=
    Operations.generateHealthTips with_retry aiAnalyze JSON_parse
                                  js_to_string js_to_number toFixed0.

End Services.
End AiService.

(** The earlier service under backend/services: retries default to 3 and
    the wait is the bare delay. *)
Module GeminiService.
Section Retry.

Context {L : Type}.

Fixpoint retry_loop {A} (fn : M L A) (remaining : nat)
           (delay : Q) (lastError : thrown) : M L A :=
    match remaining with
    | O => throw lastError
    | S remaining' =>
        try_catch fn (fun error =>
          st <- get_status error ;;
          if is_server_status st then
            sleep delay ;;;
            retry_loop fn remaining' (delay * 2) error
          else
            throw error)
    end.

Definition retryWithBackoff {A} (fn : M L A)
             (retries : nat) (delay : Q) : M L A :=
    retry_loop fn retries delay ThrownUndefined.

End Retry.
Section Services.

Variable provider : request -> nat -> outcome response.
Variable JSON_parse : string -> option json.
Variable js_to_string : js_value -> string.
Variable js_to_number : js_value -> option Q.
Variable toFixed0 : option Q -> string.

  (** [retryWithBackoff(() => ...)] with the default parameters *)
Definition with_retry (r : request) : J response :=
    retryWithBackoff (invoke provider r) 3 1000.

Definition analyzeHealthReport : option string -> option file_data -> J json :=
    Operations.analyzeHealthReport with_retry ai JSON_parse.

Definition findHospitalsNearLocation
    : option Q -> option Q -> option string -> J hospital_result :=
    Operations.findHospitalsNearLocation with_retry ai.

Definition generateHealthTips : json -> J js_value :=
    Operations.generateHealthTips with_retry ai JSON_parse
                                  js_to_string js_to_number toFixed0.

Definition chat_base_instruction : string :=
  "You are a friendly and helpful AI health assistant providing information relevant to Nepal. You can answer general health questions. When providing emergency contact information, use Nepali emergency numbers (e.g., Police: 100, Ambulance: 102). You are not a doctor and must always remind the user to consult a healthcare professional for medical advice. Keep your answers concise and easy to understand.".

(** [getChatResponse(message, history = [], userContext = null)] of the
    single-key service: the reply text, with no voice output. *)
Definition getChatResponse (message : string) (history : option (list turn))
           (userContext : option user_context) : J (option string) :=
  let history := match history with Some h => h | None => [] end in
  let model := "gemini-2.5-flash" in
  let systemInstruction :=
    chat_instruction js_to_string chat_base_instruction userContext in
  try_catch
    (response <- with_retry
                   (SendMessage ai model systemInstruction (Some history)
                                message) ;;
     ret (resp_text response))
    (fun error => throw (new_Error msg_no_chat)).

Definition symptom_prompt (symptomsText : string) : string :=
  "You are an AI Symptom Checker. Analyze the following symptoms and provide a list of potential diseases. For each disease, include its probability, a brief description, and the recommended medical specialist. IMPORTANT: This is for informational purposes only and is not a substitute for professional medical advice. Symptoms: "
    +++ DQ +++ symptomsText +++ DQ.

(** [predictSymptomsFromText] of the single-key service: one model, no
    fallback. *)
Definition predictSymptomsFromText (symptomsText : string) : J json :=
  try_catch
    (let prompt := symptom_prompt symptomsText in
     response <- with_retry
                   (GenerateContent ai "gemini-2.5-flash"
                                    (ContentsString prompt)
                                    (JsonConfig symptomPredictionSchema)) ;;
     jsonText <- trimmed_text response ;;
     parsedJson <- parse_or_throw JSON_parse jsonText ;;
     predictions <- get_prop parsedJson "predictions" ;;
     if negb (truthy predictions)
     then throw (new_Error msg_missing_predictions)
     else ret parsedJson)
    (fun error =>
       if instanceof_SyntaxError error
       then throw (new_Error msg_parse_symptoms)
       else throw (new_Error msg_invalid_prediction)).

End Services.
End GeminiService.

(** ** A JSON reader for closed examples

    The theorems below hold for any [JSON_parse].  Closed examples need one
    that runs: a recursive-descent reader of JSON text (white space,
    literals, numbers with fraction and exponent, strings with the
    single-character escapes, arrays, objects with the last duplicate key
    winning).  Unicode escapes are outside the subset and are rejected. *)
Module Json.

Definition dquote : ascii := ascii_of_nat 34.
Definition backslash : ascii := ascii_of_nat 92.

Definition is_digit (c : ascii) : bool :=
    let n := nat_of_ascii c in ((48 <=? n) && (n <=? 57))%nat.

Definition digit_value (c : ascii) : Z := Z.of_nat (nat_of_ascii c - 48).

Definition is_json_space (c : ascii) : bool :=
    let n := nat_of_ascii c in
    ((n =? 9) || (n =? 10) || (n =? 13) || (n =? 32))%nat.

Fixpoint skip_ws (s : list ascii) : list ascii :=
    match s with
    | [] => []
    | c :: s' => if is_json_space c then skip_ws s' else s
    end.

  (** [strip_prefix p s] is the rest of [s] after the literal [p]. *)
Fixpoint strip_prefix (p s : list ascii) : option (list ascii) :=
    match p, s with
    | [], _ => Some s
    | a :: p', b :: s' => if Ascii.eqb a b then strip_prefix p' s' else None
    | _ :: _, [] => None
    end.

  (** Reads a run of digits: its value, its length and the rest. *)
Fixpoint take_digits (s : list ascii) (acc : Z) (count : nat)
    : Z * nat * list ascii :=
    match s with
    | [] => (acc, count, [])
    | c :: s' =>
        if is_digit c
        then take_digits s' (acc * 10 + digit_value c)%Z (S count)
        else (acc, count, s)
    end.

Definition pow10 (n : Z) : Q :=
    if (0 <=? n)%Z then inject_Z (10 ^ n)
    else 1 # Z.to_pos (10 ^ (- n)).

Definition parse_number (s : list ascii) : option (Q * list ascii) :=
    let (negative, s1) :=
      match s with
      | c :: r => if Ascii.eqb c "-"%char then (true, r) else (false, s)
      | [] => (false, s)
      end in
    let '(int_part, int_len, s2) :=
      match s1 with
      | c :: r => if Ascii.eqb c "0"%char then (0%Z, 1%nat, r)
                  else take_digits s1 0%Z 0%nat
      | [] => (0%Z, 0%nat, s1)
      end in
    if (int_len =? 0)%nat then None else
    let fraction :=
      match s2 with
      | c :: r =>
          if Ascii.eqb c "."%char then
            let '(f, len, s3) := take_digits r 0%Z 0%nat in
            if (len =? 0)%nat then None else Some (f, len, s3)
          else Some (0%Z, 0%nat, s2)
      | [] => Some (0%Z, 0%nat, s2)
      end in
    match fraction with
    | None => None
    | Some (f, flen, s3) =>
        let exponent :=
          match s3 with
          | c :: r =>
              if Ascii.eqb c "e"%char || Ascii.eqb c "E"%char then
                let (eneg, r') :=
                  match r with
                  | d :: r'' =>
                      if Ascii.eqb d "-"%char then (true, r'')
                      else if Ascii.eqb d "+"%char then (false, r'')
                      else (false, r)
                  | [] => (false, r)
                  end in
                let '(e, len, s4) := take_digits r' 0%Z 0%nat in
                if (len =? 0)%nat then None
                else Some ((if eneg then - e else e)%Z, s4)
              else Some (0%Z, s3)
          | [] => Some (0%Z, s3)
          end in
        match exponent with
        | None => None
        | Some (e, s4) =>
            let magnitude :=
              (inject_Z int_part + inject_Z f * pow10 (- Z.of_nat flen))
              * pow10 e in
            Some (Qred (if negative then - magnitude else magnitude), s4)
        end
    end.

Definition unescape (c : ascii) : option ascii :=
    if Ascii.eqb c dquote then Some dquote
    else if Ascii.eqb c backslash then Some backslash
    else if Ascii.eqb c "/"%char then Some "/"%char
    else if Ascii.eqb c "b"%char then Some (ascii_of_nat 8)
    else if Ascii.eqb c "f"%char then Some (ascii_of_nat 12)
    else if Ascii.eqb c "n"%char then Some (ascii_of_nat 10)
    else if Ascii.eqb c "r"%char then Some (ascii_of_nat 13)
    else if Ascii.eqb c "t"%char then Some (ascii_of_nat 9)
    else None.

  (** The characters after an opening quote, up to the closing one. *)
Fixpoint parse_string_body (s acc : list ascii)
    : option (string * list ascii) :=
    match s with
    | [] => None
    | c :: r =>
        if Ascii.eqb c dquote then Some (string_of_list_ascii (rev acc), r)
        else if Ascii.eqb c backslash then
          match r with
          | e :: r' =>
              match unescape e with
              | Some ch => parse_string_body r' (ch :: acc)
              | None => None
              end
          | [] => None
          end
        else if (nat_of_ascii c <? 32)%nat then None
        else parse_string_body r (c :: acc)
    end.

Fixpoint set_field (k : string) (v : json) (fields : list (string * json))
    : list (string * json) :=
    match fields with
    | [] => [(k, v)]
    | (k', v') :: rest =>
        if (k =? k')%string then (k, v) :: rest
        else (k', v') :: set_field k v rest
    end.

Fixpoint parse_value (fuel : nat) (s : list ascii)
    : option (json * list ascii) :=
    match fuel with
    | O => None
    | S fuel' =>
        let s := skip_ws s in
        match s with
        | [] => None
        | c :: r =>
            if Ascii.eqb c dquote then
              match parse_string_body r [] with
              | Some (str, rest) => Some (JString str, rest)
              | None => None
              end
            else if Ascii.eqb c "["%char then
              match skip_ws r with
              | d :: r' =>
                  if Ascii.eqb d "]"%char then Some (JArray [], r')
                  else parse_elements fuel' r []
              | [] => None
              end
            else if Ascii.eqb c "{"%char then
              match skip_ws r with
              | d :: r' =>
                  if Ascii.eqb d "}"%char then Some (JObject [], r')
                  else parse_members fuel' r []
              | [] => None
              end
            else
              match strip_prefix (list_ascii_of_string "null") s with
              | Some rest => Some (JNull, rest)
              | None =>
              match strip_prefix (list_ascii_of_string "true") s with
              | Some rest => Some (JBool true, rest)
              | None =>
              match strip_prefix (list_ascii_of_string "false") s with
              | Some rest => Some (JBool false, rest)
              | None =>
              match parse_number s with
              | Some (q, rest) => Some (JNumber q, rest)
              | None => None
              end end end end
        end
    end
  with parse_elements (fuel : nat) (s : list ascii) (acc : list json)
    : option (json * list ascii) :=
    match fuel with
    | O => None
    | S fuel' =>
        match parse_value fuel' s with
        | None => None
        | Some (v, r) =>
            match skip_ws r with
            | c :: r' =>
                if Ascii.eqb c ","%char then parse_elements fuel' r' (v :: acc)
                else if Ascii.eqb c "]"%char
                     then Some (JArray (rev (v :: acc)), r')
                     else None
            | [] => None
            end
        end
    end
  with parse_members (fuel : nat) (s : list ascii)
                     (acc : list (string * json))
    : option (json * list ascii) :=
    match fuel with
    | O => None
    | S fuel' =>
        match skip_ws s with
        | q :: r0 =>
            if Ascii.eqb q dquote then
              match parse_string_body r0 [] with
              | None => None
              | Some (k, r1) =>
                  match skip_ws r1 with
                  | colon :: r2 =>
                      if Ascii.eqb colon ":"%char then
                        match parse_value fuel' r2 with
                        | None => None
                        | Some (v, r3) =>
                            match skip_ws r3 with
                            | c :: r4 =>
                                if Ascii.eqb c ","%char
                                then parse_members fuel' r4 (set_field k v acc)
                                else if Ascii.eqb c "}"%char
                                     then Some (JObject (set_field k v acc), r4)
                                     else None
                            | [] => None
                            end
                        end
                      else None
                  | [] => None
                  end
              end
            else None
        | [] => None
        end
    end.

Definition parse (text : string) : option json :=
    let s := list_ascii_of_string text in
    match parse_value (List.length s + 2) s with
    | Some (v, rest) =>
        match skip_ws rest with
        | [] => Some v
        | _ :: _ => None
        end
    | None => None
    end.

End Json.


(** ** Vocabulary of the statements *)

(** An attempt that the retry wrapper answers with a wait and a new
    attempt: an error object whose status passes the 5xx test. *)
Definition is_server_failure {A} (o : outcome A) : bool :=
  match o with
  | Threw (ThrownError e) => is_server_status (err_status e)
  | _ => false
  end.

(** What an attempt that is not a server failure makes the wrapper yield:
    the returned value, or the thrown error itself; reading [status] of a
    thrown [undefined] is a TypeError. *)
Definition settle {A} (o : outcome A) : outcome A :=
  match o with
  | Threw ThrownUndefined =>
      Threw (new_TypeError "Cannot read properties of undefined (reading 'status')")
  | _ => o
  end.

(** The thrown value of an attempt ([undefined] if it returned). *)
Definition thrown_of {A} (o : outcome A) : thrown :=
  match o with
  | Threw x => x
  | Returned _ => ThrownUndefined
  end.

(** The field [k] of a parsed document: [undefined] when the document is
    not an object or has no such field. *)
Definition field (v : json) (k : string) : js_value :=
  match v with
  | JObject fields => lookup k fields
  | _ => None
  end.

(** All names of [required] are fields of the document. *)
Definition has_required (required : list string) (v : json) : bool :=
  forallb (fun k => match field v k with Some _ => true | None => false end)
          required.

(** The chunks the lookup reads from a reply, [(chunks || [])]: none when
    the provider sent no grounding metadata. *)
Definition chunks_of (resp : response) : list grounding_chunk :=
  match first_grounding_chunks resp with
  | Some chunks => chunks
  | None => []
  end.

(** The error a [catch] block of the service rethrows: the parse message
    for a SyntaxError, the generic message otherwise. *)
Definition translate (parse_msg generic_msg : string) (x : thrown) : thrown :=
  if instanceof_SyntaxError x then new_Error parse_msg
  else new_Error generic_msg.

(** The value of [lastError] after [m] failed attempts that started at
    call number [c]. *)
Definition last_thrown {L A} (oracle : L -> nat -> outcome A) (l : L)
           (m : nat) (initial : thrown) (c : nat) : thrown :=
  match m with
  | O => initial
  | S m' => thrown_of (oracle l (c + m')%nat)
  end.

(** The delay after [k] doublings. *)
Definition delay_at (delay : Q) (k : nat) : Q :=
  Nat.iter k (fun d => d * 2) delay.

Section Rounds.

Context {L : Type}.
Variable random : nat -> Q.
Variable l : L.

  (** The events of [k] failed attempts in a row in the multi-key service:
      the call, the draw, the wait. *)
Fixpoint jitter_rounds (k : nat) (draws : nat) (delay jitter : Q) : trace L :=
    match k with
    | O => []
    | S k' =>
        EvCall l :: EvRandom (random draws)
               :: EvSleep (delay + random draws * jitter)
               :: jitter_rounds k' (S draws) (delay * 2) jitter
    end.

  (** The same in the single-key service: the call, the wait. *)
Fixpoint plain_rounds (k : nat) (delay : Q) : trace L :=
    match k with
    | O => []
    | S k' => EvCall l :: EvSleep delay :: plain_rounds k' (delay * 2)
    end.

End Rounds.

(** ** Scenarios for the closed examples *)
Module Scenario.

Definition e503 : js_error :=
    mkError ApiErrorClass (Some 503%Z) "The model is overloaded.".
Definition e500 : js_error :=
    mkError ApiErrorClass (Some 500%Z) "Internal error.".
Definition e429 : js_error :=
    mkError ApiErrorClass (Some 429%Z) "Resource exhausted.".
Definition e_network : js_error :=
    mkError ErrorClass None "fetch failed".

  (** Every draw of [Math.random()] is one half. *)
Definition half : nat -> Q := fun _ => 1 # 2.

  (** A wrapped function that fails with 503 once, then with 429. *)
Definition overloaded_then_limited : string -> nat -> outcome nat :=
    fun _ n => match n with
               | O => Threw (ThrownError e503)
               | _ => Threw (ThrownError e429)
               end.

  (** A wrapped function that fails with 503 once, then without status. *)
Definition overloaded_then_offline : string -> nat -> outcome nat :=
    fun _ n => match n with
               | O => Threw (ThrownError e503)
               | _ => Threw (ThrownError e_network)
               end.

  (** A wrapped function that fails with 500, then with 503 for ever. *)
Definition always_down : string -> nat -> outcome nat :=
    fun _ n => match n with
               | O => Threw (ThrownError e500)
               | _ => Threw (ThrownError e503)
               end.

  (** A wrapped function that fails with 503 twice, then returns. *)
Definition recovers_third : string -> nat -> outcome nat :=
    fun _ n => match n with
               | O | S O => Threw (ThrownError e503)
               | _ => Returned 7%nat
               end.

  (** The provider is overloaded: every call fails with 503. *)
Definition overloaded : request -> nat -> outcome response :=
    fun _ _ => Threw (ThrownError e503).

  (** Every call is refused with 429. *)
Definition limited : request -> nat -> outcome response :=
    fun _ _ => Threw (ThrownError e429).

Definition reply (text : string) : response :=
    mkResponse (Some text) None.

  (** Every call is answered with the same text. *)
Definition answers (text : string) : request -> nat -> outcome response :=
    fun _ _ => Returned (reply text).

Definition quoted (s : string) : string := DQ +++ s +++ DQ.

  (** A reply with a summary and a score and nothing else. *)
Definition text_partial : string :=
    "{" +++ quoted "summary" +++ ":" +++ quoted "All good" +++ ","
        +++ quoted "healthScore" +++ ":82}".

  (** A reply with all four fields and the lowest score. *)
Definition text_zero_score : string :=
    "{" +++ quoted "summary" +++ ":" +++ quoted "Critical" +++ ","
        +++ quoted "predictions" +++ ":[],"
        +++ quoted "healthScore" +++ ":0,"
        +++ quoted "recommendations" +++ ":[]}".

  (** A complete reply, with white space around it. *)
Definition text_full : string :=
    "  {" +++ quoted "summary" +++ ":" +++ quoted "Stable" +++ ","
          +++ quoted "predictions" +++ ":[],"
          +++ quoted "healthScore" +++ ":74,"
          +++ quoted "recommendations" +++ ":[" +++ quoted "Rest" +++ "]} ".

Definition text_no_score : string :=
    "{" +++ quoted "summary" +++ ":" +++ quoted "Stable" +++ "}".

Definition text_predictions : string :=
    "{" +++ quoted "predictions" +++ ":[]}".

Definition text_no_predictions : string :=
    "{" +++ quoted "note" +++ ":" +++ quoted "none" +++ "}".

Definition text_prose : string := "I'm sorry, I can't help with that.".

Definition bytes (l : list nat) : string :=
  string_of_list_ascii (map ascii_of_nat l).

(** U+FEFF, U+00A0, U+2028 and U+3000 in UTF-8. *)
Definition BOM : string := bytes [239; 187; 191]%nat.
Definition NBSP : string := bytes [194; 160]%nat.
Definition LSEP : string := bytes [226; 128; 168]%nat.
Definition IDSP : string := bytes [227; 128; 128]%nat.

(** A reply with predictions, padded with Unicode white space. *)
Definition text_padded : string :=
  BOM +++ NBSP +++ " " +++ text_predictions +++ LSEP +++ LF +++ IDSP
      +++ NBSP.

  (** The primary model is overloaded, the fallback model answers. *)
Definition fallback_answers : request -> nat -> outcome response :=
    fun r _ => if (request_model r =? "gemini-pro")%string
               then Returned (reply text_predictions)
               else Threw (ThrownError e503).

  (** The chat answers, speech synthesis is down. *)
Definition chat_without_speech : request -> nat -> outcome response :=
    fun r _ => match r with
               | SendMessage _ _ _ _ _ => Returned (reply "Drink water and rest.")
               | GenerateContent _ _ _ _ => Threw (ThrownError e500)
               end.

  (** The chat answers, speech synthesis replies without audio. *)
Definition chat_silent_speech : request -> nat -> outcome response :=
    fun r _ => match r with
               | SendMessage _ _ _ _ _ => Returned (reply "Drink water and rest.")
               | GenerateContent _ _ _ _ => Returned (mkResponse None None)
               end.

Definition place (uri title : option string) : grounding_chunk :=
    mkChunk (Some (mkMaps uri title)).

  (** Four chunks: a full place, one without uri, one that is no place,
      one with an empty title. *)
Definition grounded_reply : response :=
    mkResponse (Some "Two hospitals are close.")
      (Some [mkCandidate None
               (Some (mkGrounding
                        (Some [place (Some "https://maps.example/bir") (Some "Bir Hospital");
                               place None (Some "Teaching Hospital");
                               mkChunk None;
                               place (Some "https://maps.example/x") (Some EmptyString)])))]).

Definition maps_answer : request -> nat -> outcome response :=
    fun _ _ => Returned grounded_reply.

  (** Stand-ins for the runtime's conversions in closed examples. *)
Definition to_string (v : js_value) : string :=
    match v with
    | None => "undefined"
    | Some JNull => "null"
    | Some (JBool true) => "true"
    | Some (JBool false) => "false"
    | Some (JString s) => s
    | Some (JNumber q) => NilEmpty.string_of_int (Z.to_int (Qfloor q))
    | Some (JArray _) => EmptyString
    | Some (JObject _) => "[object Object]"
    end.

Definition to_number (v : js_value) : option Q :=
    match v with
    | Some (JNumber q) => Some q
    | Some JNull => Some 0
    | Some (JBool true) => Some 1
    | Some (JBool false) => Some 0
    | _ => None
    end.

Definition to_fixed0 (q : option Q) : string :=
    match q with
    | Some q => NilEmpty.string_of_int (Z.to_int (Qfloor (q + (1 # 2))))
    | None => "NaN"
    end.

Definition analysis_data : json :=
    JObject [("healthScore", JNumber 82); ("summary", JString "All good");
             ("predictions", JArray [])].

End Scenario.

(** ** The HTTP routes that call the multi-key service

    [routes/aiRoutes]: each handler reads the request body, answers 400
    when its guard fails, calls the service and answers with the result, or
    with status 500 and the error's message.  A handler yields the response
    it sends; the analysis handler also yields the row it hands to
    [db.run]. *)

Inductive http_body : Type :=
| BodyError (error : string)            (* { error } *)
| BodyAnalysis (analysisResult : json)
| BodyChat (responseData : chat_result)
| BodyPrediction (result : json)
| BodyHospitals (result : hospital_result)
| BodyTips (tips : js_value).           (* { tips } *)

Record http_response : Type := mkHttp {
  http_status : nat;
  http_body_of : http_body
}.

(** The parameters of the INSERT into [analyses]. *)
Record analysis_row : Type := mkRow {
  row_user_id : Z;
  row_report_data : string;
  row_summary : js_value;
  row_predictions : option string;      (* JSON.stringify(predictions) *)
  row_health_score : js_value;
  row_recommendations : option string   (* JSON.stringify(recommendations) *)
}.

(** What [db.get] hands to the chat handler: an error, or the row found
    (none when the user is unknown). *)
Inductive db_user : Type :=
| DbError
| DbRow (row : option user_context).

(** [error.message || fallback]; reading [message] of a thrown [undefined]
    is a TypeError. *)
Definition message_or (error : thrown) (fallback : string) : J string :=
  match error with
  | ThrownUndefined =>
      throw (new_TypeError "Cannot read properties of undefined (reading 'message')")
  | ThrownError e =>
      ret (if negb (err_message e =? EmptyString)%string then err_message e
           else fallback)
  end.

(** [error.message] *)
Definition message_of (error : thrown) : J string :=
  match error with
  | ThrownUndefined =>
      throw (new_TypeError "Cannot read properties of undefined (reading 'message')")
  | ThrownError e => ret (err_message e)
  end.

Definition is_defined {A} (v : option A) : bool :=
  match v with Some _ => true | None => false end.

Module AiRoutes.
Section Routes.

Variable provider : request -> nat -> outcome response.
Variable random : nat -> Q.
Variable JSON_parse : string -> option json.
Variable JSON_stringify : json -> string.
Variable js_to_string : js_value -> string.
Variable js_to_number : js_value -> option Q.
Variable toFixed0 : option Q -> string.

(** [router.post('/analyze', ...)] *)
Definition analyze (userId : Z) (reportText : option string)
           (fileData : option file_data)
  : J (http_response * option analysis_row) :=
  if negb (truthy_string reportText) && negb (is_defined fileData) then
    ret (mkHttp 400 (BodyError "Report text or file is required."), None)
  else
    try_catch
      (analysisResult <- AiService.analyzeHealthReport provider random
                           JSON_parse reportText fileData ;;
       summary <- get_prop analysisResult "summary" ;;
       predictions <- get_prop analysisResult "predictions" ;;
       healthScore <- get_prop analysisResult "healthScore" ;;
       recommendations <- get_prop analysisResult "recommendations" ;;
       let reportDataToStore :=
         if truthy_string reportText then str reportText
         else "[Analyzed PDF file]" in
       let params :=
         mkRow userId reportDataToStore summary
               (option_map JSON_stringify predictions) healthScore
               (option_map JSON_stringify recommendations) in
       ret (mkHttp 200 (BodyAnalysis analysisResult), Some params))
      (fun error =>
         msg <- message_or error "An internal error occurred during analysis." ;;
         ret (mkHttp 500 (BodyError msg), None)).

(** [router.post('/chat', ...)]: the handler looks the user up first; a
    failed lookup leaves the context [null]. *)
Definition chat (message : option string) (history : option (list turn))
           (voiceConfig : option voice_config) (lookup_user : db_user)
  : J http_response :=
  if negb (truthy_string message) then
    ret (mkHttp 400 (BodyError "Message is required."))
  else
    let userContext :=
      match lookup_user with
      | DbError => None
      | DbRow row => row
      end in
    try_catch
      (responseData <- AiService.getChatResponse provider random
                         js_to_string (str message) history userContext
                         voiceConfig ;;
       ret (mkHttp 200 (BodyChat responseData)))
      (fun error =>
         msg <- message_of error ;;
         ret (mkHttp 500 (BodyError msg))).


(** [router.post('/find-hospitals', ...)] *)
Definition find_hospitals (lat lon : option Q) (query : option string)
  : J http_response :=
  if (negb (is_defined lat) || negb (is_defined lon))
     && negb (truthy_string query) then
    ret (mkHttp 400
           (BodyError "Either coordinates or a location query is required."))
  else
    try_catch
      (result <- AiService.findHospitalsNearLocation provider random
                   lat lon query ;;
       ret (mkHttp 200 (BodyHospitals result)))
      (fun error =>
         msg <- message_or error
                  "An internal error occurred while finding hospitals." ;;
         ret (mkHttp 500 (BodyError msg))).


End Routes.
End AiRoutes.

(** ** More vocabulary *)

(** The time spent asleep in a trace, in milliseconds. *)
Definition total_wait {L} (t : trace L) : Q :=
  fold_right Qplus 0 (sleeps_of t).

Definition request_client (r : request) : client :=
  match r with
  | GenerateContent c _ _ _ => c
  | SendMessage c _ _ _ _ => c
  end.

Definition is_speech_call (e : event request) : bool :=
  match e with
  | EvCall r => match request_client r with aiTTS => true | _ => false end
  | _ => false
  end.

(** Number of calls of a trace that went through the speech client. *)
Definition speech_calls (t : trace request) : nat :=
  List.length (filter is_speech_call t).


(** The request [getChatResponse] of the multi-key service sends for the
    text of a turn. *)
Definition chat_request (js_to_string : js_value -> string)
           (message : string) (history : option (list turn))
           (userContext : option user_context) : request :=
  SendMessage aiChat "gemini-1.5-flash"
    (chat_instruction js_to_string AiService.chat_base_instruction
                      userContext)
    history message.

(** The request [getChatResponse] of the single-key service sends. *)
Definition legacy_chat_request (js_to_string : js_value -> string)
           (message : string) (history : option (list turn))
           (userContext : option user_context) : request :=
  SendMessage ai "gemini-2.5-flash"
    (chat_instruction js_to_string GeminiService.chat_base_instruction
                      userContext)
    (Some (match history with Some h => h | None => [] end)) message.

(** The request [textToSpeech] sends. *)
Definition speech_request (text : string) (voice : option string) : request :=
  GenerateContent aiTTS "gemini-2.5-flash-preview-tts"
                  (ContentsList [[TextPart ("Say: " +++ text)]])
                  (SpeechConfig voice).

(** ** API keys at module load

    The multi-key service reads five keys, each falling back to the shared
    [API_KEY], and refuses to load only when all five results are falsy;
    the single-key service needs [API_KEY] itself. *)
Record environment : Type := mkEnv {
  ANALYZE_API_KEY : option string;
  SYMPTOMS_API_KEY : option string;
  CHAT_API_KEY : option string;
  TTS_API_KEY : option string;
  MAPS_API_KEY : option string;
  API_KEY : option string
}.

Record client_keys : Type := mkKeys {
  analyze_key : option string;
  symptoms_key : option string;
  chat_key : option string;
  tts_key : option string;
  maps_key : option string
}.

(** [process.env.X || process.env.API_KEY] *)
Definition key_or (specific shared : option string) : option string :=
  if truthy_string specific then specific else shared.

Definition msg_no_keys : string :=
  "No API keys found. Set ANALYZE_API_KEY, SYMPTOMS_API_KEY, CHAT_API_KEY, TTS_API_KEY or API_KEY in backend .env".

Definition msg_no_key : string :=
  "API_KEY environment variable not set in backend .env".

(** Loading the multi-key service: the keys its five clients are built
    with, or the error thrown at load. *)
Definition load_ai_service (env : environment) : outcome client_keys :=
  let analyze := key_or (ANALYZE_API_KEY env) (API_KEY env) in
  let symptoms := key_or (SYMPTOMS_API_KEY env) (API_KEY env) in
  let chat := key_or (CHAT_API_KEY env) (API_KEY env) in
  let tts := key_or (TTS_API_KEY env) (API_KEY env) in
  let maps := key_or (MAPS_API_KEY env) (API_KEY env) in
  if negb (truthy_string analyze) && negb (truthy_string symptoms)
     && negb (truthy_string chat) && negb (truthy_string tts)
     && negb (truthy_string maps)
  then Threw (new_Error msg_no_keys)
  else Returned (mkKeys analyze symptoms chat tts maps).

(** Loading the single-key service: the key of its one client. *)
Definition load_gemini_service (env : environment) : outcome (option string) :=
  if negb (truthy_string (API_KEY env)) then Threw (new_Error msg_no_key)
  else Returned (API_KEY env).

(** * Properties *)

(** ** Traces *)

Lemma ncalls_app {L} (t1 t2 : trace L) :
  ncalls (t1 ++ t2) = (ncalls t1 + ncalls t2)%nat.
Proof.
  unfold ncalls. rewrite filter_app, length_app. reflexivity.
Qed.

Lemma ndraws_app {L} (t1 t2 : trace L) :
  ndraws (t1 ++ t2) = (ndraws t1 + ndraws t2)%nat.
Proof.
  unfold ndraws. rewrite filter_app, length_app. reflexivity.
Qed.

Lemma sleeps_of_app {L} (t1 t2 : trace L) :
  sleeps_of (t1 ++ t2) = sleeps_of t1 ++ sleeps_of t2.
Proof.
  induction t1 as [|e t1 IH]; simpl; [reflexivity|].
  destruct e; simpl; rewrite IH; reflexivity.
Qed.

Lemma ncalls_snoc_call {L} (t : trace L) (l : L) :
  ncalls (t ++ [EvCall l]) = S (ncalls t).
Proof. rewrite ncalls_app. unfold ncalls at 2. simpl. lia. Qed.

Lemma ndraws_snoc_call {L} (t : trace L) (l : L) :
  ndraws (t ++ [EvCall l]) = ndraws t.
Proof. rewrite ndraws_app. unfold ndraws at 2. simpl. lia. Qed.

Lemma ncalls_jitter_rounds {L} (random : nat -> Q) (l : L) k nd d j :
  ncalls (jitter_rounds random l k nd d j) = k.
Proof.
  revert nd d. induction k as [|k IH]; intros nd d; [reflexivity|].
  simpl. unfold ncalls in *. simpl. rewrite IH. reflexivity.
Qed.

Lemma ncalls_plain_rounds {L} (l : L) k d :
  ncalls (plain_rounds l k d) = k.
Proof.
  revert d. induction k as [|k IH]; intros d; [reflexivity|].
  simpl. unfold ncalls in *. simpl. rewrite IH. reflexivity.
Qed.

Lemma delay_at_shift (d : Q) (k : nat) :
  delay_at (d * 2) k = delay_at d (S k).
Proof.
  unfold delay_at. induction k as [|k IH]; simpl; [reflexivity|].
  rewrite IH. reflexivity.
Qed.

(** Doubling [k] times multiplies the delay by [2 ^ k]. *)
Lemma delay_at_pow (d : Q) (k : nat) :
  delay_at d k == d * inject_Z (2 ^ Z.of_nat k).
Proof.
  induction k as [|k IH].
  - unfold delay_at. simpl. ring.
  - change (delay_at d (S k)) with (delay_at d k * 2).
    rewrite IH, Nat2Z.inj_succ, Z.pow_succ_r by lia.
    rewrite inject_Z_mult. ring.
Qed.

Lemma sleeps_of_jitter_rounds {L} (random : nat -> Q) (l : L) k nd d j :
  sleeps_of (jitter_rounds random l k nd d j)
  = map (fun i => delay_at d i + random (nd + i)%nat * j) (seq 0 k).
Proof.
  revert nd d. induction k as [|k IH]; intros nd d; [reflexivity|].
  simpl. rewrite IH, <- seq_shift, map_map. f_equal.
  - unfold delay_at. simpl. rewrite Nat.add_0_r. reflexivity.
  - apply map_ext. intros i. rewrite delay_at_shift.
    replace (S nd + i)%nat with (nd + S i)%nat by lia. reflexivity.
Qed.

Lemma sleeps_of_plain_rounds {L} (l : L) k d :
  sleeps_of (plain_rounds l k d) = map (delay_at d) (seq 0 k).
Proof.
  revert d. induction k as [|k IH]; intros d; [reflexivity|].
  simpl. rewrite IH, <- seq_shift, map_map. f_equal.
  apply map_ext. intros i. apply delay_at_shift.
Qed.

(** ** Trimming *)

(** [trim] strips the Unicode white space of the language as well as the
    ASCII one, at both ends, and leaves the inside of the text alone. *)
Example trim_strips_unicode_white_space :
  trim Scenario.text_padded = Scenario.text_predictions
  /\ trim (Scenario.NBSP +++ "a" +++ Scenario.NBSP +++ "b" +++ Scenario.BOM)
     = "a" +++ Scenario.NBSP +++ "b"
  /\ Json.parse (trim Scenario.text_padded)
     = Some (JObject [("predictions", JArray [])]).
Proof. repeat split; vm_compute; reflexivity. Qed.

(** A reply padded with such white space is parsed and returned, in both
    services. *)
Example padded_reply_is_accepted :
  fst (AiService.predictSymptomsFromText
         (Scenario.answers Scenario.text_padded) Scenario.half Json.parse
         Scenario.to_string "fever" None [])
  = Returned (JObject [("predictions", JArray [])])
  /\ fst (GeminiService.predictSymptomsFromText
            (Scenario.answers Scenario.text_padded) Json.parse "fever" [])
     = Returned (JObject [("predictions", JArray [])]).
Proof. split; vm_compute; reflexivity. Qed.

(** ** The retry loop, attempt by attempt *)

Section RetryFacts.

Context {L A : Type}.
Variable random : nat -> Q.
Variable oracle : L -> nat -> outcome A.
Variable l : L.

Lemma ai_retry_step n d j last t :
    AiService.retry_loop random (invoke oracle l) (S n) d j last t
    = if is_server_failure (oracle l (ncalls t))
      then AiService.retry_loop random (invoke oracle l) n (d * 2) j
             (thrown_of (oracle l (ncalls t)))
             (t ++ [EvCall l; EvRandom (random (ndraws t));
                    EvSleep (d + random (ndraws t) * j)])
      else (settle (oracle l (ncalls t)), t ++ [EvCall l]).
  Proof.
    simpl. unfold try_catch, invoke.
    destruct (oracle l (ncalls t)) as [a|[|e]]; simpl; try reflexivity.
    unfold bind at 1. simpl.
    destruct (is_server_status (err_status e)); [|reflexivity].
    unfold bind, Math_random, sleep. simpl.
    rewrite !ndraws_snoc_call.
    rewrite <- !app_assoc. reflexivity.
  Qed.

Lemma gemini_retry_step n d last t :
    GeminiService.retry_loop (invoke oracle l) (S n) d last t
    = if is_server_failure (oracle l (ncalls t))
      then GeminiService.retry_loop (invoke oracle l) n (d * 2)
             (thrown_of (oracle l (ncalls t)))
             (t ++ [EvCall l; EvSleep d])
      else (settle (oracle l (ncalls t)), t ++ [EvCall l]).
  Proof.
    simpl. unfold try_catch, invoke.
    destruct (oracle l (ncalls t)) as [a|[|e]]; simpl; try reflexivity.
    unfold bind at 1. simpl.
    destruct (is_server_status (err_status e)); [|reflexivity].
    unfold bind, sleep. simpl.
    rewrite <- !app_assoc. reflexivity.
  Qed.

  (** Every run of the loop is [m] server failures in a row, each followed
      by its wait, and then either the budget is spent ([m = N]) and
      [lastError] is thrown, or one more attempt settles the call. *)
Lemma ai_retry_run N : forall d j last t,
    exists m, (m <= N)%nat /\
      (forall i, (i < m)%nat ->
         is_server_failure (oracle l (ncalls t + i)) = true) /\
      ((m = N /\
        AiService.retry_loop random (invoke oracle l) N d j last t
        = (Threw (last_thrown oracle l m last (ncalls t)),
           t ++ jitter_rounds random l m (ndraws t) d j))
       \/
       ((m < N)%nat /\
        is_server_failure (oracle l (ncalls t + m)) = false /\
        AiService.retry_loop random (invoke oracle l) N d j last t
        = (settle (oracle l (ncalls t + m)),
           t ++ jitter_rounds random l m (ndraws t) d j ++ [EvCall l]))).
  Proof.
    induction N as [|N IH]; intros d j last t.
    - exists 0%nat. split; [lia|]. split; [intros i Hi; lia|].
      left. split; [reflexivity|]. simpl. rewrite app_nil_r. reflexivity.
    - rewrite ai_retry_step.
      destruct (is_server_failure (oracle l (ncalls t))) eqn:Hfail.
      + set (t1 := t ++ [EvCall l; EvRandom (random (ndraws t));
                         EvSleep (d + random (ndraws t) * j)]).
        assert (Hc : ncalls t1 = S (ncalls t)).
        { unfold t1. rewrite ncalls_app. unfold ncalls at 2. simpl. lia. }
        assert (Hd : ndraws t1 = S (ndraws t)).
        { unfold t1. rewrite ndraws_app. unfold ndraws at 2. simpl. lia. }
        destruct (IH (d * 2) j (thrown_of (oracle l (ncalls t))) t1)
          as (m & Hle & Hall & Hres).
        exists (S m). split; [lia|]. split.
        * intros [|i] Hi.
          -- rewrite Nat.add_0_r. exact Hfail.
          -- replace (ncalls t + S i)%nat with (ncalls t1 + i)%nat by lia.
             apply Hall. lia.
        * rewrite Hc, Hd in Hres.
          assert (Ht : forall rest,
                     t1 ++ rest
                     = t ++ EvCall l :: EvRandom (random (ndraws t))
                         :: EvSleep (d + random (ndraws t) * j) :: rest).
          { intros rest. unfold t1. rewrite <- app_assoc. reflexivity. }
          destruct Hres as [(Hm & Hrun)|(Hlt & Hlast & Hrun)].
          -- left. split; [lia|]. rewrite Hrun, Ht. simpl. f_equal. f_equal.
             destruct m as [|m']; simpl.
             ++ rewrite Nat.add_0_r. reflexivity.
             ++ f_equal. f_equal. lia.
          -- right. split; [lia|].
             replace (ncalls t + S m)%nat with (S (ncalls t) + m)%nat by lia.
             split; [exact Hlast|]. rewrite Hrun, Ht. reflexivity.
      + exists 0%nat. split; [lia|]. split; [intros i Hi; lia|].
        right. split; [lia|]. rewrite Nat.add_0_r.
        split; [exact Hfail|]. reflexivity.
  Qed.

Lemma gemini_retry_run N : forall d last t,
    exists m, (m <= N)%nat /\
      (forall i, (i < m)%nat ->
         is_server_failure (oracle l (ncalls t + i)) = true) /\
      ((m = N /\
        GeminiService.retry_loop (invoke oracle l) N d last t
        = (Threw (last_thrown oracle l m last (ncalls t)),
           t ++ plain_rounds l m d))
       \/
       ((m < N)%nat /\
        is_server_failure (oracle l (ncalls t + m)) = false /\
        GeminiService.retry_loop (invoke oracle l) N d last t
        = (settle (oracle l (ncalls t + m)),
           t ++ plain_rounds l m d ++ [EvCall l]))).
  Proof.
    induction N as [|N IH]; intros d last t.
    - exists 0%nat. split; [lia|]. split; [intros i Hi; lia|].
      left. split; [reflexivity|]. simpl. rewrite app_nil_r. reflexivity.
    - rewrite gemini_retry_step.
      destruct (is_server_failure (oracle l (ncalls t))) eqn:Hfail.
      + set (t1 := t ++ [EvCall l; EvSleep d]).
        assert (Hc : ncalls t1 = S (ncalls t)).
        { unfold t1. rewrite ncalls_app. unfold ncalls at 2. simpl. lia. }
        destruct (IH (d * 2) (thrown_of (oracle l (ncalls t))) t1)
          as (m & Hle & Hall & Hres).
        exists (S m). split; [lia|]. split.
        * intros [|i] Hi.
          -- rewrite Nat.add_0_r. exact Hfail.
          -- replace (ncalls t + S i)%nat with (ncalls t1 + i)%nat by lia.
             apply Hall. lia.
        * rewrite Hc in Hres.
          assert (Ht : forall rest,
                     t1 ++ rest = t ++ EvCall l :: EvSleep d :: rest).
          { intros rest. unfold t1. rewrite <- app_assoc. reflexivity. }
          destruct Hres as [(Hm & Hrun)|(Hlt & Hlast & Hrun)].
          -- left. split; [lia|]. rewrite Hrun, Ht. simpl. f_equal. f_equal.
             destruct m as [|m']; simpl.
             ++ rewrite Nat.add_0_r. reflexivity.
             ++ f_equal. f_equal. lia.
          -- right. split; [lia|].
             replace (ncalls t + S m)%nat with (S (ncalls t) + m)%nat by lia.
             split; [exact Hlast|]. rewrite Hrun, Ht. reflexivity.
      + exists 0%nat. split; [lia|]. split; [intros i Hi; lia|].
        right. split; [lia|]. rewrite Nat.add_0_r.
        split; [exact Hfail|]. reflexivity.
  Qed.

End RetryFacts.

Section RetryOutcomes.

Context {L A : Type}.
Variable random : nat -> Q.
Variable oracle : L -> nat -> outcome A.
Variable l : L.

  (** The status test of the wrapper is the 500-599 range test. *)
Lemma is_server_status_range (s : Z) :
    is_server_status (Some s) = true <-> (500 <= s <= 599)%Z.
  Proof.
    unfold is_server_status.
    rewrite !andb_true_iff, negb_true_iff, Z.eqb_neq, Z.leb_le, Z.ltb_lt.
    lia.
  Qed.

Lemma is_server_failure_spec (o : outcome A) :
    is_server_failure o = true
    <-> exists e s, o = Threw (ThrownError e) /\ err_status e = Some s
                    /\ (500 <= s <= 599)%Z.
  Proof.
    split.
    - destruct o as [a|[|e]]; simpl; try discriminate.
      destruct (err_status e) as [s|] eqn:Hs; [|discriminate].
      intros H. exists e, s. rewrite <- is_server_status_range. auto.
    - intros (e & s & -> & Hs & Hr). simpl. rewrite Hs.
      apply is_server_status_range, Hr.
  Qed.

  (** After [k] server failures, an attempt of any other kind settles the
      call: nothing follows it in the trace. *)
Lemma ai_retry_settles N d j last t k :
    (k < N)%nat ->
    (forall i, (i < k)%nat ->
       is_server_failure (oracle l (ncalls t + i)) = true) ->
    is_server_failure (oracle l (ncalls t + k)) = false ->
    AiService.retry_loop random (invoke oracle l) N d j last t
    = (settle (oracle l (ncalls t + k)),
       t ++ jitter_rounds random l k (ndraws t) d j ++ [EvCall l]).
  Proof.
    intros Hk Hpre Hstop.
    destruct (ai_retry_run random oracle l N d j last t)
      as (m & Hle & Hall & [(Hm & Hrun)|(Hlt & Hlast & Hrun)]).
    - rewrite Hall in Hstop by lia. discriminate.
    - assert (m = k).
      { destruct (Nat.lt_trichotomy m k) as [Hlt'|[Heq|Hgt]]; [|exact Heq|].
        - rewrite Hpre in Hlast by exact Hlt'. discriminate.
        - rewrite Hall in Hstop by exact Hgt. discriminate. }
      subst m. exact Hrun.
  Qed.

Lemma gemini_retry_settles N d last t k :
    (k < N)%nat ->
    (forall i, (i < k)%nat ->
       is_server_failure (oracle l (ncalls t + i)) = true) ->
    is_server_failure (oracle l (ncalls t + k)) = false ->
    GeminiService.retry_loop (invoke oracle l) N d last t
    = (settle (oracle l (ncalls t + k)),
       t ++ plain_rounds l k d ++ [EvCall l]).
  Proof.
    intros Hk Hpre Hstop.
    destruct (gemini_retry_run oracle l N d last t)
      as (m & Hle & Hall & [(Hm & Hrun)|(Hlt & Hlast & Hrun)]).
    - rewrite Hall in Hstop by lia. discriminate.
    - assert (m = k).
      { destruct (Nat.lt_trichotomy m k) as [Hlt'|[Heq|Hgt]]; [|exact Heq|].
        - rewrite Hpre in Hlast by exact Hlt'. discriminate.
        - rewrite Hall in Hstop by exact Hgt. discriminate. }
      subst m. exact Hrun.
  Qed.

  (** When every attempt of the budget is a server failure, [lastError] is
      thrown after the last wait. *)
Lemma ai_retry_exhausts N d j last t :
    (forall i, (i < N)%nat ->
       is_server_failure (oracle l (ncalls t + i)) = true) ->
    AiService.retry_loop random (invoke oracle l) N d j last t
    = (Threw (last_thrown oracle l N last (ncalls t)),
       t ++ jitter_rounds random l N (ndraws t) d j).
  Proof.
    intros Hpre.
    destruct (ai_retry_run random oracle l N d j last t)
      as (m & Hle & Hall & [(Hm & Hrun)|(Hlt & Hlast & Hrun)]).
    - subst m. exact Hrun.
    - rewrite Hpre in Hlast by exact Hlt. discriminate.
  Qed.

Lemma gemini_retry_exhausts N d last t :
    (forall i, (i < N)%nat ->
       is_server_failure (oracle l (ncalls t + i)) = true) ->
    GeminiService.retry_loop (invoke oracle l) N d last t
    = (Threw (last_thrown oracle l N last (ncalls t)),
       t ++ plain_rounds l N d).
  Proof.
    intros Hpre.
    destruct (gemini_retry_run oracle l N d last t)
      as (m & Hle & Hall & [(Hm & Hrun)|(Hlt & Hlast & Hrun)]).
    - subst m. exact Hrun.
    - rewrite Hpre in Hlast by exact Hlt. discriminate.
  Qed.

  (** The wrapped function is called at most [N] times, and at least once
      when [N] is positive; every call of the run is the wrapped one. *)
Lemma ai_retry_calls N d j last t :
    exists ext,
      snd (AiService.retry_loop random (invoke oracle l) N d j last t)
      = t ++ ext
      /\ (ncalls ext <= N)%nat
      /\ ((1 <= N)%nat -> (1 <= ncalls ext)%nat)
      /\ filter is_call ext = repeat (EvCall l) (ncalls ext).
  Proof.
    assert (Hrounds : forall k nd d',
               filter is_call (jitter_rounds random l k nd d' j)
               = repeat (EvCall l) k).
    { induction k as [|k IH]; intros nd d'; simpl; [reflexivity|].
      rewrite IH. reflexivity. }
    destruct (ai_retry_run random oracle l N d j last t)
      as (m & Hle & Hall & [(Hm & Hrun)|(Hlt & Hlast & Hrun)]);
      rewrite Hrun; simpl.
    - exists (jitter_rounds random l m (ndraws t) d j).
      rewrite ncalls_jitter_rounds. repeat split; try lia. apply Hrounds.
    - exists (jitter_rounds random l m (ndraws t) d j ++ [EvCall l]).
      rewrite ncalls_snoc_call, ncalls_jitter_rounds.
      repeat split; try lia.
      rewrite filter_app, Hrounds. simpl.
      change [EvCall l] with (repeat (EvCall l) 1).
      rewrite <- repeat_app, Nat.add_1_r. reflexivity.
  Qed.

Lemma gemini_retry_calls N d last t :
    exists ext,
      snd (GeminiService.retry_loop (invoke oracle l) N d last t) = t ++ ext
      /\ (ncalls ext <= N)%nat
      /\ ((1 <= N)%nat -> (1 <= ncalls ext)%nat)
      /\ filter is_call ext = repeat (EvCall l) (ncalls ext).
  Proof.
    assert (Hrounds : forall k d',
               filter is_call (plain_rounds l k d') = repeat (EvCall l) k).
    { induction k as [|k IH]; intros d'; simpl; [reflexivity|].
      rewrite IH. reflexivity. }
    destruct (gemini_retry_run oracle l N d last t)
      as (m & Hle & Hall & [(Hm & Hrun)|(Hlt & Hlast & Hrun)]);
      rewrite Hrun; simpl.
    - exists (plain_rounds l m d).
      rewrite ncalls_plain_rounds. repeat split; try lia. apply Hrounds.
    - exists (plain_rounds l m d ++ [EvCall l]).
      rewrite ncalls_snoc_call, ncalls_plain_rounds.
      repeat split; try lia.
      rewrite filter_app, Hrounds. simpl.
      change [EvCall l] with (repeat (EvCall l) 1).
      rewrite <- repeat_app, Nat.add_1_r. reflexivity.
  Qed.

End RetryOutcomes.

(** ** The retry wrapper: claims C1, C2, C3 and C9 *)

(** C1.  In both services, when an attempt of [retryWithBackoff] fails with
    an error whose status lies outside 500-599 (a 429, any 4xx), after any
    number of retried server failures, that very error is thrown to the
    caller and the failing call is the last event of the run: no wait and no
    further call of the wrapped function follow it. *)
Theorem C1_other_status_propagates_at_once :
  forall (L A : Type) (random : nat -> Q) (oracle : L -> nat -> outcome A)
         (l : L) (retries k : nat) (delay jitter : Q) (t : trace L)
         (e : js_error) (s : Z),
    (k < retries)%nat ->
    (forall i, (i < k)%nat ->
       is_server_failure (oracle l (ncalls t + i)%nat) = true) ->
    oracle l (ncalls t + k)%nat = Threw (ThrownError e) ->
    err_status e = Some s ->
    ~ (500 <= s <= 599)%Z ->
    (AiService.retryWithBackoff random (invoke oracle l) retries delay jitter t
     = (Threw (ThrownError e),
        t ++ jitter_rounds random l k (ndraws t) delay jitter ++ [EvCall l])
     /\ ncalls (t ++ jitter_rounds random l k (ndraws t) delay jitter
                  ++ [EvCall l]) = (ncalls t + k + 1)%nat)
    /\
    (GeminiService.retryWithBackoff (invoke oracle l) retries delay t
     = (Threw (ThrownError e), t ++ plain_rounds l k delay ++ [EvCall l])
     /\ ncalls (t ++ plain_rounds l k delay ++ [EvCall l])
        = (ncalls t + k + 1)%nat).
Proof.
  intros L A random oracle l retries k delay jitter t e s Hk Hpre He Hs Hout.
  assert (Hstop : is_server_failure (oracle l (ncalls t + k)%nat) = false).
  { rewrite He. simpl. rewrite Hs.
    destruct (is_server_status (Some s)) eqn:Hb; [|reflexivity].
    apply is_server_status_range in Hb. contradiction. }
  split; split.
  - unfold AiService.retryWithBackoff.
    rewrite (ai_retry_settles random oracle l delay jitter ThrownUndefined t
               Hk Hpre Hstop), He. reflexivity.
  - rewrite !ncalls_app, ncalls_jitter_rounds. unfold ncalls at 2. simpl. lia.
  - unfold GeminiService.retryWithBackoff.
    rewrite (gemini_retry_settles oracle l delay ThrownUndefined t
               Hk Hpre Hstop), He. reflexivity.
  - rewrite !ncalls_app, ncalls_plain_rounds. unfold ncalls at 2. simpl. lia.
Qed.

Lemma C1_witness :
  AiService.retryWithBackoff Scenario.half
    (invoke Scenario.overloaded_then_limited "call") 5 1000 200 []
  = (Threw (ThrownError Scenario.e429),
     [EvCall "call"; EvRandom (1 # 2); EvSleep (1000 + (1 # 2) * 200);
      EvCall "call"])
  /\ GeminiService.retryWithBackoff
       (invoke Scenario.overloaded_then_limited "call") 3 1000 []
     = (Threw (ThrownError Scenario.e429),
        [EvCall "call"; EvSleep 1000; EvCall "call"]).
Proof.
  destruct (@C1_other_status_propagates_at_once string nat Scenario.half
              Scenario.overloaded_then_limited "call" 5%nat 1%nat 1000 200 []
              Scenario.e429 429%Z) as [[Hai _] _].
  - lia.
  - intros i Hi. assert (i = 0)%nat by lia. subst i. reflexivity.
  - reflexivity.
  - reflexivity.
  - lia.
  - destruct (@C1_other_status_propagates_at_once string nat Scenario.half
                Scenario.overloaded_then_limited "call" 3%nat 1%nat 1000 200 []
                Scenario.e429 429%Z) as [_ [Hgem _]].
    + lia.
    + intros i Hi. assert (i = 0)%nat by lia. subst i. reflexivity.
    + reflexivity.
    + reflexivity.
    + lia.
    + split; [exact Hai | exact Hgem].
Defined.

(** C9.  In both services, an error that carries no status at all, or a
    falsy one (status 0), is treated like any status outside 500-599: at
    the first attempt where it occurs it is thrown to the caller unchanged,
    and the failing call is the last event of the run. *)
Theorem C9_error_without_status_not_retried :
  forall (L A : Type) (random : nat -> Q) (oracle : L -> nat -> outcome A)
         (l : L) (retries k : nat) (delay jitter : Q) (t : trace L)
         (e : js_error),
    (k < retries)%nat ->
    (forall i, (i < k)%nat ->
       is_server_failure (oracle l (ncalls t + i)%nat) = true) ->
    oracle l (ncalls t + k)%nat = Threw (ThrownError e) ->
    err_status e = None \/ err_status e = Some 0%Z ->
    (AiService.retryWithBackoff random (invoke oracle l) retries delay jitter t
     = (Threw (ThrownError e),
        t ++ jitter_rounds random l k (ndraws t) delay jitter ++ [EvCall l])
     /\ ncalls (t ++ jitter_rounds random l k (ndraws t) delay jitter
                  ++ [EvCall l]) = (ncalls t + k + 1)%nat)
    /\
    (GeminiService.retryWithBackoff (invoke oracle l) retries delay t
     = (Threw (ThrownError e), t ++ plain_rounds l k delay ++ [EvCall l])
     /\ ncalls (t ++ plain_rounds l k delay ++ [EvCall l])
        = (ncalls t + k + 1)%nat).
Proof.
  intros L A random oracle l retries k delay jitter t e Hk Hpre He Hs.
  assert (Hstop : is_server_failure (oracle l (ncalls t + k)%nat) = false).
  { rewrite He. simpl. destruct Hs as [-> | ->]; reflexivity. }
  split; split.
  - unfold AiService.retryWithBackoff.
    rewrite (ai_retry_settles random oracle l delay jitter ThrownUndefined t
               Hk Hpre Hstop), He. reflexivity.
  - rewrite !ncalls_app, ncalls_jitter_rounds. unfold ncalls at 2. simpl. lia.
  - unfold GeminiService.retryWithBackoff.
    rewrite (gemini_retry_settles oracle l delay ThrownUndefined t
               Hk Hpre Hstop), He. reflexivity.
  - rewrite !ncalls_app, ncalls_plain_rounds. unfold ncalls at 2. simpl. lia.
Qed.

Lemma C9_witness :
  AiService.retryWithBackoff Scenario.half
    (invoke Scenario.overloaded_then_offline "call") 5 1000 200 []
  = (Threw (ThrownError Scenario.e_network),
     [EvCall "call"; EvRandom (1 # 2); EvSleep (1000 + (1 # 2) * 200);
      EvCall "call"])
  /\ GeminiService.retryWithBackoff
       (invoke Scenario.overloaded_then_offline "call") 3 1000 []
     = (Threw (ThrownError Scenario.e_network),
        [EvCall "call"; EvSleep 1000; EvCall "call"]).
Proof.
  destruct (@C9_error_without_status_not_retried string nat Scenario.half
              Scenario.overloaded_then_offline "call" 5%nat 1%nat 1000 200 []
              Scenario.e_network) as [[Hai _] _].
  - lia.
  - intros i Hi. assert (i = 0)%nat by lia. subst i. reflexivity.
  - reflexivity.
  - left. reflexivity.
  - destruct (@C9_error_without_status_not_retried string nat Scenario.half
                Scenario.overloaded_then_offline "call" 3%nat 1%nat 1000 200 []
                Scenario.e_network) as [_ [Hgem _]].
    + lia.
    + intros i Hi. assert (i = 0)%nat by lia. subst i. reflexivity.
    + reflexivity.
    + left. reflexivity.
    + split; [exact Hai | exact Hgem].
Defined.

(** C2.  In both services [retryWithBackoff] with budget [retries] calls
    the wrapped function at most [retries] times; and when each of the
    [retries] attempts fails with a 5xx status, exactly [retries] calls are
    made and the error of the last of them is the one thrown. *)
Theorem C2_budget_and_last_error :
  forall (L A : Type) (random : nat -> Q) (oracle : L -> nat -> outcome A)
         (l : L) (retries : nat) (delay jitter : Q) (t : trace L),
    ((ncalls (snd (AiService.retryWithBackoff random (invoke oracle l)
                     retries delay jitter t)) <= ncalls t + retries)%nat
     /\ (ncalls (snd (GeminiService.retryWithBackoff (invoke oracle l)
                        retries delay t)) <= ncalls t + retries)%nat)
    /\
    ((1 <= retries)%nat ->
     (forall i, (i < retries)%nat ->
        is_server_failure (oracle l (ncalls t + i)%nat) = true) ->
     forall e,
       oracle l (ncalls t + (retries - 1))%nat = Threw (ThrownError e) ->
       (fst (AiService.retryWithBackoff random (invoke oracle l)
               retries delay jitter t) = Threw (ThrownError e)
        /\ ncalls (snd (AiService.retryWithBackoff random (invoke oracle l)
                          retries delay jitter t))
           = (ncalls t + retries)%nat)
       /\
       (fst (GeminiService.retryWithBackoff (invoke oracle l)
               retries delay t) = Threw (ThrownError e)
        /\ ncalls (snd (GeminiService.retryWithBackoff (invoke oracle l)
                          retries delay t))
           = (ncalls t + retries)%nat)).
Proof.
  intros L A random oracle l retries delay jitter t. split.
  - split.
    + destruct (ai_retry_calls random oracle l retries delay jitter
                  ThrownUndefined t) as (ext & Hext & Hle & _).
      unfold AiService.retryWithBackoff. rewrite Hext, ncalls_app. lia.
    + destruct (gemini_retry_calls oracle l retries delay
                  ThrownUndefined t) as (ext & Hext & Hle & _).
      unfold GeminiService.retryWithBackoff. rewrite Hext, ncalls_app. lia.
  - intros Hpos Hall e He.
    assert (Hlast : last_thrown oracle l retries ThrownUndefined (ncalls t)
                    = ThrownError e).
    { destruct retries as [|n]; [lia|]. simpl.
      replace (ncalls t + n)%nat with (ncalls t + (S n - 1))%nat by lia.
      rewrite He. reflexivity. }
    unfold AiService.retryWithBackoff, GeminiService.retryWithBackoff.
    rewrite (ai_retry_exhausts random oracle l delay jitter ThrownUndefined t
               Hall).
    rewrite (gemini_retry_exhausts oracle l delay ThrownUndefined t Hall).
    simpl. rewrite Hlast, !ncalls_app, ncalls_jitter_rounds,
             ncalls_plain_rounds.
    repeat split; reflexivity.
Qed.

Lemma C2_witness :
  (fst (AiService.retryWithBackoff Scenario.half
          (invoke Scenario.always_down "call") 5 1000 200 [])
   = Threw (ThrownError Scenario.e503)
   /\ ncalls (snd (AiService.retryWithBackoff Scenario.half
                     (invoke Scenario.always_down "call") 5 1000 200 []))
      = 5%nat)
  /\
  (fst (GeminiService.retryWithBackoff
          (invoke Scenario.always_down "call") 5 1000 [])
   = Threw (ThrownError Scenario.e503)
   /\ ncalls (snd (GeminiService.retryWithBackoff
                     (invoke Scenario.always_down "call") 5 1000 []))
      = 5%nat).
Proof.
  destruct (@C2_budget_and_last_error string nat Scenario.half
              Scenario.always_down "call" 5%nat 1000 200 []) as [_ H].
  apply (H ltac:(lia)).
  - intros i _. destruct i; reflexivity.
  - reflexivity.
Defined.

(** The jitter term [Math.random() * jitter] lies in [0, jitter] when the
    bound is not negative. *)
Lemma jitter_term_bounds (r jitter : Q) :
  0 <= jitter -> 0 <= r /\ r < 1 ->
  0 <= r * jitter /\ r * jitter <= jitter.
Proof.
  intros Hj [Hr0 Hr1]. split.
  - apply Qmult_le_0_compat; assumption.
  - setoid_replace jitter with (1 * jitter) at 2 by ring.
    apply Qmult_le_compat_r; [apply Qlt_le_weak, Hr1 | exact Hj].
Qed.

(** C3.  In the multi-key service, a run of [retryWithBackoff] consists of
    [m] attempts that fail with a 5xx status (all of them when the budget is
    spent, otherwise followed by one attempt of another kind), and it sleeps
    exactly once after each of them.  With a jitter bound that is not
    negative and draws in [0, 1), the wait after failed attempt [k + 1] is
    the current delay plus a jitter term in [0, jitter], so never below the
    current delay, and the current delay is the initial delay times [2 ^ k]. *)
Theorem C3_wait_is_doubling_delay_plus_jitter :
  forall (L A : Type) (random : nat -> Q) (oracle : L -> nat -> outcome A)
         (l : L) (retries : nat) (delay jitter : Q) (t : trace L),
    0 <= jitter ->
    (forall n, 0 <= random n /\ random n < 1) ->
    exists m,
      (m <= retries)%nat
      /\ (forall i, (i < m)%nat ->
            is_server_failure (oracle l (ncalls t + i)%nat) = true)
      /\ ((m < retries)%nat ->
            is_server_failure (oracle l (ncalls t + m)%nat) = false)
      /\ sleeps_of (snd (AiService.retryWithBackoff random (invoke oracle l)
                           retries delay jitter t))
         = sleeps_of t
             ++ map (fun k => delay_at delay k
                              + random (ndraws t + k)%nat * jitter)
                    (seq 0 m)
      /\ forall k, (k < m)%nat ->
           delay_at delay k == delay * inject_Z (2 ^ Z.of_nat k)
           /\ 0 <= random (ndraws t + k)%nat * jitter
           /\ random (ndraws t + k)%nat * jitter <= jitter
           /\ delay_at delay k
              <= delay_at delay k + random (ndraws t + k)%nat * jitter.
Proof.
  intros L A random oracle l retries delay jitter t Hj Hr.
  unfold AiService.retryWithBackoff.
  destruct (ai_retry_run random oracle l retries delay jitter
              ThrownUndefined t)
    as (m & Hle & Hall & Hres).
  exists m. split; [exact Hle|]. split; [exact Hall|].
  assert (Hbounds : forall k, (k < m)%nat ->
             delay_at delay k == delay * inject_Z (2 ^ Z.of_nat k)
             /\ 0 <= random (ndraws t + k)%nat * jitter
             /\ random (ndraws t + k)%nat * jitter <= jitter
             /\ delay_at delay k
                <= delay_at delay k + random (ndraws t + k)%nat * jitter).
  { intros k _.
    destruct (jitter_term_bounds Hj (Hr (ndraws t + k)%nat)) as [H0 H1].
    split; [apply delay_at_pow|]. split; [exact H0|]. split; [exact H1|].
    rewrite <- (Qplus_0_r (delay_at delay k)) at 1.
    apply Qplus_le_r. exact H0. }
  destruct Hres as [(Hm & Hrun)|(Hlt & Hlast & Hrun)]; rewrite Hrun; simpl.
  - split; [intros Hlt; lia|]. split; [|exact Hbounds].
    rewrite sleeps_of_app, sleeps_of_jitter_rounds. reflexivity.
  - split; [intros _; exact Hlast|]. split; [|exact Hbounds].
    rewrite !sleeps_of_app, sleeps_of_jitter_rounds. simpl.
    rewrite app_nil_r. reflexivity.
Qed.

Lemma C3_witness :
  sleeps_of (snd (AiService.retryWithBackoff Scenario.half
                    (invoke Scenario.recovers_third "call") 5 1000 200 []))
  = [1000 + (1 # 2) * 200; 1000 * 2 + (1 # 2) * 200].
Proof.
  destruct (@C3_wait_is_doubling_delay_plus_jitter string nat Scenario.half
              Scenario.recovers_third "call" 5%nat 1000 200 [])
    as (m & Hle & Hall & Hstop & Hsleeps & _).
  - unfold Qle. simpl. lia.
  - intros n. unfold Scenario.half, Qle, Qlt. simpl. lia.
  - assert (Hm : m = 2%nat).
    { destruct m as [|[|[|m]]].
      - specialize (Hstop ltac:(lia)). discriminate Hstop.
      - specialize (Hstop ltac:(lia)). discriminate Hstop.
      - reflexivity.
      - specialize (Hall 2%nat ltac:(lia)). discriminate Hall. }
    subst m. exact Hsleeps.
Defined.

(** ** The operations, step by step *)

Ltac run_js :=
  unfold try_catch, bind, ret, throw, trimmed_text, parse_or_throw,
    get_prop, translate; simpl.

Section OperationFacts.

Variable with_retry : request -> J response.
Variable analyze_client maps_client : client.
Variable JSON_parse : string -> option json.
Variable js_to_string : js_value -> string.
Variable js_to_number : js_value -> option Q.
Variable toFixed0 : option Q -> string.

Let analyze := Operations.analyzeHealthReport with_retry analyze_client
                   JSON_parse.
Let analysis_request (c : contents) : request :=
    GenerateContent analyze_client "gemini-2.5-flash" c
                    (JsonConfig analysisSchema).

  (** Building the contents touches neither the provider nor the clock. *)
Lemma analysis_contents_pure rt fd t :
    snd (Operations.analysis_contents rt fd t) = t.
  Proof.
    unfold Operations.analysis_contents.
    destruct (truthy_string (fileData_data fd)); [reflexivity|].
    destruct (truthy_string rt); reflexivity.
  Qed.

Lemma analysis_contents_guard rt fd t :
    truthy_string rt = false ->
    truthy_string (fileData_data fd) = false ->
    Operations.analysis_contents rt fd t = (Threw (new_Error msg_no_report), t).
  Proof.
    intros Hrt Hfd. unfold Operations.analysis_contents.
    rewrite Hfd, Hrt. reflexivity.
  Qed.

  (** Without a payload the [try] block throws the input error before the
      call, and the [catch] block rethrows it under the generic message. *)
Lemma analyze_no_payload rt fd t :
    truthy_string rt = false ->
    truthy_string (fileData_data fd) = false ->
    Operations.analyzeHealthReport_try with_retry analyze_client JSON_parse
      rt fd t = (Threw (new_Error msg_no_report), t)
    /\ analyze rt fd t = (Threw (new_Error msg_invalid_analysis), t).
  Proof.
    intros Hrt Hfd. unfold analyze, Operations.analyzeHealthReport,
      Operations.analyzeHealthReport_try.
    run_js. rewrite (@analysis_contents_guard rt fd t Hrt Hfd). split; reflexivity.
  Qed.

  (** A failed call is rethrown translated. *)
Lemma analyze_call_throws rt fd t c x t1 :
    Operations.analysis_contents rt fd t = (Returned c, t) ->
    with_retry (analysis_request c) t = (Threw x, t1) ->
    analyze rt fd t
    = (Threw (translate msg_parse_analysis msg_invalid_analysis x), t1).
  Proof.
    intros Hc Hcall. unfold analyze, Operations.analyzeHealthReport,
      Operations.analyzeHealthReport_try, analysis_request in *.
    run_js. rewrite Hc, Hcall.
    destruct (instanceof_SyntaxError x); reflexivity.
  Qed.

  (** Text that does not parse is the dedicated parse failure. *)
Lemma analyze_parse_failure rt fd t c resp text t1 :
    Operations.analysis_contents rt fd t = (Returned c, t) ->
    with_retry (analysis_request c) t = (Returned resp, t1) ->
    resp_text resp = Some text ->
    JSON_parse (trim text) = None ->
    analyze rt fd t = (Threw (new_Error msg_parse_analysis), t1).
  Proof.
    intros Hc Hcall Htext Hparse. unfold analyze,
      Operations.analyzeHealthReport, Operations.analyzeHealthReport_try,
      analysis_request in *.
    run_js. rewrite Hc, Hcall, Htext. simpl. rewrite Hparse. reflexivity.
  Qed.

  (** A parsed document whose score or summary is falsy is rejected under
      the generic message. *)
Lemma analyze_rejects rt fd t c resp text v t1 :
    Operations.analysis_contents rt fd t = (Returned c, t) ->
    with_retry (analysis_request c) t = (Returned resp, t1) ->
    resp_text resp = Some text ->
    JSON_parse (trim text) = Some v ->
    truthy (field v "healthScore") = false
    \/ truthy (field v "summary") = false ->
    analyze rt fd t = (Threw (new_Error msg_invalid_analysis), t1).
  Proof.
    intros Hc Hcall Htext Hparse Hbad. unfold analyze,
      Operations.analyzeHealthReport, Operations.analyzeHealthReport_try,
      analysis_request in *.
    run_js. rewrite Hc, Hcall, Htext. simpl. rewrite Hparse.
    destruct v as [| b | q | str | items | fields]; simpl in *;
      try reflexivity.
    destruct (truthy (lookup "healthScore" fields)); simpl; [|reflexivity].
    destruct (truthy (lookup "summary" fields)); simpl; [|reflexivity].
    destruct Hbad; discriminate.
  Qed.

  (** A parsed document with a truthy score and summary is returned as it
      was parsed. *)
Lemma analyze_accepts rt fd t c resp text v t1 :
    Operations.analysis_contents rt fd t = (Returned c, t) ->
    with_retry (analysis_request c) t = (Returned resp, t1) ->
    resp_text resp = Some text ->
    JSON_parse (trim text) = Some v ->
    truthy (field v "healthScore") = true ->
    truthy (field v "summary") = true ->
    analyze rt fd t = (Returned v, t1).
  Proof.
    intros Hc Hcall Htext Hparse Hscore Hsummary. unfold analyze,
      Operations.analyzeHealthReport, Operations.analyzeHealthReport_try,
      analysis_request in *.
    run_js. rewrite Hc, Hcall, Htext. simpl. rewrite Hparse.
    destruct v as [| b | q | str | items | fields]; simpl in *;
      try discriminate.
    rewrite Hscore. simpl. rewrite Hsummary. reflexivity.
  Qed.

  (** Whatever [analyzeHealthReport] returns is the document parsed from
      the reply of the call, and its score and summary are truthy. *)
Lemma analyze_returns_inv rt fd t v t1 :
    analyze rt fd t = (Returned v, t1) ->
    exists c resp text,
      Operations.analysis_contents rt fd t = (Returned c, t)
      /\ with_retry (analysis_request c) t = (Returned resp, t1)
      /\ resp_text resp = Some text
      /\ JSON_parse (trim text) = Some v
      /\ truthy (field v "healthScore") = true
      /\ truthy (field v "summary") = true.
  Proof.
    unfold analyze, Operations.analyzeHealthReport,
      Operations.analyzeHealthReport_try, analysis_request.
    run_js. intros H.
    pose proof (analysis_contents_pure rt fd t) as Hpure.
    destruct (Operations.analysis_contents rt fd t) as [[c|x] t0] eqn:Hc;
      simpl in Hpure; subst t0.
    2:{ destruct (instanceof_SyntaxError x); discriminate. }
    destruct (with_retry (GenerateContent analyze_client "gemini-2.5-flash" c
                            (JsonConfig analysisSchema)) t)
      as [[resp|x] t2] eqn:Hcall.
    2:{ destruct (instanceof_SyntaxError x); discriminate. }
    destruct (resp_text resp) as [text|] eqn:Htext; simpl in H;
      [|discriminate].
    destruct (JSON_parse (trim text)) as [v0|] eqn:Hparse; simpl in H;
      [|discriminate].
    destruct v0 as [| b | q | str | items | fields]; simpl in H;
      try discriminate.
    destruct (truthy (lookup "healthScore" fields)) eqn:Hscore; simpl in H;
      [|discriminate].
    destruct (truthy (lookup "summary" fields)) eqn:Hsummary; simpl in H;
      [|discriminate].
    inversion H; subst. exists c, resp, text. repeat split; assumption.
  Qed.

End OperationFacts.

Section LookupFacts.

Variable with_retry : request -> J response.
Variable analyze_client maps_client : client.
Variable JSON_parse : string -> option json.
Variable js_to_string : js_value -> string.
Variable js_to_number : js_value -> option Q.
Variable toFixed0 : option Q -> string.

Let find := Operations.findHospitalsNearLocation with_retry maps_client.
Let tips := Operations.generateHealthTips with_retry analyze_client
                JSON_parse js_to_string js_to_number toFixed0.

Lemma hospital_request_pure lat lon q t :
    snd (Operations.hospital_request maps_client lat lon q t) = t.
  Proof.
    unfold Operations.hospital_request.
    destruct (truthy_number lat && truthy_number lon); [reflexivity|].
    destruct (truthy_string q); reflexivity.
  Qed.

  (** Without coordinates and query the [try] block throws the input error
      before the call, and the [catch] block rethrows it under the generic
      message. *)
Lemma find_no_location lat lon q t :
    truthy_number lat && truthy_number lon = false ->
    truthy_string q = false ->
    Operations.findHospitalsNearLocation_try with_retry maps_client
      lat lon q t = (Threw (new_Error msg_no_location), t)
    /\ find lat lon q t = (Threw (new_Error msg_no_hospitals), t).
  Proof.
    intros Hcoord Hq. unfold find, Operations.findHospitalsNearLocation,
      Operations.findHospitalsNearLocation_try, Operations.hospital_request.
    run_js. rewrite Hcoord, Hq. split; reflexivity.
  Qed.

  (** Once the call returns, the lookup succeeds, whatever the reply. *)
Lemma find_after_call lat lon q t req resp t1 :
    Operations.hospital_request maps_client lat lon q t = (Returned req, t) ->
    with_retry req t = (Returned resp, t1) ->
    find lat lon q t
    = (Returned
         (mkHospitalResult
            (if truthy_string (resp_text resp) then str (resp_text resp)
             else default_summary)
            (map chunk_to_hospital (filter chunk_has_place (chunks_of resp)))),
       t1).
  Proof.
    intros Hreq Hcall. unfold find, Operations.findHospitalsNearLocation,
      Operations.findHospitalsNearLocation_try.
    run_js. rewrite Hreq, Hcall. reflexivity.
  Qed.

Lemma find_returns_inv lat lon q t res t1 :
    find lat lon q t = (Returned res, t1) ->
    exists req resp,
      Operations.hospital_request maps_client lat lon q t = (Returned req, t)
      /\ with_retry req t = (Returned resp, t1)
      /\ hospitals res
         = map chunk_to_hospital (filter chunk_has_place (chunks_of resp)).
  Proof.
    unfold find, Operations.findHospitalsNearLocation,
      Operations.findHospitalsNearLocation_try.
    run_js. intros H.
    pose proof (hospital_request_pure lat lon q t) as Hpure.
    destruct (Operations.hospital_request maps_client lat lon q t)
      as [[req|x] t0] eqn:Hreq; simpl in Hpure; subst t0; [|discriminate].
    destruct (with_retry req t) as [[resp|x] t2] eqn:Hcall; [|discriminate].
    inversion H; subst. exists req, resp.
    split; [reflexivity|]. split; [exact Hcall|]. reflexivity.
  Qed.

  (** The entries of the list are exactly the (title, uri) pairs of the
      chunks that carry a place with a non-empty uri and title. *)
Lemma hospital_entries (chunks : list grounding_chunk) (h : hospital) :
    In h (map chunk_to_hospital (filter chunk_has_place chunks))
    <-> exists chunk m,
          In chunk chunks
          /\ chunk_maps chunk = Some m
          /\ maps_title m = Some (hospital_name h)
          /\ maps_uri m = Some (hospital_uri h)
          /\ hospital_name h <> EmptyString
          /\ hospital_uri h <> EmptyString.
  Proof.
    rewrite in_map_iff. split.
    - intros (chunk & Hh & Hin). apply filter_In in Hin.
      destruct Hin as [Hin Hplace]. unfold chunk_has_place in Hplace.
      unfold chunk_to_hospital in Hh.
      destruct (chunk_maps chunk) as [[[u|] [n|]]|] eqn:Hm;
        simpl in Hplace; try discriminate;
        try (rewrite andb_false_r in Hplace; discriminate).
      apply andb_true_iff in Hplace. destruct Hplace as [Hu Hn].
      apply negb_true_iff, String.eqb_neq in Hu, Hn.
      subst h. exists chunk, (mkMaps (Some u) (Some n)).
      repeat split; assumption.
    - intros (chunk & m & Hin & Hm & Hn & Hu & Hne & Hue).
      exists chunk. split.
      + unfold chunk_to_hospital. rewrite Hm. destruct m as [mu mn].
        simpl in Hn, Hu. subst mu mn. destruct h; reflexivity.
      + apply filter_In. split; [exact Hin|].
        unfold chunk_has_place. rewrite Hm, Hn, Hu. simpl.
        apply andb_true_iff. split; apply negb_true_iff, String.eqb_neq;
          assumption.
  Qed.

Let tips_request (prompt : string) : request :=
    GenerateContent analyze_client "gemini-2.5-flash" (ContentsString prompt)
                    (JsonConfig healthTipsSchema).

  (** In [generateHealthTips] text that does not parse ends in the one
      message of the operation. *)
Lemma tips_parse_failure data t prompt resp text t1 :
    tips_prompt js_to_string js_to_number toFixed0 data t
    = (Returned prompt, t) ->
    with_retry (tips_request prompt) t = (Returned resp, t1) ->
    resp_text resp = Some text ->
    JSON_parse (trim text) = None ->
    tips data t = (Threw (new_Error msg_no_tips), t1).
  Proof.
    intros Hprompt Hcall Htext Hparse.
    unfold tips, Operations.generateHealthTips, tips_request in *.
    unfold try_catch, bind at 1. rewrite Hprompt.
    run_js. rewrite Hcall, Htext. simpl. rewrite Hparse. reflexivity.
  Qed.

  (** ... and so does a failed call, whatever it threw. *)
Lemma tips_call_throws data t prompt x t1 :
    tips_prompt js_to_string js_to_number toFixed0 data t
    = (Returned prompt, t) ->
    with_retry (tips_request prompt) t = (Threw x, t1) ->
    tips data t = (Threw (new_Error msg_no_tips), t1).
  Proof.
    intros Hprompt Hcall.
    unfold tips, Operations.generateHealthTips, tips_request in *.
    unfold try_catch, bind at 1. rewrite Hprompt.
    run_js. rewrite Hcall. reflexivity.
  Qed.

End LookupFacts.

(** ** Calls per model *)

Lemma calls_to_model_app (m : string) (t1 t2 : trace request) :
  calls_to_model m (t1 ++ t2)
  = (calls_to_model m t1 + calls_to_model m t2)%nat.
Proof.
  unfold calls_to_model. rewrite filter_app, length_app. reflexivity.
Qed.

Lemma calls_to_model_calls_only (m : string) (t : trace request) :
  calls_to_model m t = calls_to_model m (filter is_call t).
Proof.
  unfold calls_to_model. induction t as [|e t IH]; [reflexivity|].
  destruct e as [r| |]; simpl; [|exact IH|exact IH].
  destruct (request_model r =? m)%string; simpl; rewrite IH; reflexivity.
Qed.

Lemma calls_to_model_repeat (m : string) (r : request) (n : nat) :
  calls_to_model m (repeat (EvCall r) n)
  = if (request_model r =? m)%string then n else 0%nat.
Proof.
  unfold calls_to_model. induction n as [|n IH]; simpl.
  - destruct (request_model r =? m)%string; reflexivity.
  - destruct (request_model r =? m)%string; simpl; rewrite IH; reflexivity.
Qed.

Section AiServiceFacts.

Variable provider : request -> nat -> outcome response.
Variable random : nat -> Q.
Variable JSON_parse : string -> option json.
Variable js_to_string : js_value -> string.

Let with_retry := AiService.with_retry provider random.
Let generate := AiService.generate provider random.
Let generate_with_fallback := AiService.generate_with_fallback provider random.
Let predict := AiService.predictSymptomsFromText provider random JSON_parse
                   js_to_string.
Let textToSpeech := AiService.textToSpeech provider random.
Let textToSpeech_try := AiService.textToSpeech_try provider random.

  (** One retry-wrapped request extends the trace by between one and five
      calls, all of that request. *)
Lemma ai_with_retry_calls (r : request) (t : trace request) :
    exists ext,
      snd (with_retry r t) = t ++ ext
      /\ (1 <= ncalls ext <= 5)%nat
      /\ filter is_call ext = repeat (EvCall r) (ncalls ext).
  Proof.
    destruct (ai_retry_calls random provider r 5 1000 200 ThrownUndefined t)
      as (ext & Hext & Hle & Hge & Hcalls).
    exists ext. split; [exact Hext|]. split; [|exact Hcalls].
    split; [apply Hge; lia | exact Hle].
  Qed.

Lemma ai_with_retry_model_calls (r : request) (m : string)
        (t : trace request) :
    exists ext,
      snd (with_retry r t) = t ++ ext
      /\ (1 <= ncalls ext <= 5)%nat
      /\ calls_to_model m ext
         = if (request_model r =? m)%string then ncalls ext else 0%nat.
  Proof.
    destruct (ai_with_retry_calls r t) as (ext & Hext & Hn & Hcalls).
    exists ext. split; [exact Hext|]. split; [exact Hn|].
    rewrite calls_to_model_calls_only, Hcalls. apply calls_to_model_repeat.
  Qed.

  (** [textToSpeech] turns every failure of its [try] block into [null]. *)
Lemma textToSpeech_swallows text voice t x t1 :
    textToSpeech_try text voice t = (Threw x, t1) ->
    textToSpeech text voice t = (Returned None, t1).
  Proof.
    intros H. unfold textToSpeech, AiService.textToSpeech, try_catch.
    fold textToSpeech_try. rewrite H. reflexivity.
  Qed.


  (** The fallback is tried when, and only when, the primary run threw an
      error whose status is 503. *)
Lemma fallback_on_503 prompt t e t1 :
    generate prompt AiService.primaryModel t = (Threw (ThrownError e), t1) ->
    err_status e = Some 503%Z ->
    generate_with_fallback prompt t
    = generate prompt AiService.fallbackModel t1.
  Proof.
    intros Hprimary Hs.
    unfold generate_with_fallback, AiService.generate_with_fallback,
      try_catch.
    fold generate. rewrite Hprimary. unfold bind. simpl. rewrite Hs.
    reflexivity.
  Qed.

Lemma no_fallback_otherwise prompt t e t1 :
    generate prompt AiService.primaryModel t = (Threw (ThrownError e), t1) ->
    err_status e <> Some 503%Z ->
    generate_with_fallback prompt t = (Threw (ThrownError e), t1).
  Proof.
    intros Hprimary Hs.
    unfold generate_with_fallback, AiService.generate_with_fallback,
      try_catch.
    fold generate. rewrite Hprimary. unfold bind. simpl.
    destruct (err_status e) as [s|]; [|reflexivity].
    destruct (s =? 503)%Z eqn:Hb; [|reflexivity].
    apply Z.eqb_eq in Hb. subst s. contradiction.
  Qed.

  (** After the reply the operation only parses and checks: the trace of
      [predictSymptomsFromText] is the trace of its calls. *)
Lemma predict_trace text ctx t :
    snd (predict text ctx t)
    = snd (generate_with_fallback
             (AiService.symptom_prompt js_to_string text ctx) t).
  Proof.
    unfold predict, AiService.predictSymptomsFromText.
    fold generate_with_fallback. run_js.
    destruct (generate_with_fallback _ t) as [[resp|x] t1]; simpl.
    2:{ destruct (instanceof_SyntaxError x); reflexivity. }
    destruct (resp_text resp) as [s|]; simpl; [|reflexivity].
    destruct (JSON_parse (trim s)) as [v|]; simpl; [|reflexivity].
    destruct v as [| b | q | str | items | fields]; simpl; try reflexivity.
    destruct (truthy (lookup "predictions" fields)); reflexivity.
  Qed.

Lemma predict_call_throws text ctx t x t1 :
    generate_with_fallback (AiService.symptom_prompt js_to_string text ctx) t
    = (Threw x, t1) ->
    predict text ctx t
    = (Threw (translate msg_parse_symptoms msg_invalid_prediction x), t1).
  Proof.
    intros Hcall. unfold predict, AiService.predictSymptomsFromText.
    fold generate_with_fallback. run_js. rewrite Hcall.
    destruct (instanceof_SyntaxError x); reflexivity.
  Qed.

Lemma predict_parse_failure text ctx t resp s t1 :
    generate_with_fallback (AiService.symptom_prompt js_to_string text ctx) t
    = (Returned resp, t1) ->
    resp_text resp = Some s ->
    JSON_parse (trim s) = None ->
    predict text ctx t = (Threw (new_Error msg_parse_symptoms), t1).
  Proof.
    intros Hcall Htext Hparse.
    unfold predict, AiService.predictSymptomsFromText.
    fold generate_with_fallback. run_js. rewrite Hcall, Htext. simpl.
    rewrite Hparse. reflexivity.
  Qed.

Lemma predict_rejects text ctx t resp s v t1 :
    generate_with_fallback (AiService.symptom_prompt js_to_string text ctx) t
    = (Returned resp, t1) ->
    resp_text resp = Some s ->
    JSON_parse (trim s) = Some v ->
    truthy (field v "predictions") = false ->
    predict text ctx t = (Threw (new_Error msg_invalid_prediction), t1).
  Proof.
    intros Hcall Htext Hparse Hbad.
    unfold predict, AiService.predictSymptomsFromText.
    fold generate_with_fallback. run_js. rewrite Hcall, Htext. simpl.
    rewrite Hparse.
    destruct v as [| b | q | str | items | fields]; simpl in *;
      try reflexivity.
    rewrite Hbad. reflexivity.
  Qed.

Lemma predict_accepts text ctx t resp s v t1 :
    generate_with_fallback (AiService.symptom_prompt js_to_string text ctx) t
    = (Returned resp, t1) ->
    resp_text resp = Some s ->
    JSON_parse (trim s) = Some v ->
    truthy (field v "predictions") = true ->
    predict text ctx t = (Returned v, t1).
  Proof.
    intros Hcall Htext Hparse Hok.
    unfold predict, AiService.predictSymptomsFromText.
    fold generate_with_fallback. run_js. rewrite Hcall, Htext. simpl.
    rewrite Hparse.
    destruct v as [| b | q | str | items | fields]; simpl in *;
      try discriminate.
    rewrite Hok. reflexivity.
  Qed.

Lemma predict_returns_inv text ctx t v t1 :
    predict text ctx t = (Returned v, t1) ->
    exists resp s,
      generate_with_fallback (AiService.symptom_prompt js_to_string text ctx) t
      = (Returned resp, t1)
      /\ resp_text resp = Some s
      /\ JSON_parse (trim s) = Some v
      /\ truthy (field v "predictions") = true.
  Proof.
    unfold predict, AiService.predictSymptomsFromText.
    fold generate_with_fallback. run_js. intros H.
    destruct (generate_with_fallback _ t) as [[resp|x] t2] eqn:Hcall.
    2:{ destruct (instanceof_SyntaxError x); discriminate. }
    destruct (resp_text resp) as [s|] eqn:Htext; simpl in H; [|discriminate].
    destruct (JSON_parse (trim s)) as [v0|] eqn:Hparse; simpl in H;
      [|discriminate].
    destruct v0 as [| b | q | str | items | fields]; simpl in H;
      try discriminate.
    destruct (truthy (lookup "predictions" fields)) eqn:Hok; simpl in H;
      [|discriminate].
    inversion H; subst. exists resp, s. repeat split; assumption.
  Qed.

End AiServiceFacts.

(** ** Fallback escalation: claim C4 *)

(** C4, as the claim words it, fails: the fallback call goes through the
    retry wrapper like the primary one.  With a provider that answers every
    call with 503, the primary run ends in a 503 error and the operation
    then calls the fallback model five times, not once. *)
Lemma C4_counterexample_fallback_is_retried :
  (exists t1,
      AiService.generate Scenario.overloaded Scenario.half
        (AiService.symptom_prompt Scenario.to_string "fever" None)
        AiService.primaryModel []
      = (Threw (ThrownError Scenario.e503), t1))
  /\ calls_to_model AiService.fallbackModel
       (snd (AiService.predictSymptomsFromText Scenario.overloaded
               Scenario.half Json.parse Scenario.to_string "fever" None []))
     = 5%nat
  /\ calls_to_model AiService.fallbackModel
       (snd (AiService.predictSymptomsFromText Scenario.overloaded
               Scenario.half Json.parse Scenario.to_string "fever" None []))
     <> 1%nat.
Proof.
  split; [eexists; vm_compute; reflexivity|].
  split; [vm_compute; reflexivity | vm_compute; discriminate].
Qed.

(** C4, amended.  When the retry-wrapped primary run of the symptom
    prediction throws an error, then
    - if its status is exactly 503, the operation continues with one
      retry-wrapped run against the fallback model: from there on between
      one and five calls are made, all of them to the fallback model and
      none to the primary one;
    - if its status is anything else (or absent), the error leaves the
      escalation step unchanged, the operation rethrows it under its own
      failure message, and no call to the fallback model is made. *)
Theorem C4_fallback_run_only_on_503 :
  forall (provider : request -> nat -> outcome response) (random : nat -> Q)
         (JSON_parse : string -> option json)
         (js_to_string : js_value -> string)
         (symptomsText : string) (userContext : option user_context)
         (t t1 : trace request) (e : js_error),
    AiService.generate provider random
      (AiService.symptom_prompt js_to_string symptomsText userContext)
      AiService.primaryModel t = (Threw (ThrownError e), t1) ->
    (err_status e = Some 503%Z ->
     snd (AiService.predictSymptomsFromText provider random JSON_parse
            js_to_string symptomsText userContext t)
     = snd (AiService.generate provider random
              (AiService.symptom_prompt js_to_string symptomsText userContext)
              AiService.fallbackModel t1)
     /\ exists ext,
          snd (AiService.predictSymptomsFromText provider random JSON_parse
                 js_to_string symptomsText userContext t) = t1 ++ ext
          /\ (1 <= calls_to_model AiService.fallbackModel ext <= 5)%nat
          /\ calls_to_model AiService.fallbackModel ext = ncalls ext
          /\ calls_to_model AiService.primaryModel ext = 0%nat)
    /\
    (err_status e <> Some 503%Z ->
     AiService.generate_with_fallback provider random
       (AiService.symptom_prompt js_to_string symptomsText userContext) t
     = (Threw (ThrownError e), t1)
     /\ AiService.predictSymptomsFromText provider random JSON_parse
          js_to_string symptomsText userContext t
        = (Threw (translate msg_parse_symptoms msg_invalid_prediction
                    (ThrownError e)), t1)
     /\ calls_to_model AiService.fallbackModel t1
        = calls_to_model AiService.fallbackModel t).
Proof.
  intros provider random JSON_parse js_to_string symptomsText userContext
         t t1 e Hprimary.
  set (prompt := AiService.symptom_prompt js_to_string symptomsText
                   userContext) in *.
  split.
  - intros Hs.
    rewrite predict_trace. fold prompt.
    rewrite (fallback_on_503 provider random prompt t Hprimary Hs).
    split; [reflexivity|].
    unfold AiService.generate.
    destruct (ai_with_retry_model_calls provider random
                (GenerateContent aiSymptoms AiService.fallbackModel
                   (ContentsList [[TextPart prompt]])
                   (JsonConfig symptomPredictionSchema))
                AiService.fallbackModel t1) as (ext & Hext & Hn & Hfb).
    destruct (ai_with_retry_model_calls provider random
                (GenerateContent aiSymptoms AiService.fallbackModel
                   (ContentsList [[TextPart prompt]])
                   (JsonConfig symptomPredictionSchema))
                AiService.primaryModel t1) as (ext' & Hext' & _ & Hpr).
    rewrite Hext in Hext'. apply app_inv_head in Hext'. subst ext'.
    exists ext. split; [exact Hext|].
    simpl in Hfb, Hpr. rewrite Hfb, Hpr. repeat split; lia.
  - intros Hs.
    pose proof (no_fallback_otherwise provider random prompt t Hprimary Hs)
      as Hstep.
    split; [exact Hstep|]. split.
    + apply (predict_call_throws provider random JSON_parse js_to_string
               symptomsText userContext t Hstep).
    + unfold AiService.generate in Hprimary.
      destruct (ai_with_retry_model_calls provider random
                  (GenerateContent aiSymptoms AiService.primaryModel
                     (ContentsList [[TextPart prompt]])
                     (JsonConfig symptomPredictionSchema))
                  AiService.fallbackModel t) as (ext & Hext & _ & Hfb).
      rewrite Hprimary in Hext. simpl in Hext, Hfb.
      rewrite Hext, calls_to_model_app, Hfb. lia.
Qed.

Lemma C4_witness :
  (exists ext,
      snd (AiService.predictSymptomsFromText Scenario.fallback_answers
             Scenario.half Json.parse Scenario.to_string "fever" None [])
      = snd (AiService.generate Scenario.fallback_answers Scenario.half
               (AiService.symptom_prompt Scenario.to_string "fever" None)
               AiService.primaryModel []) ++ ext
      /\ (1 <= calls_to_model AiService.fallbackModel ext <= 5)%nat
      /\ calls_to_model AiService.fallbackModel ext = ncalls ext
      /\ calls_to_model AiService.primaryModel ext = 0%nat)
  /\ calls_to_model AiService.fallbackModel
       (snd (AiService.generate Scenario.limited Scenario.half
               (AiService.symptom_prompt Scenario.to_string "fever" None)
               AiService.primaryModel []))
     = calls_to_model AiService.fallbackModel [].
Proof.
  split.
  - destruct (@C4_fallback_run_only_on_503 Scenario.fallback_answers
                Scenario.half Json.parse Scenario.to_string "fever" None []
                (snd (AiService.generate Scenario.fallback_answers
                        Scenario.half
                        (AiService.symptom_prompt Scenario.to_string
                           "fever" None)
                        AiService.primaryModel []))
                Scenario.e503) as [Hyes _].
    + vm_compute. reflexivity.
    + apply (Hyes eq_refl).
  - destruct (@C4_fallback_run_only_on_503 Scenario.limited
                Scenario.half Json.parse Scenario.to_string "fever" None []
                (snd (AiService.generate Scenario.limited
                        Scenario.half
                        (AiService.symptom_prompt Scenario.to_string
                           "fever" None)
                        AiService.primaryModel []))
                Scenario.e429) as [_ Hno].
    + vm_compute. reflexivity.
    + apply Hno. discriminate.
Defined.

(** ** Input guards: claim C5 *)




(** ** Response validation: claims C6 and C7 *)

(** C6, as the claim words it, fails in report analysis.  A reply that
    carries a summary and a score but neither [predictions] nor
    [recommendations], both marked required by [analysisSchema], is
    returned as parsed: fields the schema requires are absent and no
    validation failure is raised. *)
Lemma C6_counterexample_required_field_unchecked :
  Json.parse (trim Scenario.text_partial)
  = Some (JObject [("summary", JString "All good");
                   ("healthScore", JNumber 82)])
  /\ has_required (schema_required analysisSchema)
       (JObject [("summary", JString "All good");
                 ("healthScore", JNumber 82)]) = false
  /\ fst (AiService.analyzeHealthReport
            (Scenario.answers Scenario.text_partial) Scenario.half
            Json.parse (Some "Hb 13.5 g/dL") None [])
     = Returned (JObject [("summary", JString "All good");
                          ("healthScore", JNumber 82)]).
Proof.
  split; [vm_compute; reflexivity|].
  split; vm_compute; reflexivity.
Qed.

(** The check of the score is a truthiness test: a reply with all four
    required fields and the score 0, the low end of the scale the schema
    describes, is rejected. *)
Example zero_score_is_rejected :
  has_required (schema_required analysisSchema)
    (JObject [("summary", JString "Critical"); ("predictions", JArray []);
              ("healthScore", JNumber 0); ("recommendations", JArray [])])
  = true
  /\ Json.parse (trim Scenario.text_zero_score)
     = Some (JObject [("summary", JString "Critical");
                      ("predictions", JArray []);
                      ("healthScore", JNumber 0);
                      ("recommendations", JArray [])])
  /\ fst (AiService.analyzeHealthReport
            (Scenario.answers Scenario.text_zero_score) Scenario.half
            Json.parse (Some "Hb 13.5 g/dL") None [])
     = Threw (new_Error msg_invalid_analysis).
Proof.
  split; [vm_compute; reflexivity|].
  split; vm_compute; reflexivity.
Qed.

Lemma validation_messages_differ :
  msg_invalid_analysis <> msg_parse_analysis
  /\ msg_invalid_prediction <> msg_parse_symptoms.
Proof. split; discriminate. Qed.

(** C6, amended.  For a reply of the retry-wrapped call whose trimmed text
    parses to a document [v]:
    - report analysis checks the score and the summary, and no other field
      the schema requires: when either is absent the operation throws its
      failure message, which differs from the parse-failure message; when
      both are present with truthy values it returns [v] itself; and
      whatever it returns is [v], with both fields truthy;
    - symptom prediction does the same with the predictions list. *)
Theorem C6_checked_fields_decide :
  forall (provider : request -> nat -> outcome response) (random : nat -> Q)
         (JSON_parse : string -> option json)
         (js_to_string : js_value -> string)
         (t t1 : trace request) (resp : response) (text : string) (v : json),
    resp_text resp = Some text ->
    JSON_parse (trim text) = Some v ->
    (forall reportText fileData c,
        Operations.analysis_contents reportText fileData t = (Returned c, t) ->
        AiService.with_retry provider random
          (GenerateContent aiAnalyze "gemini-2.5-flash" c
                           (JsonConfig analysisSchema)) t
        = (Returned resp, t1) ->
        (field v "healthScore" = None \/ field v "summary" = None ->
         AiService.analyzeHealthReport provider random JSON_parse
           reportText fileData t
         = (Threw (new_Error msg_invalid_analysis), t1))
        /\ (truthy (field v "healthScore") = true ->
            truthy (field v "summary") = true ->
            AiService.analyzeHealthReport provider random JSON_parse
              reportText fileData t = (Returned v, t1))
        /\ (forall v' t',
              AiService.analyzeHealthReport provider random JSON_parse
                reportText fileData t = (Returned v', t') ->
              v' = v /\ truthy (field v "healthScore") = true
              /\ truthy (field v "summary") = true))
    /\
    (forall symptomsText userContext,
        AiService.generate_with_fallback provider random
          (AiService.symptom_prompt js_to_string symptomsText userContext) t
        = (Returned resp, t1) ->
        (field v "predictions" = None ->
         AiService.predictSymptomsFromText provider random JSON_parse
           js_to_string symptomsText userContext t
         = (Threw (new_Error msg_invalid_prediction), t1))
        /\ (truthy (field v "predictions") = true ->
            AiService.predictSymptomsFromText provider random JSON_parse
              js_to_string symptomsText userContext t = (Returned v, t1))
        /\ (forall v' t',
              AiService.predictSymptomsFromText provider random JSON_parse
                js_to_string symptomsText userContext t = (Returned v', t') ->
              v' = v /\ truthy (field v "predictions") = true))
    /\ msg_invalid_analysis <> msg_parse_analysis
    /\ msg_invalid_prediction <> msg_parse_symptoms.
Proof.
  intros provider random JSON_parse js_to_string t t1 resp text v
         Htext Hparse.
  split; [|split; [|exact validation_messages_differ]].
  - intros reportText fileData c Hc Hcall. split; [|split].
    + intros Habsent. unfold AiService.analyzeHealthReport.
      eapply analyze_rejects; try eassumption.
      destruct Habsent as [H|H]; rewrite H; auto.
    + intros Hscore Hsummary. unfold AiService.analyzeHealthReport.
      eapply analyze_accepts; eassumption.
    + intros v' t' Hret. unfold AiService.analyzeHealthReport in Hret.
      apply analyze_returns_inv in Hret.
      destruct Hret as (c' & resp' & text' & Hc' & Hcall' & Htext' & Hparse'
                        & Hscore & Hsummary).
      rewrite Hc in Hc'. inversion Hc'; subst c'.
      rewrite Hcall in Hcall'. inversion Hcall'; subst resp' t'.
      rewrite Htext in Htext'. inversion Htext'; subst text'.
      rewrite Hparse in Hparse'. inversion Hparse'; subst v'.
      repeat split; assumption.
  - intros symptomsText userContext Hcall. split; [|split].
    + intros Habsent.
      eapply predict_rejects; try eassumption. rewrite Habsent. reflexivity.
    + intros Hok. eapply predict_accepts; eassumption.
    + intros v' t' Hret. apply predict_returns_inv in Hret.
      destruct Hret as (resp' & s' & Hcall' & Htext' & Hparse' & Hok).
      rewrite Hcall in Hcall'. inversion Hcall'; subst resp' t'.
      rewrite Htext in Htext'. inversion Htext'; subst s'.
      rewrite Hparse in Hparse'. inversion Hparse'; subst v'.
      split; [reflexivity | assumption].
Qed.

Lemma C6_witness :
  AiService.analyzeHealthReport (Scenario.answers Scenario.text_no_score)
    Scenario.half Json.parse (Some "Hb 13.5 g/dL") None []
  = (Threw (new_Error msg_invalid_analysis),
     [EvCall (GenerateContent aiAnalyze "gemini-2.5-flash"
                (ContentsString
                   (analysis_prompt +++ LF +++ LF +++ "Here is the report:"
                                    +++ LF +++ LF +++ "Hb 13.5 g/dL"))
                (JsonConfig analysisSchema))])
  /\ fst (AiService.predictSymptomsFromText
            (Scenario.answers Scenario.text_predictions) Scenario.half
            Json.parse Scenario.to_string "fever" None [])
     = Returned (JObject [("predictions", JArray [])]).
Proof.
  split.
  - destruct (@C6_checked_fields_decide
                (Scenario.answers Scenario.text_no_score) Scenario.half
                Json.parse Scenario.to_string []
                [EvCall (GenerateContent aiAnalyze "gemini-2.5-flash"
                           (ContentsString
                              (analysis_prompt +++ LF +++ LF
                                 +++ "Here is the report:"
                                 +++ LF +++ LF +++ "Hb 13.5 g/dL"))
                           (JsonConfig analysisSchema))]
                (Scenario.reply Scenario.text_no_score)
                Scenario.text_no_score
                (JObject [("summary", JString "Stable")]))
      as [Hreport _].
    + reflexivity.
    + vm_compute. reflexivity.
    + destruct (Hreport (Some "Hb 13.5 g/dL") None
                  (ContentsString
                     (analysis_prompt +++ LF +++ LF
                        +++ "Here is the report:"
                        +++ LF +++ LF +++ "Hb 13.5 g/dL")))
        as [Hreject _].
      * reflexivity.
      * vm_compute. reflexivity.
      * apply Hreject. left. reflexivity.
  - destruct (@C6_checked_fields_decide
                (Scenario.answers Scenario.text_predictions) Scenario.half
                Json.parse Scenario.to_string []
                (snd (AiService.generate_with_fallback
                        (Scenario.answers Scenario.text_predictions)
                        Scenario.half
                        (AiService.symptom_prompt Scenario.to_string
                           "fever" None) []))
                (Scenario.reply Scenario.text_predictions)
                Scenario.text_predictions
                (JObject [("predictions", JArray [])]))
      as [_ [Hpredict _]].
    + reflexivity.
    + vm_compute. reflexivity.
    + destruct (Hpredict "fever" None) as [_ [Haccept _]].
      * vm_compute. reflexivity.
      * rewrite Haccept; reflexivity.
Defined.

(** C7, as the claim words it, fails in tip generation: a reply that does
    not parse and a refused call end in the very same error, so the parse
    failure has no message of its own there. *)
Lemma C7_counterexample_tips_have_one_message :
  Json.parse (trim Scenario.text_prose) = None
  /\ fst (AiService.generateHealthTips (Scenario.answers Scenario.text_prose)
            Scenario.half Json.parse Scenario.to_string Scenario.to_number
            Scenario.to_fixed0 Scenario.analysis_data [])
     = Threw (new_Error msg_no_tips)
  /\ fst (AiService.generateHealthTips Scenario.limited
            Scenario.half Json.parse Scenario.to_string Scenario.to_number
            Scenario.to_fixed0 Scenario.analysis_data [])
     = Threw (new_Error msg_no_tips).
Proof.
  split; [vm_compute; reflexivity|].
  split; vm_compute; reflexivity.
Qed.

Lemma parse_messages_differ :
  msg_parse_analysis <> msg_invalid_analysis
  /\ msg_parse_symptoms <> msg_invalid_prediction.
Proof. split; discriminate. Qed.

(** C7, amended.  For a reply of the retry-wrapped call whose trimmed text
    does not parse, every operation throws and none returns a value:
    - report analysis (in both services) and symptom prediction throw their
      dedicated parse-failure message, which differs from the message they
      throw when the call itself failed with an error that is no
      SyntaxError;
    - tip generation (in both services) throws its single failure message,
      the one it also throws when the call failed. *)
Theorem C7_unparsable_reply_is_an_error :
  forall (provider : request -> nat -> outcome response) (random : nat -> Q)
         (JSON_parse : string -> option json)
         (js_to_string : js_value -> string)
         (js_to_number : js_value -> option Q)
         (toFixed0 : option Q -> string)
         (t t1 : trace request) (resp : response) (text : string)
         (x : thrown),
    resp_text resp = Some text ->
    JSON_parse (trim text) = None ->
    instanceof_SyntaxError x = false ->
    (forall reportText fileData c,
        Operations.analysis_contents reportText fileData t = (Returned c, t) ->
        (AiService.with_retry provider random
           (GenerateContent aiAnalyze "gemini-2.5-flash" c
                            (JsonConfig analysisSchema)) t
         = (Returned resp, t1) ->
         AiService.analyzeHealthReport provider random JSON_parse
           reportText fileData t
         = (Threw (new_Error msg_parse_analysis), t1))
        /\ (AiService.with_retry provider random
              (GenerateContent aiAnalyze "gemini-2.5-flash" c
                               (JsonConfig analysisSchema)) t
            = (Threw x, t1) ->
            AiService.analyzeHealthReport provider random JSON_parse
              reportText fileData t
            = (Threw (new_Error msg_invalid_analysis), t1))
        /\ (GeminiService.with_retry provider
              (GenerateContent ai "gemini-2.5-flash" c
                               (JsonConfig analysisSchema)) t
            = (Returned resp, t1) ->
            GeminiService.analyzeHealthReport provider JSON_parse
              reportText fileData t
            = (Threw (new_Error msg_parse_analysis), t1))
        /\ (GeminiService.with_retry provider
              (GenerateContent ai "gemini-2.5-flash" c
                               (JsonConfig analysisSchema)) t
            = (Threw x, t1) ->
            GeminiService.analyzeHealthReport provider JSON_parse
              reportText fileData t
            = (Threw (new_Error msg_invalid_analysis), t1)))
    /\
    (forall symptomsText userContext,
        (AiService.generate_with_fallback provider random
           (AiService.symptom_prompt js_to_string symptomsText userContext) t
         = (Returned resp, t1) ->
         AiService.predictSymptomsFromText provider random JSON_parse
           js_to_string symptomsText userContext t
         = (Threw (new_Error msg_parse_symptoms), t1))
        /\ (AiService.generate_with_fallback provider random
              (AiService.symptom_prompt js_to_string symptomsText userContext) t
            = (Threw x, t1) ->
            AiService.predictSymptomsFromText provider random JSON_parse
              js_to_string symptomsText userContext t
            = (Threw (new_Error msg_invalid_prediction), t1)))
    /\
    (forall analysisData prompt,
        tips_prompt js_to_string js_to_number toFixed0 analysisData t
        = (Returned prompt, t) ->
        (AiService.with_retry provider random
           (GenerateContent aiAnalyze "gemini-2.5-flash"
                            (ContentsString prompt)
                            (JsonConfig healthTipsSchema)) t
         = (Returned resp, t1) ->
         AiService.generateHealthTips provider random JSON_parse
           js_to_string js_to_number toFixed0 analysisData t
         = (Threw (new_Error msg_no_tips), t1))
        /\ (AiService.with_retry provider random
              (GenerateContent aiAnalyze "gemini-2.5-flash"
                               (ContentsString prompt)
                               (JsonConfig healthTipsSchema)) t
            = (Threw x, t1) ->
            AiService.generateHealthTips provider random JSON_parse
              js_to_string js_to_number toFixed0 analysisData t
            = (Threw (new_Error msg_no_tips), t1))
        /\ (GeminiService.with_retry provider
              (GenerateContent ai "gemini-2.5-flash"
                               (ContentsString prompt)
                               (JsonConfig healthTipsSchema)) t
            = (Returned resp, t1) ->
            GeminiService.generateHealthTips provider JSON_parse
              js_to_string js_to_number toFixed0 analysisData t
            = (Threw (new_Error msg_no_tips), t1)))
    /\ msg_parse_analysis <> msg_invalid_analysis
    /\ msg_parse_symptoms <> msg_invalid_prediction.
Proof.
  intros provider random JSON_parse js_to_string js_to_number toFixed0
         t t1 resp text x Htext Hparse Hx.
  split; [|split; [|split; [|exact parse_messages_differ]]].
  - intros reportText fileData c Hc. repeat split; intros Hcall.
    + unfold AiService.analyzeHealthReport.
      eapply analyze_parse_failure; eassumption.
    + unfold AiService.analyzeHealthReport.
      rewrite (analyze_call_throws _ _ _ _ _ Hc Hcall).
      unfold translate. rewrite Hx. reflexivity.
    + unfold GeminiService.analyzeHealthReport.
      eapply analyze_parse_failure; eassumption.
    + unfold GeminiService.analyzeHealthReport.
      rewrite (analyze_call_throws _ _ _ _ _ Hc Hcall).
      unfold translate. rewrite Hx. reflexivity.
  - intros symptomsText userContext. split; intros Hcall.
    + eapply predict_parse_failure; eassumption.
    + rewrite (predict_call_throws _ _ JSON_parse _ _ _ _ Hcall).
      unfold translate. rewrite Hx. reflexivity.
  - intros analysisData prompt Hprompt. repeat split; intros Hcall.
    + unfold AiService.generateHealthTips.
      eapply tips_parse_failure; eassumption.
    + unfold AiService.generateHealthTips.
      eapply tips_call_throws; eassumption.
    + unfold GeminiService.generateHealthTips.
      eapply tips_parse_failure; eassumption.
Qed.

Lemma C7_witness :
  fst (AiService.analyzeHealthReport (Scenario.answers Scenario.text_prose)
         Scenario.half Json.parse (Some "Hb 13.5 g/dL") None [])
  = Threw (new_Error msg_parse_analysis)
  /\ fst (GeminiService.analyzeHealthReport
            (Scenario.answers Scenario.text_prose)
            Json.parse (Some "Hb 13.5 g/dL") None [])
     = Threw (new_Error msg_parse_analysis).
Proof.
  split.
  - destruct (@C7_unparsable_reply_is_an_error
                (Scenario.answers Scenario.text_prose) Scenario.half
                Json.parse Scenario.to_string Scenario.to_number
                Scenario.to_fixed0 []
                (snd (AiService.analyzeHealthReport
                        (Scenario.answers Scenario.text_prose)
                        Scenario.half Json.parse (Some "Hb 13.5 g/dL")
                        None []))
                (Scenario.reply Scenario.text_prose) Scenario.text_prose
                (ThrownError Scenario.e429))
      as [Hreport _].
    + reflexivity.
    + vm_compute. reflexivity.
    + reflexivity.
    + destruct (Hreport (Some "Hb 13.5 g/dL") None
                  (ContentsString
                     (analysis_prompt +++ LF +++ LF +++ "Here is the report:"
                                      +++ LF +++ LF +++ "Hb 13.5 g/dL")))
        as (Hai & _).
      * reflexivity.
      * rewrite Hai; [reflexivity | vm_compute; reflexivity].
  - destruct (@C7_unparsable_reply_is_an_error
                (Scenario.answers Scenario.text_prose) Scenario.half
                Json.parse Scenario.to_string Scenario.to_number
                Scenario.to_fixed0 []
                (snd (GeminiService.analyzeHealthReport
                        (Scenario.answers Scenario.text_prose)
                        Json.parse (Some "Hb 13.5 g/dL") None []))
                (Scenario.reply Scenario.text_prose) Scenario.text_prose
                (ThrownError Scenario.e429))
      as [Hreport _].
    + reflexivity.
    + vm_compute. reflexivity.
    + reflexivity.
    + destruct (Hreport (Some "Hb 13.5 g/dL") None
                  (ContentsString
                     (analysis_prompt +++ LF +++ LF +++ "Here is the report:"
                                      +++ LF +++ LF +++ "Hb 13.5 g/dL")))
        as (_ & _ & Hgem & _).
      * reflexivity.
      * rewrite Hgem; [reflexivity | vm_compute; reflexivity].
Defined.

(** ** Voice output: claim C8 *)

(** C8.  In [getChatResponse] with voice output enabled, when the text call
    returns a non-empty text and the speech synthesis fails, for whatever
    reason its [try] block throws, [textToSpeech] yields [null] and the
    operation returns the text with a [null] audio: nothing is thrown. *)
Theorem C8_speech_failure_keeps_text :
  forall (provider : request -> nat -> outcome response) (random : nat -> Q)
         (js_to_string : js_value -> string)
         (message : string) (history : option (list turn))
         (userContext : option user_context) (voiceConfig : voice_config)
         (t t1 t2 : trace request) (resp : response) (text : string)
         (x : thrown),
    enabled voiceConfig = true ->
    AiService.with_retry provider random
      (SendMessage aiChat "gemini-1.5-flash"
         (chat_instruction js_to_string AiService.chat_base_instruction
                           userContext)
         history message) t
    = (Returned resp, t1) ->
    resp_text resp = Some text ->
    text <> EmptyString ->
    AiService.textToSpeech_try provider random text (voice voiceConfig) t1
    = (Threw x, t2) ->
    AiService.textToSpeech provider random text (voice voiceConfig) t1
    = (Returned None, t2)
    /\ AiService.getChatResponse provider random js_to_string message history
         userContext (Some voiceConfig) t
       = (Returned (mkChatResult (Some text) None), t2).
Proof.
  intros provider random js_to_string message history userContext voiceConfig
         t t1 t2 resp text x Henabled Hcall Htext Hne Hspeech.
  pose proof (textToSpeech_swallows provider random text (voice voiceConfig)
                t1 Hspeech) as Hnull.
  split; [exact Hnull|].
  unfold AiService.getChatResponse. run_js.
  rewrite Hcall, Htext, Henabled. simpl.
  apply String.eqb_neq in Hne. rewrite Hne. simpl.
  rewrite Hnull. reflexivity.
Qed.

Lemma C8_witness :
  fst (AiService.getChatResponse Scenario.chat_without_speech Scenario.half
         Scenario.to_string "I have a headache" None None
         (Some (mkVoiceConfig true (Some "Kore"))) [])
  = Returned (mkChatResult (Some "Drink water and rest.") None)
  /\ fst (AiService.getChatResponse Scenario.chat_silent_speech Scenario.half
            Scenario.to_string "I have a headache" None None
            (Some (mkVoiceConfig true (Some "Kore"))) [])
     = Returned (mkChatResult (Some "Drink water and rest.") None).
Proof.
  split.
  - destruct (@C8_speech_failure_keeps_text Scenario.chat_without_speech
                Scenario.half Scenario.to_string "I have a headache" None None
                (mkVoiceConfig true (Some "Kore")) []
                (snd (AiService.with_retry Scenario.chat_without_speech
                        Scenario.half
                        (SendMessage aiChat "gemini-1.5-flash"
                           AiService.chat_base_instruction None
                           "I have a headache") []))
                (snd (AiService.getChatResponse Scenario.chat_without_speech
                        Scenario.half Scenario.to_string "I have a headache"
                        None None (Some (mkVoiceConfig true (Some "Kore")))
                        []))
                (Scenario.reply "Drink water and rest.")
                "Drink water and rest."
                (ThrownError Scenario.e500)) as [_ Hchat].
    + reflexivity.
    + vm_compute. reflexivity.
    + reflexivity.
    + discriminate.
    + vm_compute. reflexivity.
    + rewrite Hchat. reflexivity.
  - destruct (@C8_speech_failure_keeps_text Scenario.chat_silent_speech
                Scenario.half Scenario.to_string "I have a headache" None None
                (mkVoiceConfig true (Some "Kore")) []
                (snd (AiService.with_retry Scenario.chat_silent_speech
                        Scenario.half
                        (SendMessage aiChat "gemini-1.5-flash"
                           AiService.chat_base_instruction None
                           "I have a headache") []))
                (snd (AiService.getChatResponse Scenario.chat_silent_speech
                        Scenario.half Scenario.to_string "I have a headache"
                        None None (Some (mkVoiceConfig true (Some "Kore")))
                        []))
                (Scenario.reply "Drink water and rest.")
                "Drink water and rest."
                (new_Error msg_no_audio)) as [_ Hchat].
    + reflexivity.
    + vm_compute. reflexivity.
    + reflexivity.
    + discriminate.
    + vm_compute. reflexivity.
    + rewrite Hchat. reflexivity.
Defined.

(** ** Hospital lookup: claim C10 *)

Section HospitalList.

Variable with_retry : request -> J response.
Variable maps_client : client.

Lemma find_hospitals_spec lat lon query t :
    (forall res t1,
        Operations.findHospitalsNearLocation with_retry maps_client
          lat lon query t = (Returned res, t1) ->
        exists req resp,
          Operations.hospital_request maps_client lat lon query t
          = (Returned req, t)
          /\ with_retry req t = (Returned resp, t1)
          /\ forall h,
               In h (hospitals res)
               <-> exists chunk m,
                     In chunk (chunks_of resp)
                     /\ chunk_maps chunk = Some m
                     /\ maps_title m = Some (hospital_name h)
                     /\ maps_uri m = Some (hospital_uri h)
                     /\ hospital_name h <> EmptyString
                     /\ hospital_uri h <> EmptyString)
    /\
    (forall req resp t1,
        Operations.hospital_request maps_client lat lon query t
        = (Returned req, t) ->
        with_retry req t = (Returned resp, t1) ->
        first_grounding_chunks resp = None
        \/ first_grounding_chunks resp = Some [] ->
        exists text,
          Operations.findHospitalsNearLocation with_retry maps_client
            lat lon query t
          = (Returned (mkHospitalResult text []), t1)).
  Proof.
    split.
    - intros res t1 Hret. apply find_returns_inv in Hret.
      destruct Hret as (req & resp & Hreq & Hcall & Hlist).
      exists req, resp. split; [exact Hreq|]. split; [exact Hcall|].
      intros h. rewrite Hlist. apply hospital_entries.
    - intros req resp t1 Hreq Hcall Hnone.
      rewrite (find_after_call _ _ _ _ _ Hreq Hcall).
      eexists. f_equal. f_equal. unfold chunks_of.
      destruct Hnone as [-> | ->]; reflexivity.
  Qed.

End HospitalList.

(** C10.  In both services, whenever [findHospitalsNearLocation] returns,
    its list holds exactly the (title, uri) pairs of the grounding chunks of
    the reply that carry a place with a non-empty uri and a non-empty
    title: every entry has both fields, copied from such a chunk, and a
    chunk that lacks either contributes nothing.  When the reply carries no
    grounding chunks at all, the operation still returns, with an empty
    list. *)
Theorem C10_hospitals_come_from_complete_chunks :
  forall (provider : request -> nat -> outcome response) (random : nat -> Q)
         (latitude longitude : option Q) (query : option string)
         (t : trace request),
    ((forall res t1,
         AiService.findHospitalsNearLocation provider random
           latitude longitude query t = (Returned res, t1) ->
         exists req resp,
           Operations.hospital_request aiMaps latitude longitude query t
           = (Returned req, t)
           /\ AiService.with_retry provider random req t = (Returned resp, t1)
           /\ forall h,
                In h (hospitals res)
                <-> exists chunk m,
                      In chunk (chunks_of resp)
                      /\ chunk_maps chunk = Some m
                      /\ maps_title m = Some (hospital_name h)
                      /\ maps_uri m = Some (hospital_uri h)
                      /\ hospital_name h <> EmptyString
                      /\ hospital_uri h <> EmptyString)
     /\
     (forall req resp t1,
         Operations.hospital_request aiMaps latitude longitude query t
         = (Returned req, t) ->
         AiService.with_retry provider random req t = (Returned resp, t1) ->
         first_grounding_chunks resp = None
         \/ first_grounding_chunks resp = Some [] ->
         exists text,
           AiService.findHospitalsNearLocation provider random
             latitude longitude query t
           = (Returned (mkHospitalResult text []), t1)))
    /\
    ((forall res t1,
         GeminiService.findHospitalsNearLocation provider
           latitude longitude query t = (Returned res, t1) ->
         exists req resp,
           Operations.hospital_request ai latitude longitude query t
           = (Returned req, t)
           /\ GeminiService.with_retry provider req t = (Returned resp, t1)
           /\ forall h,
                In h (hospitals res)
                <-> exists chunk m,
                      In chunk (chunks_of resp)
                      /\ chunk_maps chunk = Some m
                      /\ maps_title m = Some (hospital_name h)
                      /\ maps_uri m = Some (hospital_uri h)
                      /\ hospital_name h <> EmptyString
                      /\ hospital_uri h <> EmptyString)
     /\
     (forall req resp t1,
         Operations.hospital_request ai latitude longitude query t
         = (Returned req, t) ->
         GeminiService.with_retry provider req t = (Returned resp, t1) ->
         first_grounding_chunks resp = None
         \/ first_grounding_chunks resp = Some [] ->
         exists text,
           GeminiService.findHospitalsNearLocation provider
             latitude longitude query t
           = (Returned (mkHospitalResult text []), t1))).
Proof.
  intros provider random latitude longitude query t. split.
  - apply (find_hospitals_spec (AiService.with_retry provider random) aiMaps).
  - apply (find_hospitals_spec (GeminiService.with_retry provider) ai).
Qed.

Lemma C10_witness :
  (exists t1,
      AiService.findHospitalsNearLocation Scenario.maps_answer Scenario.half
        (Some (27717 # 1000)) (Some (85324 # 1000)) None []
      = (Returned (mkHospitalResult "Two hospitals are close."
                     [mkHospital "Bir Hospital" "https://maps.example/bir"]),
         t1))
  /\ (exists text,
         AiService.findHospitalsNearLocation
           (Scenario.answers "No places found.") Scenario.half
           None None (Some "Pokhara") []
         = (Returned (mkHospitalResult text []),
            snd (AiService.findHospitalsNearLocation
                   (Scenario.answers "No places found.") Scenario.half
                   None None (Some "Pokhara") []))).
Proof.
  split.
  - eexists. vm_compute. reflexivity.
  - destruct (@C10_hospitals_come_from_complete_chunks
                (Scenario.answers "No places found.") Scenario.half
                None None (Some "Pokhara") []) as [[_ Hempty] _].
    apply (Hempty (GenerateContent aiMaps "gemini-2.5-flash"
                     (ContentsString
                        ("What hospitals are near " +++ "Pokhara"
                           +++ "? Provide a brief summary and list them."))
                     (MapsConfig None))
                  (Scenario.reply "No places found.")).
    + reflexivity.
    + vm_compute. reflexivity.
    + left. reflexivity.
Defined.

(** * Further properties of the service layer *)

(** ** The retry wrapper beyond the claims *)

Section RetryMore.

Context {L A : Type}.
Variable random : nat -> Q.
Variable oracle : L -> nat -> outcome A.
Variable l : L.

Lemma jitter_rounds_snoc k : forall nd d j,
  jitter_rounds random l (S k) nd d j
  = jitter_rounds random l k nd d j
      ++ [EvCall l; EvRandom (random (nd + k)%nat);
          EvSleep (delay_at d k + random (nd + k)%nat * j)].
Proof.
  induction k as [|k IH]; intros nd d j.
  - simpl. rewrite Nat.add_0_r. reflexivity.
  - change (jitter_rounds random l (S (S k)) nd d j)
      with (EvCall l :: EvRandom (random nd) :: EvSleep (d + random nd * j)
              :: jitter_rounds random l (S k) (S nd) (d * 2) j).
    rewrite IH. simpl. rewrite delay_at_shift.
    replace (S (nd + k))%nat with (nd + S k)%nat by lia. reflexivity.
Qed.

Lemma plain_rounds_snoc k : forall d,
  plain_rounds l (S k) d
  = plain_rounds l k d ++ [EvCall l; EvSleep (delay_at d k)].
Proof.
  induction k as [|k IH]; intros d.
  - reflexivity.
  - change (plain_rounds l (S (S k)) d)
      with (EvCall l :: EvSleep d :: plain_rounds l (S k) (d * 2)).
    rewrite IH. simpl. rewrite delay_at_shift. reflexivity.
Qed.

Lemma length_sleeps_jitter_rounds k nd d j :
  List.length (sleeps_of (jitter_rounds random l k nd d j)) = k.
Proof.
  rewrite sleeps_of_jitter_rounds, length_map, length_seq. reflexivity.
Qed.

Lemma length_sleeps_plain_rounds k d :
  List.length (sleeps_of (plain_rounds l k d)) = k.
Proof.
  rewrite sleeps_of_plain_rounds, length_map, length_seq. reflexivity.
Qed.

End RetryMore.

(** X1.  In both services, when the wrapped function fails [k] times with
    a 5xx status and then returns, with [k] below the budget, the wrapper
    returns that value after exactly [k + 1] calls and [k] waits. *)
Theorem retry_returns_after_transient_failures :
  forall (L A : Type) (random : nat -> Q) (oracle : L -> nat -> outcome A)
         (l : L) (retries k : nat) (delay jitter : Q) (t : trace L) (a : A),
    (k < retries)%nat ->
    (forall i, (i < k)%nat ->
       is_server_failure (oracle l (ncalls t + i)%nat) = true) ->
    oracle l (ncalls t + k)%nat = Returned a ->
    (AiService.retryWithBackoff random (invoke oracle l) retries delay jitter t
     = (Returned a,
        t ++ jitter_rounds random l k (ndraws t) delay jitter ++ [EvCall l])
     /\ ncalls (jitter_rounds random l k (ndraws t) delay jitter
                  ++ [EvCall l]) = (k + 1)%nat
     /\ List.length (sleeps_of (jitter_rounds random l k (ndraws t) delay
                                  jitter ++ [EvCall l])) = k)
    /\
    (GeminiService.retryWithBackoff (invoke oracle l) retries delay t
     = (Returned a, t ++ plain_rounds l k delay ++ [EvCall l])
     /\ ncalls (plain_rounds l k delay ++ [EvCall l]) = (k + 1)%nat
     /\ List.length (sleeps_of (plain_rounds l k delay ++ [EvCall l])) = k).
Proof.
  intros L A random oracle l retries k delay jitter t a Hk Hpre Hret.
  assert (Hstop : is_server_failure (oracle l (ncalls t + k)%nat) = false)
    by (rewrite Hret; reflexivity).
  split; (split; [|split]).
  - unfold AiService.retryWithBackoff.
    rewrite (ai_retry_settles random oracle l delay jitter ThrownUndefined t
               Hk Hpre Hstop), Hret. reflexivity.
  - rewrite ncalls_snoc_call, ncalls_jitter_rounds. lia.
  - rewrite sleeps_of_app, length_app, length_sleeps_jitter_rounds. simpl. lia.
  - unfold GeminiService.retryWithBackoff.
    rewrite (gemini_retry_settles oracle l delay ThrownUndefined t
               Hk Hpre Hstop), Hret. reflexivity.
  - rewrite ncalls_snoc_call, ncalls_plain_rounds. lia.
  - rewrite sleeps_of_app, length_app, length_sleeps_plain_rounds. simpl. lia.
Qed.

Lemma retry_returns_after_transient_failures_witness :
  AiService.retryWithBackoff Scenario.half
    (invoke Scenario.recovers_third "call") 5 1000 200 []
  = (Returned 7%nat,
     [] ++ jitter_rounds Scenario.half "call" 2 0 1000 200 ++ [EvCall "call"])
  /\ GeminiService.retryWithBackoff
       (invoke Scenario.recovers_third "call") 3 1000 []
     = (Returned 7%nat, [] ++ plain_rounds "call" 2 1000 ++ [EvCall "call"]).
Proof.
  destruct (@retry_returns_after_transient_failures string nat Scenario.half
              Scenario.recovers_third "call" 5%nat 2%nat 1000 200 [] 7%nat)
    as [[Hai _] _].
  - lia.
  - intros i Hi. destruct i as [|[|i]]; [reflexivity | reflexivity | lia].
  - reflexivity.
  - destruct (@retry_returns_after_transient_failures string nat
                Scenario.half Scenario.recovers_third "call" 3%nat 2%nat
                1000 200 [] 7%nat) as [_ [Hgem _]].
    + lia.
    + intros i Hi. destruct i as [|[|i]]; [reflexivity | reflexivity | lia].
    + reflexivity.
    + split; [exact Hai | exact Hgem].
Defined.

(** X2.  In both services, when every attempt of a positive budget fails
    with a 5xx status, the wrapper still sleeps after the last attempt
    before it throws: the last event of the run is a wait of the delay
    doubled [retries - 1] times (plus the jitter term in the multi-key
    service), and what is thrown is the error of the last attempt. *)
Theorem retry_waits_even_after_last_attempt :
  forall (L A : Type) (random : nat -> Q) (oracle : L -> nat -> outcome A)
         (l : L) (n : nat) (delay jitter : Q) (t : trace L),
    (forall i, (i < S n)%nat ->
       is_server_failure (oracle l (ncalls t + i)%nat) = true) ->
    (exists t',
        AiService.retryWithBackoff random (invoke oracle l) (S n) delay
          jitter t
        = (Threw (thrown_of (oracle l (ncalls t + n)%nat)),
           t' ++ [EvSleep (delay_at delay n
                           + random (ndraws t + n)%nat * jitter)]))
    /\
    (exists t',
        GeminiService.retryWithBackoff (invoke oracle l) (S n) delay t
        = (Threw (thrown_of (oracle l (ncalls t + n)%nat)),
           t' ++ [EvSleep (delay_at delay n)])).
Proof.
  intros L A random oracle l n delay jitter t Hall. split.
  - unfold AiService.retryWithBackoff.
    rewrite (ai_retry_exhausts random oracle l delay jitter ThrownUndefined t
               Hall).
    rewrite jitter_rounds_snoc. simpl.
    exists (t ++ jitter_rounds random l n (ndraws t) delay jitter
              ++ [EvCall l; EvRandom (random (ndraws t + n)%nat)]).
    rewrite <- !app_assoc. reflexivity.
  - unfold GeminiService.retryWithBackoff.
    rewrite (gemini_retry_exhausts oracle l delay ThrownUndefined t Hall).
    rewrite plain_rounds_snoc. simpl.
    exists (t ++ plain_rounds l n delay ++ [EvCall l]).
    rewrite <- !app_assoc. reflexivity.
Qed.

Lemma retry_waits_even_after_last_attempt_witness :
  exists t',
    GeminiService.retryWithBackoff (invoke Scenario.always_down "call")
      3 1000 []
    = (Threw (ThrownError Scenario.e503),
       t' ++ [EvSleep (delay_at 1000 2)]).
Proof.
  destruct (@retry_waits_even_after_last_attempt string nat Scenario.half
              Scenario.always_down "call" 2%nat 1000 200 []) as [_ H].
  - intros i _. destruct i; reflexivity.
  - exact H.
Defined.

(** *** Time spent waiting *)

Lemma fold_Qplus_app (l1 l2 : list Q) :
  fold_right Qplus 0 (l1 ++ l2)
  == fold_right Qplus 0 l1 + fold_right Qplus 0 l2.
Proof.
  induction l1 as [|x l1 IH]; simpl.
  - ring.
  - rewrite IH. ring.
Qed.

Lemma total_wait_app {L} (t1 t2 : trace L) :
  total_wait (t1 ++ t2) == total_wait t1 + total_wait t2.
Proof. unfold total_wait. rewrite sleeps_of_app. apply fold_Qplus_app. Qed.

Lemma inject_pow2_succ (n : nat) :
  inject_Z (2 ^ Z.of_nat (S n)) == 2 * inject_Z (2 ^ Z.of_nat n).
Proof.
  rewrite Nat2Z.inj_succ, Z.pow_succ_r by lia.
  rewrite inject_Z_mult. reflexivity.
Qed.

(** The delays of [n] rounds add up to [delay * (2 ^ n - 1)]. *)
Lemma sum_of_delays (d : Q) (n : nat) :
  fold_right Qplus 0 (map (delay_at d) (seq 0 n))
  == d * (inject_Z (2 ^ Z.of_nat n) - 1).
Proof.
  induction n as [|n IH].
  - simpl. ring.
  - rewrite seq_S, map_app, fold_Qplus_app, IH.
    change (fold_right Qplus 0 (map (delay_at d) [(0 + n)%nat]))
      with (delay_at d n + 0).
    rewrite delay_at_pow, inject_pow2_succ. ring.
Qed.

Lemma sum_with_jitter (random : nat -> Q) (d j : Q) (nd n : nat) :
  0 <= j ->
  (forall i, 0 <= random i /\ random i < 1) ->
  d * (inject_Z (2 ^ Z.of_nat n) - 1)
  <= fold_right Qplus 0
       (map (fun k => delay_at d k + random (nd + k)%nat * j) (seq 0 n))
  /\ fold_right Qplus 0
       (map (fun k => delay_at d k + random (nd + k)%nat * j) (seq 0 n))
     <= d * (inject_Z (2 ^ Z.of_nat n) - 1) + inject_Z (Z.of_nat n) * j.
Proof.
  intros Hj Hr. induction n as [|n [IHlo IHhi]].
  - simpl. split; ring_simplify; apply Qle_refl.
  - rewrite seq_S, map_app, fold_Qplus_app.
    change (fold_right Qplus 0
              (map (fun k => delay_at d k + random (nd + k)%nat * j)
                   [(0 + n)%nat]))
      with (delay_at d n + random (nd + n)%nat * j + 0).
    destruct (jitter_term_bounds Hj (Hr (nd + n)%nat)) as [H0 H1].
    pose proof (delay_at_pow d n) as Hd.
    pose proof (inject_pow2_succ n) as Hp.
    assert (Hn : inject_Z (Z.of_nat (S n)) == inject_Z (Z.of_nat n) + 1).
    { rewrite Nat2Z.inj_succ. unfold Z.succ. rewrite inject_Z_plus.
      reflexivity. }
    rewrite Hp, Hn.
    set (S0 := fold_right Qplus 0
                 (map (fun k => delay_at d k + random (nd + k)%nat * j)
                      (seq 0 n))) in *.
    set (D := delay_at d n) in *.
    set (P := inject_Z (2 ^ Z.of_nat n)) in *.
    set (R := random (nd + n)%nat * j) in *.
    set (N := inject_Z (Z.of_nat n)) in *.
    assert (HD : D == d * P) by exact Hd.
    split.
    + setoid_replace (d * (2 * P - 1)) with (d * (P - 1) + d * P) by ring.
      rewrite <- HD. lra.
    + setoid_replace (d * (2 * P - 1) + (N + 1) * j)
        with (d * (P - 1) + N * j + (d * P + j)) by ring.
      rewrite <- HD. lra.
Qed.

(** X3.  When every attempt of the budget fails with a 5xx status, the
    time the wrapper spends asleep is [delay * (2 ^ retries - 1)] in the
    single-key service (7000 ms with its defaults 3 and 1000), and between
    that and that plus [retries * jitter] in the multi-key service (31000
    to 32000 ms with its defaults 5, 1000 and 200). *)
Theorem retry_total_wait_when_exhausted :
  forall (L A : Type) (random : nat -> Q) (oracle : L -> nat -> outcome A)
         (l : L) (retries : nat) (delay jitter : Q) (t : trace L),
    (forall i, (i < retries)%nat ->
       is_server_failure (oracle l (ncalls t + i)%nat) = true) ->
    0 <= jitter ->
    (forall n, 0 <= random n /\ random n < 1) ->
    total_wait (snd (GeminiService.retryWithBackoff (invoke oracle l)
                       retries delay t))
    == total_wait t + delay * (inject_Z (2 ^ Z.of_nat retries) - 1)
    /\ total_wait t + delay * (inject_Z (2 ^ Z.of_nat retries) - 1)
       <= total_wait (snd (AiService.retryWithBackoff random (invoke oracle l)
                             retries delay jitter t))
    /\ total_wait (snd (AiService.retryWithBackoff random (invoke oracle l)
                          retries delay jitter t))
       <= total_wait t + delay * (inject_Z (2 ^ Z.of_nat retries) - 1)
          + inject_Z (Z.of_nat retries) * jitter.
Proof.
  intros L A random oracle l retries delay jitter t Hall Hj Hr.
  unfold AiService.retryWithBackoff, GeminiService.retryWithBackoff.
  rewrite (ai_retry_exhausts random oracle l delay jitter ThrownUndefined t
             Hall).
  rewrite (gemini_retry_exhausts oracle l delay ThrownUndefined t Hall).
  simpl. rewrite !total_wait_app.
  assert (Hplain : total_wait (plain_rounds l retries delay)
                   == delay * (inject_Z (2 ^ Z.of_nat retries) - 1)).
  { unfold total_wait. rewrite sleeps_of_plain_rounds. apply sum_of_delays. }
  destruct (sum_with_jitter random delay (ndraws t) retries Hj Hr)
    as [Hlo Hhi].
  rewrite <- sleeps_of_jitter_rounds with (l := l) in Hlo, Hhi.
  fold (total_wait (jitter_rounds random l retries (ndraws t) delay jitter))
    in Hlo, Hhi.
  rewrite Hplain. split; [reflexivity|]. split; lra.
Qed.

Lemma retry_total_wait_when_exhausted_witness :
  total_wait (snd (GeminiService.retryWithBackoff
                     (invoke Scenario.always_down "call") 3 1000 []))
  == 7000
  /\ 31000 <= total_wait (snd (AiService.retryWithBackoff Scenario.half
                                 (invoke Scenario.always_down "call")
                                 5 1000 200 []))
  /\ total_wait (snd (AiService.retryWithBackoff Scenario.half
                        (invoke Scenario.always_down "call") 5 1000 200 []))
     <= 32000.
Proof.
  destruct (@retry_total_wait_when_exhausted string nat Scenario.half
              Scenario.always_down "call" 3%nat 1000 200 []) as [Hgem _].
  - intros i _. destruct i; reflexivity.
  - unfold Qle. simpl. lia.
  - intros n. unfold Scenario.half, Qle, Qlt. simpl. lia.
  - destruct (@retry_total_wait_when_exhausted string nat Scenario.half
                Scenario.always_down "call" 5%nat 1000 200 [])
      as [_ [Hlo Hhi]].
    + intros i _. destruct i; reflexivity.
    + unfold Qle. simpl. lia.
    + intros n. unfold Scenario.half, Qle, Qlt. simpl. lia.
    + split; [|split].
      * rewrite Hgem. reflexivity.
      * eapply Qle_trans; [|exact Hlo]. unfold Qle. simpl. lia.
      * eapply Qle_trans; [exact Hhi|]. unfold Qle. simpl. lia.
Defined.

(** *** Order of the waits *)

Lemma delay_at_lower (d : Q) (k : nat) : 0 < d -> d <= delay_at d k.
Proof.
  intros Hd. induction k as [|k IH].
  - apply Qle_refl.
  - change (delay_at d (S k)) with (delay_at d k * 2). lra.
Qed.

Lemma nth_map_seq (f : nat -> Q) (m k : nat) :
  (k < m)%nat -> nth k (map f (seq 0 m)) 0 = f k.
Proof.
  intros Hk. rewrite (nth_indep _ 0 (f 0%nat)) by
    (rewrite length_map, length_seq; exact Hk).
  rewrite map_nth, seq_nth by exact Hk. reflexivity.
Qed.

Lemma ai_retry_sleeps {L A} (random : nat -> Q)
      (oracle : L -> nat -> outcome A) (l : L) N d j (t : trace L) :
  exists m, (m <= N)%nat
    /\ sleeps_of (snd (AiService.retryWithBackoff random (invoke oracle l)
                         N d j t))
       = sleeps_of t
           ++ map (fun k => delay_at d k + random (ndraws t + k)%nat * j)
                  (seq 0 m).
Proof.
  unfold AiService.retryWithBackoff.
  destruct (ai_retry_run random oracle l N d j ThrownUndefined t)
    as (m & Hle & _ & [(_ & Hrun)|(_ & _ & Hrun)]);
    exists m; (split; [exact Hle|]); rewrite Hrun; simpl.
  - rewrite sleeps_of_app, sleeps_of_jitter_rounds. reflexivity.
  - rewrite !sleeps_of_app, sleeps_of_jitter_rounds. simpl.
    rewrite app_nil_r. reflexivity.
Qed.

Lemma gemini_retry_sleeps {L A} (oracle : L -> nat -> outcome A) (l : L)
      N d (t : trace L) :
  exists m, (m <= N)%nat
    /\ sleeps_of (snd (GeminiService.retryWithBackoff (invoke oracle l)
                         N d t))
       = sleeps_of t ++ map (delay_at d) (seq 0 m).
Proof.
  unfold GeminiService.retryWithBackoff.
  destruct (gemini_retry_run oracle l N d ThrownUndefined t)
    as (m & Hle & _ & [(_ & Hrun)|(_ & _ & Hrun)]);
    exists m; (split; [exact Hle|]); rewrite Hrun; simpl.
  - rewrite sleeps_of_app, sleeps_of_plain_rounds. reflexivity.
  - rewrite !sleeps_of_app, sleeps_of_plain_rounds. simpl.
    rewrite app_nil_r. reflexivity.
Qed.

(** X4.  Within one run the waits grow: in the single-key service each
    wait is exactly twice the one before; in the multi-key service, with a
    positive delay and a jitter bound between 0 and the delay (as with the
    defaults 1000 and 200), each wait is strictly longer than the one
    before, whatever the random draws. *)
Theorem backoff_waits_increase :
  forall (L A : Type) (random : nat -> Q) (oracle : L -> nat -> outcome A)
         (l : L) (retries : nat) (delay jitter : Q) (t : trace L),
    0 < delay -> 0 <= jitter -> jitter <= delay ->
    (forall n, 0 <= random n /\ random n < 1) ->
    (exists waits,
        sleeps_of (snd (AiService.retryWithBackoff random (invoke oracle l)
                          retries delay jitter t))
        = sleeps_of t ++ waits
        /\ (List.length waits <= retries)%nat
        /\ forall k, (S k < List.length waits)%nat ->
             nth k waits 0 < nth (S k) waits 0)
    /\
    (exists waits,
        sleeps_of (snd (GeminiService.retryWithBackoff (invoke oracle l)
                          retries delay t))
        = sleeps_of t ++ waits
        /\ (List.length waits <= retries)%nat
        /\ forall k, (S k < List.length waits)%nat ->
             nth (S k) waits 0 = nth k waits 0 * 2).
Proof.
  intros L A random oracle l retries delay jitter t Hd Hj Hjd Hr. split.
  - destruct (ai_retry_sleeps random oracle l retries delay jitter t)
      as (m & Hle & Hsleeps).
    eexists. split; [exact Hsleeps|].
    rewrite length_map, length_seq. split; [exact Hle|].
    intros k Hk. rewrite !nth_map_seq by lia.
    change (delay_at delay (S k)) with (delay_at delay k * 2).
    pose proof (delay_at_lower k Hd) as Hlow.
    destruct (jitter_term_bounds Hj (Hr (ndraws t + k)%nat)) as [Ha0 Ha1].
    destruct (jitter_term_bounds Hj (Hr (ndraws t + S k)%nat)) as [Hb0 Hb1].
    destruct (Hr (ndraws t + k)%nat) as [Hr0 Hr1].
    destruct (Qlt_le_dec 0 jitter) as [Hpos|Hzero].
    + assert (Hstrict : random (ndraws t + k)%nat * jitter < 1 * jitter)
        by (apply Qmult_lt_compat_r; assumption).
      lra.
    + assert (Hj0 : jitter == 0) by lra. rewrite Hj0. lra.
  - destruct (gemini_retry_sleeps oracle l retries delay t)
      as (m & Hle & Hsleeps).
    eexists. split; [exact Hsleeps|].
    rewrite length_map, length_seq. split; [exact Hle|].
    intros k Hk. rewrite !nth_map_seq by lia. reflexivity.
Qed.

Lemma backoff_waits_increase_witness :
  exists waits,
    sleeps_of (snd (AiService.retryWithBackoff Scenario.half
                      (invoke Scenario.always_down "call") 5 1000 200 []))
    = waits
    /\ (List.length waits <= 5)%nat
    /\ forall k, (S k < List.length waits)%nat ->
         nth k waits 0 < nth (S k) waits 0.
Proof.
  destruct (@backoff_waits_increase string nat Scenario.half
              Scenario.always_down "call" 5%nat 1000 200 []) as [H _].
  - unfold Qlt. simpl. lia.
  - unfold Qle. simpl. lia.
  - unfold Qle. simpl. lia.
  - intros n. unfold Scenario.half, Qle, Qlt. simpl. lia.
  - exact H.
Defined.

(** X5.  In both services, when the wrapped function rejects with
    [undefined] instead of an error object, the wrapper does not retry and
    the caller does not get that value back: reading [status] in the
    [catch] block throws a TypeError, which is what propagates. *)
Theorem retry_on_thrown_undefined :
  forall (L A : Type) (random : nat -> Q) (oracle : L -> nat -> outcome A)
         (l : L) (retries k : nat) (delay jitter : Q) (t : trace L),
    (k < retries)%nat ->
    (forall i, (i < k)%nat ->
       is_server_failure (oracle l (ncalls t + i)%nat) = true) ->
    oracle l (ncalls t + k)%nat = Threw ThrownUndefined ->
    AiService.retryWithBackoff random (invoke oracle l) retries delay jitter t
    = (Threw (new_TypeError
                "Cannot read properties of undefined (reading 'status')"),
       t ++ jitter_rounds random l k (ndraws t) delay jitter ++ [EvCall l])
    /\ GeminiService.retryWithBackoff (invoke oracle l) retries delay t
       = (Threw (new_TypeError
                   "Cannot read properties of undefined (reading 'status')"),
          t ++ plain_rounds l k delay ++ [EvCall l]).
Proof.
  intros L A random oracle l retries k delay jitter t Hk Hpre Hund.
  assert (Hstop : is_server_failure (oracle l (ncalls t + k)%nat) = false)
    by (rewrite Hund; reflexivity).
  split.
  - unfold AiService.retryWithBackoff.
    rewrite (ai_retry_settles random oracle l delay jitter ThrownUndefined t
               Hk Hpre Hstop), Hund. reflexivity.
  - unfold GeminiService.retryWithBackoff.
    rewrite (gemini_retry_settles oracle l delay ThrownUndefined t
               Hk Hpre Hstop), Hund. reflexivity.
Qed.

Lemma retry_on_thrown_undefined_witness :
  fst (GeminiService.retryWithBackoff
         (invoke (fun (_ : string) (_ : nat) => @Threw nat ThrownUndefined)
                 "call") 3 1000 [])
  = Threw (new_TypeError
             "Cannot read properties of undefined (reading 'status')").
Proof.
  destruct (@retry_on_thrown_undefined string nat Scenario.half
              (fun _ _ => Threw ThrownUndefined) "call" 3%nat 0%nat
              1000 200 []) as [_ H].
  - lia.
  - intros i Hi. lia.
  - reflexivity.
  - rewrite H. reflexivity.
Defined.

(** ** The operations beyond the claims *)


Lemma translate_cases (p g : string) (x : thrown) :
  translate p g x = new_Error p \/ translate p g x = new_Error g.
Proof. unfold translate. destruct (instanceof_SyntaxError x); auto. Qed.

Lemma mapM_render_risk_pure (js_to_string : js_value -> string)
      (js_to_number : js_value -> option Q) (toFixed0 : option Q -> string)
      (items : list json) (t : trace request) :
  snd (mapM (render_risk js_to_string js_to_number toFixed0) items t) = t.
Proof.
  revert t. induction items as [|p items IH]; intros t; [reflexivity|].
  simpl. unfold bind at 1.
  assert (Hp : snd (render_risk (L := request) js_to_string js_to_number
                      toFixed0 p t) = t).
  { unfold render_risk. run_js. destruct p; reflexivity. }
  destruct (render_risk js_to_string js_to_number toFixed0 p t)
    as [[s|x] t1]; simpl in Hp; subst t1; [|reflexivity].
  unfold bind. specialize (IH t).
  destruct (mapM (render_risk js_to_string js_to_number toFixed0) items t)
    as [[ss|x] t1]; simpl in IH; subst t1; reflexivity.
Qed.

(** Building the prompt of the tips touches neither provider nor clock. *)
Lemma tips_prompt_pure (js_to_string : js_value -> string)
      (js_to_number : js_value -> option Q) (toFixed0 : option Q -> string)
      (data : json) (t : trace request) :
  snd (tips_prompt js_to_string js_to_number toFixed0 data t) = t.
Proof.
  unfold tips_prompt.
  destruct data as [| b | q | s | items | fields];
    try (run_js; reflexivity).
  unfold get_prop, bind at 1 2 3, ret. simpl.
  unfold bind.
  destruct (lookup "predictions" fields) as [[| b | q | s | items | fs]|];
    try reflexivity.
  pose proof (mapM_render_risk_pure js_to_string js_to_number toFixed0
                items t) as Hpure.
  destruct (mapM (render_risk js_to_string js_to_number toFixed0) items t)
    as [[ss|x] t1]; simpl in Hpure; subst t1; reflexivity.
Qed.

Section SharedOperations.

Variable with_retry : request -> J response.
Variable analyze_client maps_client : client.
Variable JSON_parse : string -> option json.
Variable js_to_string : js_value -> string.
Variable js_to_number : js_value -> option Q.
Variable toFixed0 : option Q -> string.

Let analyze := Operations.analyzeHealthReport with_retry analyze_client
                 JSON_parse.
Let find := Operations.findHospitalsNearLocation with_retry maps_client.
Let tips := Operations.generateHealthTips with_retry analyze_client
              JSON_parse js_to_string js_to_number toFixed0.




(** The trace of an operation is that of its one retry-wrapped request,
    if it gets that far. *)
Lemma analyze_trace rt fd t :
  snd (analyze rt fd t) = t
  \/ exists c, snd (analyze rt fd t)
               = snd (with_retry
                        (GenerateContent analyze_client "gemini-2.5-flash" c
                                         (JsonConfig analysisSchema)) t).
Proof.
  unfold analyze, Operations.analyzeHealthReport,
    Operations.analyzeHealthReport_try. run_js.
  pose proof (analysis_contents_pure rt fd t) as Hpure.
  destruct (Operations.analysis_contents rt fd t) as [[c|x] t0];
    simpl in Hpure; subst t0.
  2:{ left. destruct (instanceof_SyntaxError x); reflexivity. }
  right. exists c.
  destruct (with_retry _ t) as [[resp|x] t1]; simpl.
  2:{ destruct (instanceof_SyntaxError x); reflexivity. }
  destruct (resp_text resp) as [s|]; simpl; [|reflexivity].
  destruct (JSON_parse (trim s)) as [v|]; simpl; [|reflexivity].
  destruct v as [| b | q | str | items | fields]; simpl; try reflexivity.
  destruct (truthy (lookup "healthScore" fields)); simpl; [|reflexivity].
  destruct (truthy (lookup "summary" fields)); reflexivity.
Qed.

Lemma find_trace lat lon q t :
  snd (find lat lon q t) = t
  \/ exists req, snd (find lat lon q t) = snd (with_retry req t).
Proof.
  unfold find, Operations.findHospitalsNearLocation,
    Operations.findHospitalsNearLocation_try. run_js.
  pose proof (hospital_request_pure maps_client lat lon q t) as Hpure.
  destruct (Operations.hospital_request maps_client lat lon q t)
    as [[req|x] t0]; simpl in Hpure; subst t0.
  2:{ left. reflexivity. }
  right. exists req.
  destruct (with_retry req t) as [[resp|x] t1]; reflexivity.
Qed.

Lemma tips_trace data t :
  snd (tips data t) = t
  \/ exists prompt,
       tips_prompt js_to_string js_to_number toFixed0 data t
       = (Returned prompt, t)
       /\ snd (tips data t)
          = snd (with_retry
                   (GenerateContent analyze_client "gemini-2.5-flash"
                                    (ContentsString prompt)
                                    (JsonConfig healthTipsSchema)) t).
Proof.
  unfold tips, Operations.generateHealthTips.
  unfold try_catch, bind, ret, throw, trimmed_text, parse_or_throw, get_prop.
  pose proof (tips_prompt_pure js_to_string js_to_number toFixed0 data t)
    as Hpure.
  destruct (tips_prompt js_to_string js_to_number toFixed0 data t)
    as [[prompt|x] t0]; simpl in Hpure; subst t0.
  2:{ left. reflexivity. }
  right. exists prompt. split; [reflexivity|].
  destruct (with_retry _ t) as [[resp|x] t1]; simpl; [|reflexivity].
  destruct (resp_text resp) as [s|]; simpl; [|reflexivity].
  destruct (JSON_parse (trim s)) as [v|]; simpl; [|reflexivity].
  destruct v as [| b | q | str | items | fields]; simpl; try reflexivity.
  destruct (negb (truthy (lookup "tips" fields))
            || negb (is_array (lookup "tips" fields))); reflexivity.
Qed.

(** With a wrapper that makes at most [budget] calls per request, each of
    the three operations makes at most [budget] calls. *)
Variable budget : nat.
Hypothesis with_retry_budget :
  forall r t, (ncalls (snd (with_retry r t)) <= ncalls t + budget)%nat.

Lemma shared_operations_budget t :
  (forall rt fd, (ncalls (snd (analyze rt fd t)) <= ncalls t + budget)%nat)
  /\ (forall lat lon q,
         (ncalls (snd (find lat lon q t)) <= ncalls t + budget)%nat)
  /\ (forall data, (ncalls (snd (tips data t)) <= ncalls t + budget)%nat).
Proof.
  split; [|split].
  - intros rt fd. destruct (analyze_trace rt fd t) as [H|[c H]]; rewrite H.
    + lia.
    + apply with_retry_budget.
  - intros lat lon q. destruct (find_trace lat lon q t) as [H|[r H]];
      rewrite H.
    + lia.
    + apply with_retry_budget.
  - intros data. destruct (tips_trace data t) as [H|[p [_ H]]]; rewrite H.
    + lia.
    + apply with_retry_budget.
Qed.

End SharedOperations.

Lemma speech_calls_app (t1 t2 : trace request) :
  speech_calls (t1 ++ t2) = (speech_calls t1 + speech_calls t2)%nat.
Proof.
  unfold speech_calls. rewrite filter_app, length_app. reflexivity.
Qed.

Lemma speech_calls_calls_only (t : trace request) :
  speech_calls t = speech_calls (filter is_call t).
Proof.
  unfold speech_calls. induction t as [|e t IH]; [reflexivity|].
  destruct e as [r| |]; simpl; [|exact IH|exact IH].
  destruct (request_client r); simpl; rewrite IH; reflexivity.
Qed.

Lemma speech_calls_repeat (r : request) (n : nat) :
  speech_calls (repeat (EvCall r) n)
  = match request_client r with aiTTS => n | _ => 0%nat end.
Proof.
  unfold speech_calls. induction n as [|n IH]; simpl.
  - destruct (request_client r); reflexivity.
  - destruct (request_client r); simpl; rewrite IH; reflexivity.
Qed.

Section GeminiServiceFacts.

Variable provider : request -> nat -> outcome response.
Variable JSON_parse : string -> option json.
Variable js_to_string : js_value -> string.

Lemma gemini_with_retry_calls (r : request) (t : trace request) :
  exists ext,
    snd (GeminiService.with_retry provider r t) = t ++ ext
    /\ (1 <= ncalls ext <= 3)%nat
    /\ filter is_call ext = repeat (EvCall r) (ncalls ext).
Proof.
  destruct (gemini_retry_calls provider r 3 1000 ThrownUndefined t)
    as (ext & Hext & Hle & Hge & Hcalls).
  exists ext. split; [exact Hext|]. split; [|exact Hcalls].
  split; [apply Hge; lia | exact Hle].
Qed.

Lemma gemini_with_retry_budget (r : request) (t : trace request) :
  (ncalls (snd (GeminiService.with_retry provider r t)) <= ncalls t + 3)%nat.
Proof.
  destruct (gemini_with_retry_calls r t) as (ext & Hext & Hn & _).
  rewrite Hext, ncalls_app. lia.
Qed.

Lemma gemini_predict_trace text t :
  snd (GeminiService.predictSymptomsFromText provider JSON_parse text t)
  = snd (GeminiService.with_retry provider
           (GenerateContent ai "gemini-2.5-flash"
              (ContentsString (GeminiService.symptom_prompt text))
              (JsonConfig symptomPredictionSchema)) t).
Proof.
  unfold GeminiService.predictSymptomsFromText. run_js.
  destruct (GeminiService.with_retry provider _ t) as [[resp|x] t1]; simpl.
  2:{ destruct (instanceof_SyntaxError x); reflexivity. }
  destruct (resp_text resp) as [s|]; simpl; [|reflexivity].
  destruct (JSON_parse (trim s)) as [v|]; simpl; [|reflexivity].
  destruct v as [| b | q | str | items | fields]; simpl; try reflexivity.
  destruct (truthy (lookup "predictions" fields)); reflexivity.
Qed.

Lemma gemini_chat_unfold message history ctx t :
  GeminiService.getChatResponse provider js_to_string message history ctx t
  = match GeminiService.with_retry provider
            (legacy_chat_request js_to_string message history ctx) t with
    | (Returned resp, t1) => (Returned (resp_text resp), t1)
    | (Threw x, t1) => (Threw (new_Error msg_no_chat), t1)
    end.
Proof.
  unfold GeminiService.getChatResponse, legacy_chat_request. run_js.
  destruct (GeminiService.with_retry provider _ t) as [[resp|x] t1];
    reflexivity.
Qed.

End GeminiServiceFacts.

Section AiServiceMore.

Variable provider : request -> nat -> outcome response.
Variable random : nat -> Q.
Variable JSON_parse : string -> option json.
Variable js_to_string : js_value -> string.

Let with_retry := AiService.with_retry provider random.
Let chat := AiService.getChatResponse provider random js_to_string.
Let speak := AiService.textToSpeech provider random.

Lemma ai_with_retry_budget (r : request) (t : trace request) :
  (ncalls (snd (with_retry r t)) <= ncalls t + 5)%nat.
Proof.
  destruct (ai_with_retry_calls provider random r t) as (ext & Hext & Hn & _).
  unfold with_retry. rewrite Hext, ncalls_app. lia.
Qed.

Lemma ai_with_retry_speech_calls (r : request) (t : trace request) :
  exists ext,
    snd (with_retry r t) = t ++ ext
    /\ (1 <= ncalls ext <= 5)%nat
    /\ speech_calls ext
       = match request_client r with aiTTS => ncalls ext | _ => 0%nat end.
Proof.
  destruct (ai_with_retry_calls provider random r t)
    as (ext & Hext & Hn & Hcalls).
  exists ext. split; [exact Hext|]. split; [exact Hn|].
  rewrite speech_calls_calls_only, Hcalls. apply speech_calls_repeat.
Qed.

(** The trace of [textToSpeech] is that of its one request. *)
Lemma speak_trace text voice t :
  snd (speak text voice t)
  = snd (with_retry (speech_request text voice) t).
Proof.
  unfold speak, AiService.textToSpeech, AiService.textToSpeech_try,
    speech_request.
  fold with_retry. run_js.
  destruct (with_retry _ t) as [[resp|x] t1]; simpl; [|reflexivity].
  destruct (negb (truthy_string (first_inline_data resp))); reflexivity.
Qed.

(** What [textToSpeech] returns, when not [null], is the non-empty audio
    of the first part of the first candidate of a reply. *)
Lemma speak_returns text voice t audio t1 :
  speak text voice t = (Returned (Some audio), t1) ->
  audio <> EmptyString
  /\ exists resp,
       with_retry (speech_request text voice) t = (Returned resp, t1)
       /\ first_inline_data resp = Some audio.
Proof.
  unfold speak, AiService.textToSpeech, AiService.textToSpeech_try,
    speech_request.
  fold with_retry. run_js.
  destruct (with_retry _ t) as [[resp|x] t2]; simpl; [|discriminate].
  destruct (first_inline_data resp) as [a|] eqn:Ha; simpl; [|discriminate].
  destruct (a =? EmptyString)%string eqn:Hne; simpl; [discriminate|].
  intros H. inversion H; subst.
  split; [apply String.eqb_neq; exact Hne|].
  exists resp. split; [reflexivity | exact Ha].
Qed.

(** The chat, case by case on the reply of the text call. *)
Lemma chat_unfold message history ctx vcfg t :
  chat message history ctx vcfg t
  = match with_retry (chat_request js_to_string message history ctx) t with
    | (Threw x, t1) => (Threw (new_Error msg_no_chat), t1)
    | (Returned resp, t1) =>
        match vcfg with
        | None => (Threw (new_Error msg_no_chat), t1)
        | Some vc =>
            if enabled vc && truthy_string (resp_text resp) then
              match speak (str (resp_text resp)) (voice vc) t1 with
              | (Returned audio, t2) =>
                  (Returned (mkChatResult (resp_text resp) audio), t2)
              | (Threw x, t2) => (Threw (new_Error msg_no_chat), t2)
              end
            else (Returned (mkChatResult (resp_text resp) None), t1)
        end
    end.
Proof.
  unfold chat, AiService.getChatResponse, chat_request.
  fold with_retry. run_js.
  destruct (with_retry _ t) as [[resp|x] t1]; [|reflexivity].
  destruct vcfg as [vc|]; simpl; [|reflexivity].
  destruct (enabled vc && truthy_string (resp_text resp)); [|reflexivity].
  fold speak.
  destruct (speak (str (resp_text resp)) (voice vc) t1) as [[audio|x] t2];
    reflexivity.
Qed.

End AiServiceMore.

(** X6.  In [analyzeHealthReport] of both services a file that carries
    data takes precedence over the text: the request holds the prompt and
    the inline data, and the report text has no influence on the run. *)
Theorem file_payload_takes_precedence :
  forall (provider : request -> nat -> outcome response) (random : nat -> Q)
         (JSON_parse : string -> option json)
         (reportText otherText : option string) (fileData : option file_data)
         (t : trace request),
    truthy_string (fileData_data fileData) = true ->
    Operations.analysis_contents reportText fileData t
    = (Returned (ContentsObject
                   [TextPart analysis_prompt;
                    InlineDataPart (fileData_mimeType fileData)
                                   (str (fileData_data fileData))]), t)
    /\ AiService.analyzeHealthReport provider random JSON_parse
         reportText fileData t
       = AiService.analyzeHealthReport provider random JSON_parse
           otherText fileData t
    /\ GeminiService.analyzeHealthReport provider JSON_parse
         reportText fileData t
       = GeminiService.analyzeHealthReport provider JSON_parse
           otherText fileData t.
Proof.
  intros provider random JSON_parse reportText otherText fileData t Hfile.
  assert (Hc : forall rt,
             Operations.analysis_contents rt fileData
             = ret (ContentsObject
                      [TextPart analysis_prompt;
                       InlineDataPart (fileData_mimeType fileData)
                                      (str (fileData_data fileData))])).
  { intros rt. unfold Operations.analysis_contents. rewrite Hfile.
    reflexivity. }
  split; [rewrite Hc; reflexivity|].
  unfold AiService.analyzeHealthReport, GeminiService.analyzeHealthReport,
    Operations.analyzeHealthReport, Operations.analyzeHealthReport_try.
  rewrite (Hc reportText), (Hc otherText). split; reflexivity.
Qed.

Lemma file_payload_takes_precedence_witness :
  AiService.analyzeHealthReport (Scenario.answers Scenario.text_full)
    Scenario.half Json.parse (Some "Hb 13.5 g/dL")
    (Some (mkFileData (Some "JVBERi0xLjQ=") (Some "application/pdf"))) []
  = AiService.analyzeHealthReport (Scenario.answers Scenario.text_full)
      Scenario.half Json.parse None
      (Some (mkFileData (Some "JVBERi0xLjQ=") (Some "application/pdf"))) [].
Proof.
  destruct (@file_payload_takes_precedence
              (Scenario.answers Scenario.text_full) Scenario.half Json.parse
              (Some "Hb 13.5 g/dL") None
              (Some (mkFileData (Some "JVBERi0xLjQ=")
                                (Some "application/pdf"))) [])
    as (_ & H & _).
  - reflexivity.
  - exact H.
Defined.

Section ErrorsOfOperations.

Variable provider : request -> nat -> outcome response.
Variable random : nat -> Q.
Variable JSON_parse : string -> option json.
Variable js_to_string : js_value -> string.





End ErrorsOfOperations.



Section EscalationStructure.

Variable provider : request -> nat -> outcome response.
Variable random : nat -> Q.
Variable JSON_parse : string -> option json.
Variable js_to_string : js_value -> string.

Let generate := AiService.generate provider random.
Let generate_with_fallback := AiService.generate_with_fallback provider random.

(** A primary run can only end in a 503 error by spending its budget. *)
Lemma primary_503_means_exhausted prompt t e t1 :
  generate prompt AiService.primaryModel t = (Threw (ThrownError e), t1) ->
  err_status e = Some 503%Z ->
  exists ext, t1 = t ++ ext /\ ncalls ext = 5%nat.
Proof.
  unfold generate, AiService.generate, AiService.with_retry,
    AiService.retryWithBackoff.
  intros Hrun Hs.
  set (r := GenerateContent aiSymptoms AiService.primaryModel
              (ContentsList [[TextPart prompt]])
              (JsonConfig symptomPredictionSchema)) in *.
  destruct (ai_retry_run random provider r 5 1000 200 ThrownUndefined t)
    as (m & Hle & Hall & [(Hm & Heq)|(Hlt & Hlast & Heq)]);
    rewrite Heq in Hrun; inversion Hrun as [[Hout Htrace]].
  - subst m. eexists. split; [reflexivity|].
    apply ncalls_jitter_rounds.
  - exfalso.
    destruct (provider r (ncalls t + m)%nat) as [a|[|e']]; simpl in *;
      try discriminate.
    + inversion Hout; subst e. discriminate.
    + inversion Hout; subst e'. rewrite Hs in Hlast. discriminate.
Qed.

(** The calls of the escalation step: first the primary run, then, only
    after five primary calls, the fallback run. *)
Lemma fallback_structure prompt t :
  exists ext1 ext2,
    snd (generate_with_fallback prompt t) = t ++ ext1 ++ ext2
    /\ (1 <= ncalls ext1 <= 5)%nat
    /\ calls_to_model AiService.primaryModel ext1 = ncalls ext1
    /\ calls_to_model AiService.fallbackModel ext1 = 0%nat
    /\ (ext2 = []
        \/ (ncalls ext1 = 5%nat
            /\ (1 <= ncalls ext2 <= 5)%nat
            /\ calls_to_model AiService.fallbackModel ext2 = ncalls ext2
            /\ calls_to_model AiService.primaryModel ext2 = 0%nat)).
Proof.
  set (r1 := GenerateContent aiSymptoms AiService.primaryModel
               (ContentsList [[TextPart prompt]])
               (JsonConfig symptomPredictionSchema)).
  set (r2 := GenerateContent aiSymptoms AiService.fallbackModel
               (ContentsList [[TextPart prompt]])
               (JsonConfig symptomPredictionSchema)).
  destruct (ai_with_retry_model_calls provider random r1
              AiService.primaryModel t) as (ext1 & Hext1 & Hn1 & Hp1).
  destruct (ai_with_retry_model_calls provider random r1
              AiService.fallbackModel t) as (ext1' & Hext1' & _ & Hf1).
  rewrite Hext1 in Hext1'. apply app_inv_head in Hext1'. subst ext1'.
  simpl in Hp1, Hf1.
  exists ext1.
  unfold generate_with_fallback, AiService.generate_with_fallback,
    AiService.generate, try_catch.
  fold r1 r2.
  destruct (AiService.with_retry provider random r1 t) as [[resp|x] t1]
    eqn:Hprimary; simpl in Hext1; subst t1.
  - exists []. rewrite app_nil_r. simpl. repeat split; auto; lia.
  - destruct x as [|e].
    + exists []. rewrite app_nil_r. repeat split; auto; lia.
    + unfold bind. simpl.
      destruct (err_status e) as [s|] eqn:Hs.
      2:{ exists []. rewrite app_nil_r. repeat split; auto; lia. }
      destruct (s =? 503)%Z eqn:Hb.
      2:{ exists []. rewrite app_nil_r. repeat split; auto; lia. }
      apply Z.eqb_eq in Hb. subst s.
      destruct (primary_503_means_exhausted prompt t Hprimary Hs)
        as (ext & Hext & Hfive).
      apply app_inv_head in Hext. subst ext.
      destruct (ai_with_retry_model_calls provider random r2
                  AiService.fallbackModel (t ++ ext1))
        as (ext2 & Hext2 & Hn2 & Hf2).
      destruct (ai_with_retry_model_calls provider random r2
                  AiService.primaryModel (t ++ ext1))
        as (ext2' & Hext2' & _ & Hp2).
      rewrite Hext2 in Hext2'. apply app_inv_head in Hext2'. subst ext2'.
      simpl in Hf2, Hp2.
      exists ext2. rewrite Hext2, <- app_assoc.
      repeat split; auto; try lia; right; repeat split; auto; lia.
Qed.

End EscalationStructure.

(** X8.  In the symptom prediction of the multi-key service the calls of
    one run are the primary-model calls (between one and five) followed by
    the fallback-model calls; fallback calls exist only when the primary
    budget of five calls was spent, and there are at most five of them.  No
    other model is called. *)
Theorem fallback_only_after_primary_budget :
  forall (provider : request -> nat -> outcome response) (random : nat -> Q)
         (JSON_parse : string -> option json)
         (js_to_string : js_value -> string)
         (symptomsText : string) (userContext : option user_context)
         (t : trace request),
  exists ext1 ext2,
    snd (AiService.predictSymptomsFromText provider random JSON_parse
           js_to_string symptomsText userContext t) = t ++ ext1 ++ ext2
    /\ (1 <= ncalls ext1 <= 5)%nat
    /\ calls_to_model AiService.primaryModel ext1 = ncalls ext1
    /\ calls_to_model AiService.fallbackModel ext1 = 0%nat
    /\ (ext2 = []
        \/ (ncalls ext1 = 5%nat
            /\ (1 <= ncalls ext2 <= 5)%nat
            /\ calls_to_model AiService.fallbackModel ext2 = ncalls ext2
            /\ calls_to_model AiService.primaryModel ext2 = 0%nat)).
Proof.
  intros provider random JSON_parse js_to_string symptomsText userContext t.
  rewrite predict_trace. apply fallback_structure.
Qed.

(** X9.  Call budgets.  One invocation of an operation adds at most five
    provider calls in the multi-key service (ten for the chat with voice
    and for the symptom prediction with its fallback) and at most three in
    the single-key service. *)
Theorem operations_call_budget :
  forall (provider : request -> nat -> outcome response) (random : nat -> Q)
         (JSON_parse : string -> option json)
         (js_to_string : js_value -> string)
         (js_to_number : js_value -> option Q)
         (toFixed0 : option Q -> string) (t : trace request),
    ((forall reportText fileData,
         (ncalls (snd (AiService.analyzeHealthReport provider random
                         JSON_parse reportText fileData t))
          <= ncalls t + 5)%nat)
     /\ (forall latitude longitude query,
            (ncalls (snd (AiService.findHospitalsNearLocation provider random
                            latitude longitude query t))
             <= ncalls t + 5)%nat)
     /\ (forall analysisData,
            (ncalls (snd (AiService.generateHealthTips provider random
                            JSON_parse js_to_string js_to_number toFixed0
                            analysisData t))
             <= ncalls t + 5)%nat)
     /\ (forall text voice,
            (ncalls (snd (AiService.textToSpeech provider random text voice
                            t))
             <= ncalls t + 5)%nat)
     /\ (forall message history userContext voiceConfig,
            (ncalls (snd (AiService.getChatResponse provider random
                            js_to_string message history userContext
                            voiceConfig t))
             <= ncalls t + 10)%nat)
     /\ (forall symptomsText userContext,
            (ncalls (snd (AiService.predictSymptomsFromText provider random
                            JSON_parse js_to_string symptomsText userContext
                            t))
             <= ncalls t + 10)%nat))
    /\
    ((forall reportText fileData,
         (ncalls (snd (GeminiService.analyzeHealthReport provider
                         JSON_parse reportText fileData t))
          <= ncalls t + 3)%nat)
     /\ (forall latitude longitude query,
            (ncalls (snd (GeminiService.findHospitalsNearLocation provider
                            latitude longitude query t))
             <= ncalls t + 3)%nat)
     /\ (forall analysisData,
            (ncalls (snd (GeminiService.generateHealthTips provider
                            JSON_parse js_to_string js_to_number toFixed0
                            analysisData t))
             <= ncalls t + 3)%nat)
     /\ (forall message history userContext,
            (ncalls (snd (GeminiService.getChatResponse provider
                            js_to_string message history userContext t))
             <= ncalls t + 3)%nat)
     /\ (forall symptomsText,
            (ncalls (snd (GeminiService.predictSymptomsFromText provider
                            JSON_parse symptomsText t))
             <= ncalls t + 3)%nat)).
Proof.
  intros provider random JSON_parse js_to_string js_to_number toFixed0 t.
  pose proof (@shared_operations_budget
                (AiService.with_retry provider random) aiAnalyze aiMaps
                JSON_parse js_to_string js_to_number toFixed0 5%nat
                (ai_with_retry_budget provider random) t)
    as (Ha & Hf & Ht).
  pose proof (@shared_operations_budget
                (GeminiService.with_retry provider) ai ai
                JSON_parse js_to_string js_to_number toFixed0 3%nat
                (gemini_with_retry_budget provider) t)
    as (Ga & Gf & Gt).
  split.
  - split; [exact Ha|]. split; [exact Hf|]. split; [exact Ht|].
    split; [|split].
    + intros text voice. rewrite speak_trace. apply ai_with_retry_budget.
    + intros message history userContext voiceConfig.
      rewrite chat_unfold.
      pose proof (ai_with_retry_budget provider random
                    (chat_request js_to_string message history userContext)
                    t) as Hcall.
      destruct (AiService.with_retry provider random
                  (chat_request js_to_string message history userContext) t)
        as [[resp|x] t1]; simpl in *; [|lia].
      destruct voiceConfig as [vc|]; simpl; [|lia].
      destruct (enabled vc && truthy_string (resp_text resp)); simpl; [|lia].
      pose proof (speak_trace provider random (str (resp_text resp))
                    (voice vc) t1) as Hspeak.
      pose proof (ai_with_retry_budget provider random
                    (speech_request (str (resp_text resp)) (voice vc)) t1)
        as Hb.
      rewrite <- Hspeak in Hb.
      destruct (AiService.textToSpeech provider random
                  (str (resp_text resp)) (voice vc) t1) as [[a|x] t2];
        simpl in *; lia.
    + intros symptomsText userContext.
      destruct (fallback_structure provider random
                  (AiService.symptom_prompt js_to_string symptomsText
                     userContext) t)
        as (ext1 & ext2 & Hext & Hn1 & _ & _ & Hcase).
      rewrite predict_trace, Hext, !ncalls_app.
      destruct Hcase as [-> | (_ & Hn2 & _)].
      * unfold ncalls at 3. simpl. lia.
      * lia.
  - split; [exact Ga|]. split; [exact Gf|]. split; [exact Gt|]. split.
    + intros message history userContext. rewrite gemini_chat_unfold.
      pose proof (gemini_with_retry_budget provider
                    (legacy_chat_request js_to_string message history
                       userContext) t) as Hcall.
      destruct (GeminiService.with_retry provider
                  (legacy_chat_request js_to_string message history
                     userContext) t) as [[resp|x] t1]; simpl in *; lia.
    + intros symptomsText. rewrite gemini_predict_trace.
      apply gemini_with_retry_budget.
Qed.

(** ** The chat beyond the claims *)



(** X11.  When voice output is disabled, or the reply text is empty or
    absent, [getChatResponse] makes no speech-synthesis call: its trace is
    that of the text call alone, and what it returns has a [null] audio and
    the reply text as it came. *)
Theorem chat_without_voice_makes_no_speech_call :
  forall (provider : request -> nat -> outcome response) (random : nat -> Q)
         (js_to_string : js_value -> string)
         (message : string) (history : option (list turn))
         (userContext : option user_context) (voiceConfig : voice_config)
         (t t1 : trace request) (resp : response),
    AiService.with_retry provider random
      (chat_request js_to_string message history userContext) t
    = (Returned resp, t1) ->
    enabled voiceConfig = false \/ truthy_string (resp_text resp) = false ->
    AiService.getChatResponse provider random js_to_string message history
      userContext (Some voiceConfig) t
    = (Returned (mkChatResult (resp_text resp) None), t1)
    /\ speech_calls t1 = speech_calls t.
Proof.
  intros provider random js_to_string message history userContext
         voiceConfig t t1 resp Hcall Hoff.
  split.
  - rewrite chat_unfold, Hcall.
    assert (Hb : enabled voiceConfig && truthy_string (resp_text resp)
                 = false).
    { destruct Hoff as [-> | ->]; [reflexivity | apply andb_false_r]. }
    rewrite Hb. reflexivity.
  - destruct (ai_with_retry_speech_calls provider random
                (chat_request js_to_string message history userContext) t)
      as (ext & Hext & _ & Hspeech).
    rewrite Hcall in Hext. simpl in Hext, Hspeech. subst t1.
    rewrite speech_calls_app, Hspeech. lia.
Qed.

Lemma chat_without_voice_makes_no_speech_call_witness :
  fst (AiService.getChatResponse Scenario.chat_without_speech Scenario.half
         Scenario.to_string "I have a headache" None None
         (Some (mkVoiceConfig false (Some "Kore"))) [])
  = Returned (mkChatResult (Some "Drink water and rest.") None).
Proof.
  destruct (@chat_without_voice_makes_no_speech_call
              Scenario.chat_without_speech Scenario.half Scenario.to_string
              "I have a headache" None None (mkVoiceConfig false (Some "Kore"))
              []
              (snd (AiService.with_retry Scenario.chat_without_speech
                      Scenario.half
                      (chat_request Scenario.to_string "I have a headache"
                                    None None) []))
              (Scenario.reply "Drink water and rest.")) as [H _].
  - vm_compute. reflexivity.
  - left. reflexivity.
  - rewrite H. reflexivity.
Defined.

(** X12.  Whenever [getChatResponse] returns a result with audio, voice
    output was enabled, the returned text is not empty, and the audio is
    the non-empty inline data of the first part of the first candidate of
    a speech-synthesis reply for "Say: " followed by that text. *)
Theorem chat_audio_comes_from_speech_reply :
  forall (provider : request -> nat -> outcome response) (random : nat -> Q)
         (js_to_string : js_value -> string)
         (message : string) (history : option (list turn))
         (userContext : option user_context)
         (voiceConfig : option voice_config)
         (t t2 : trace request) (result : chat_result) (audio : string),
    AiService.getChatResponse provider random js_to_string message history
      userContext voiceConfig t = (Returned result, t2) ->
    chat_audio result = Some audio ->
    audio <> EmptyString
    /\ truthy_string (chat_response result) = true
    /\ exists vc t1 speech,
         voiceConfig = Some vc /\ enabled vc = true
         /\ AiService.with_retry provider random
              (speech_request (str (chat_response result)) (voice vc)) t1
            = (Returned speech, t2)
         /\ first_inline_data speech = Some audio.
Proof.
  intros provider random js_to_string message history userContext
         voiceConfig t t2 result audio Hrun Haudio.
  rewrite chat_unfold in Hrun.
  destruct (AiService.with_retry provider random
              (chat_request js_to_string message history userContext) t)
    as [[resp|x] t1]; [|discriminate].
  destruct voiceConfig as [vc|]; [|discriminate].
  destruct (enabled vc && truthy_string (resp_text resp)) eqn:Hon.
  2:{ inversion Hrun; subst. discriminate. }
  apply andb_true_iff in Hon. destruct Hon as [Hen Htext].
  destruct (AiService.textToSpeech provider random (str (resp_text resp))
              (voice vc) t1) as [[a|x] t3] eqn:Hspeak; [|discriminate].
  inversion Hrun; subst. simpl in *. subst a.
  destruct (speak_returns provider random _ _ _ Hspeak)
    as (Hne & speech & Hcall & Hdata).
  split; [exact Hne|]. split; [exact Htext|].
  exists vc, t1, speech. repeat split; assumption.
Qed.

Lemma chat_audio_comes_from_speech_reply_witness :
  "UklGRg==" <> EmptyString.
Proof.
  pose (speaks := fun (r : request) (_ : nat) =>
          match r with
          | SendMessage _ _ _ _ _ => Returned (Scenario.reply "Rest.")
          | GenerateContent _ _ _ _ =>
              Returned (mkResponse None
                (Some [mkCandidate
                         (Some (mkContent
                                  (Some [mkPart None
                                           (Some (mkInlineData None
                                                    (Some "UklGRg==")))])))
                         None]))
          end).
  destruct (@chat_audio_comes_from_speech_reply speaks Scenario.half
              Scenario.to_string "I have a headache" None None
              (Some (mkVoiceConfig true None)) []
              (snd (AiService.getChatResponse speaks Scenario.half
                      Scenario.to_string "I have a headache" None None
                      (Some (mkVoiceConfig true None)) []))
              (mkChatResult (Some "Rest.") (Some "UklGRg=="))
              "UklGRg==") as [H _].
  - vm_compute. reflexivity.
  - reflexivity.
  - exact H.
Defined.

(** ** Hospital lookup and tips beyond the claims *)



Lemma find_returns_summary (with_retry : request -> J response) (c : client)
      (lat lon : option Q) (q : option string) (t t1 : trace request)
      (res : hospital_result) :
  Operations.findHospitalsNearLocation with_retry c lat lon q t
  = (Returned res, t1) ->
  summary res <> EmptyString
  /\ exists req resp,
       Operations.hospital_request c lat lon q t = (Returned req, t)
       /\ with_retry req t = (Returned resp, t1)
       /\ summary res
          = (if truthy_string (resp_text resp) then str (resp_text resp)
             else default_summary)
       /\ (List.length (hospitals res) <= List.length (chunks_of resp))%nat.
Proof.
  intros H.
  destruct (find_returns_inv _ _ _ _ _ _ H)
    as (req & resp & Hreq & Hcall & _).
  rewrite (find_after_call _ _ _ _ _ Hreq Hcall) in H.
  inversion H as [Hres]. simpl. split.
  - destruct (resp_text resp) as [s|]; simpl; [|discriminate].
    destruct (s =? EmptyString)%string eqn:Hs; simpl; [discriminate|].
    apply String.eqb_neq. exact Hs.
  - exists req, resp. split; [exact Hreq|]. split; [exact Hcall|].
    split; [reflexivity|].
    rewrite length_map. apply filter_length_le.
Qed.

(** X14.  The summary of a hospital lookup is never empty, in both
    services.  A lookup that returns has built its request from the
    arguments and sent it through the retry loop, and its result is read
    off the reply that this call returned: the summary is that reply's text
    when the text is not empty and the fixed sentence "Here are some
    hospitals found near your location." otherwise, and the list has at
    most as many entries as that reply has grounding chunks. *)
Theorem hospital_summary_never_empty :
  forall (provider : request -> nat -> outcome response) (random : nat -> Q)
         (latitude longitude : option Q) (query : option string)
         (t t1 : trace request) (res : hospital_result),
    (AiService.findHospitalsNearLocation provider random
       latitude longitude query t = (Returned res, t1) ->
     summary res <> EmptyString
     /\ exists req resp,
          Operations.hospital_request aiMaps latitude longitude query t
          = (Returned req, t)
          /\ AiService.with_retry provider random req t = (Returned resp, t1)
          /\ summary res
             = (if truthy_string (resp_text resp) then str (resp_text resp)
                else default_summary)
          /\ (List.length (hospitals res)
              <= List.length (chunks_of resp))%nat)
    /\ (GeminiService.findHospitalsNearLocation provider
          latitude longitude query t = (Returned res, t1) ->
        summary res <> EmptyString
        /\ exists req resp,
             Operations.hospital_request ai latitude longitude query t
             = (Returned req, t)
             /\ GeminiService.with_retry provider req t = (Returned resp, t1)
             /\ summary res
                = (if truthy_string (resp_text resp) then str (resp_text resp)
                   else default_summary)
             /\ (List.length (hospitals res)
                 <= List.length (chunks_of resp))%nat).
Proof.
  intros provider random latitude longitude query t t1 res.
  split; intros Hrun; apply find_returns_summary; exact Hrun.
Qed.

Lemma hospital_summary_never_empty_witness :
  "Two hospitals are close." <> EmptyString
  /\ exists req resp,
       Operations.hospital_request aiMaps None None (Some "Kathmandu") []
       = (Returned req, [])
       /\ AiService.with_retry Scenario.maps_answer Scenario.half req []
          = (Returned resp,
             snd (AiService.findHospitalsNearLocation Scenario.maps_answer
                    Scenario.half None None (Some "Kathmandu") []))
       /\ "Two hospitals are close."
          = (if truthy_string (resp_text resp) then str (resp_text resp)
             else default_summary)
       /\ (1 <= List.length (chunks_of resp))%nat.
Proof.
  destruct (@hospital_summary_never_empty Scenario.maps_answer Scenario.half
              None None (Some "Kathmandu") []
              (snd (AiService.findHospitalsNearLocation Scenario.maps_answer
                      Scenario.half None None (Some "Kathmandu") []))
              (mkHospitalResult "Two hospitals are close."
                 [mkHospital "Bir Hospital" "https://maps.example/bir"]))
    as [H _].
  destruct H as (Hne & req & resp & Hreq & Hcall & Hsum & Hlen).
  - vm_compute. reflexivity.
  - split; [exact Hne|]. exists req, resp.
    split; [exact Hreq|]. split; [exact Hcall|]. split; [exact Hsum|].
    exact Hlen.
Defined.

(** X15.  [generateHealthTips] of both services returns, when it returns,
    an array (the [tips] field of the parsed reply); and when the analysis
    it is given has no [predictions] array it fails before any provider
    call is made. *)
Theorem tips_are_an_array_or_nothing :
  forall (provider : request -> nat -> outcome response) (random : nat -> Q)
         (JSON_parse : string -> option json)
         (js_to_string : js_value -> string)
         (js_to_number : js_value -> option Q)
         (toFixed0 : option Q -> string)
         (analysisData : json) (t : trace request),
    (forall tips t1,
        AiService.generateHealthTips provider random JSON_parse js_to_string
          js_to_number toFixed0 analysisData t = (Returned tips, t1)
        \/ GeminiService.generateHealthTips provider JSON_parse js_to_string
             js_to_number toFixed0 analysisData t = (Returned tips, t1) ->
        exists items, tips = Some (JArray items))
    /\ (is_array (field analysisData "predictions") = false ->
        AiService.generateHealthTips provider random JSON_parse js_to_string
          js_to_number toFixed0 analysisData t
        = (Threw (new_Error msg_no_tips), t)
        /\ GeminiService.generateHealthTips provider JSON_parse js_to_string
             js_to_number toFixed0 analysisData t
           = (Threw (new_Error msg_no_tips), t)).
Proof.
  intros provider random JSON_parse js_to_string js_to_number toFixed0
         analysisData t.
  assert (Hret : forall with_retry c tips t1,
             Operations.generateHealthTips with_retry c JSON_parse
               js_to_string js_to_number toFixed0 analysisData t
             = (Returned tips, t1) ->
             exists items, tips = Some (JArray items)).
  { intros with_retry c tips t1.
    unfold Operations.generateHealthTips.
    unfold try_catch, bind, ret, throw, trimmed_text, parse_or_throw,
      get_prop.
    destruct (tips_prompt js_to_string js_to_number toFixed0 analysisData t)
      as [[prompt|x] t0]; [|discriminate].
    destruct (with_retry _ t0) as [[resp|x] t2]; [|discriminate].
    destruct (resp_text resp) as [s|]; simpl; [|discriminate].
    destruct (JSON_parse (trim s)) as [v|]; simpl; [|discriminate].
    destruct v as [| b | q | str | items | fields]; simpl;
      try discriminate.
    destruct (lookup "tips" fields) as [[| b | q | str | items | fs]|];
      simpl; try discriminate;
      try (destruct b; simpl; discriminate);
      try (destruct (negb (Qeq_bool q 0)); simpl; discriminate);
      try (destruct (negb (str =? EmptyString)%string); simpl; discriminate).
    intros H. inversion H. exists items. reflexivity. }
  assert (Hbad : forall with_retry c,
             is_array (field analysisData "predictions") = false ->
             Operations.generateHealthTips with_retry c JSON_parse
               js_to_string js_to_number toFixed0 analysisData t
             = (Threw (new_Error msg_no_tips), t)).
  { intros with_retry c Harr.
    unfold Operations.generateHealthTips, tips_prompt.
    unfold try_catch, bind, ret, throw, get_prop.
    destruct analysisData as [| b | q | str | items | fields];
      try reflexivity.
    simpl in Harr.
    destruct (lookup "predictions" fields)
      as [[| b | q | str | items | fs]|]; try reflexivity.
    discriminate. }
  split.
  - intros tips t1 [H|H]; eapply Hret; exact H.
  - intros Harr. split; apply Hbad; exact Harr.
Qed.

Lemma tips_are_an_array_or_nothing_witness :
  AiService.generateHealthTips (Scenario.answers Scenario.text_full)
    Scenario.half Json.parse Scenario.to_string Scenario.to_number
    Scenario.to_fixed0 (JObject [("healthScore", JNumber 82)]) []
  = (Threw (new_Error msg_no_tips), []).
Proof.
  destruct (@tips_are_an_array_or_nothing
              (Scenario.answers Scenario.text_full) Scenario.half Json.parse
              Scenario.to_string Scenario.to_number Scenario.to_fixed0
              (JObject [("healthScore", JNumber 82)]) []) as [_ H].
  destruct (H eq_refl) as [Hai _]. exact Hai.
Defined.

(** X16.  A reply that carries no text at all is not a parse failure: the
    report analysis of both services and the symptom prediction of the
    multi-key service report it under their generic failure message, and
    so they do a reply whose text is the JSON [null]. *)
Theorem reply_without_text_is_a_generic_failure :
  forall (provider : request -> nat -> outcome response) (random : nat -> Q)
         (JSON_parse : string -> option json)
         (js_to_string : js_value -> string)
         (t t1 : trace request) (resp : response),
    resp_text resp = None
    \/ (exists text, resp_text resp = Some text
                     /\ JSON_parse (trim text) = Some JNull) ->
    (forall reportText fileData c,
        Operations.analysis_contents reportText fileData t = (Returned c, t) ->
        (AiService.with_retry provider random
           (GenerateContent aiAnalyze "gemini-2.5-flash" c
                            (JsonConfig analysisSchema)) t
         = (Returned resp, t1) ->
         AiService.analyzeHealthReport provider random JSON_parse
           reportText fileData t
         = (Threw (new_Error msg_invalid_analysis), t1))
        /\ (GeminiService.with_retry provider
              (GenerateContent ai "gemini-2.5-flash" c
                               (JsonConfig analysisSchema)) t
            = (Returned resp, t1) ->
            GeminiService.analyzeHealthReport provider JSON_parse
              reportText fileData t
            = (Threw (new_Error msg_invalid_analysis), t1)))
    /\ (forall symptomsText userContext,
           AiService.generate_with_fallback provider random
             (AiService.symptom_prompt js_to_string symptomsText userContext)
             t
           = (Returned resp, t1) ->
           AiService.predictSymptomsFromText provider random JSON_parse
             js_to_string symptomsText userContext t
           = (Threw (new_Error msg_invalid_prediction), t1)).
Proof.
  intros provider random JSON_parse js_to_string t t1 resp Hreply.
  assert (Hgen : forall with_retry client reportText fileData c,
             Operations.analysis_contents reportText fileData t
             = (Returned c, t) ->
             with_retry (GenerateContent client "gemini-2.5-flash" c
                                         (JsonConfig analysisSchema)) t
             = (Returned resp, t1) ->
             Operations.analyzeHealthReport with_retry client JSON_parse
               reportText fileData t
             = (Threw (new_Error msg_invalid_analysis), t1)).
  { intros with_retry client reportText fileData c Hc Hcall.
    destruct Hreply as [Hnone | (text & Htext & Hparse)].
    - unfold Operations.analyzeHealthReport,
        Operations.analyzeHealthReport_try.
      run_js. rewrite Hc, Hcall, Hnone. reflexivity.
    - eapply analyze_rejects; try eassumption. left. reflexivity. }
  split.
  - intros reportText fileData c Hc. split; intros Hcall.
    + unfold AiService.analyzeHealthReport. eapply Hgen; eassumption.
    + unfold GeminiService.analyzeHealthReport. eapply Hgen; eassumption.
  - intros symptomsText userContext Hcall.
    destruct Hreply as [Hnone | (text & Htext & Hparse)].
    + unfold AiService.predictSymptomsFromText. run_js.
      rewrite Hcall, Hnone. reflexivity.
    + eapply predict_rejects; try eassumption. reflexivity.
Qed.

Lemma reply_without_text_is_a_generic_failure_witness :
  fst (AiService.analyzeHealthReport
         (fun _ _ => Returned (mkResponse None None)) Scenario.half
         Json.parse (Some "Hb 13.5 g/dL") None [])
  = Threw (new_Error msg_invalid_analysis).
Proof.
  destruct (@reply_without_text_is_a_generic_failure
              (fun _ _ => Returned (mkResponse None None)) Scenario.half
              Json.parse Scenario.to_string []
              (snd (AiService.analyzeHealthReport
                      (fun _ _ => Returned (mkResponse None None))
                      Scenario.half Json.parse (Some "Hb 13.5 g/dL") None []))
              (mkResponse None None)) as [H _].
  - left. reflexivity.
  - destruct (H (Some "Hb 13.5 g/dL") None
                (ContentsString
                   (analysis_prompt +++ LF +++ LF +++ "Here is the report:"
                                    +++ LF +++ LF +++ "Hb 13.5 g/dL")))
      as [Hai _].
    + reflexivity.
    + rewrite Hai; [reflexivity | vm_compute; reflexivity].
Defined.

(** X17.  [predictSymptomsFromText] of the single-key service, for a reply
    of its one retry-wrapped request whose trimmed text parses to [v]:
    it returns [v] itself when the [predictions] field is truthy, throws
    the generic failure message when the field is absent, and anything it
    returns was parsed from the reply and has a truthy [predictions]
    field.  Text that does not parse gives the parse-failure message. *)
Theorem legacy_prediction_follows_the_reply :
  forall (provider : request -> nat -> outcome response)
         (JSON_parse : string -> option json)
         (symptomsText : string) (t t1 : trace request) (resp : response)
         (text : string),
    GeminiService.with_retry provider
      (GenerateContent ai "gemini-2.5-flash"
         (ContentsString (GeminiService.symptom_prompt symptomsText))
         (JsonConfig symptomPredictionSchema)) t
    = (Returned resp, t1) ->
    resp_text resp = Some text ->
    (JSON_parse (trim text) = None ->
     GeminiService.predictSymptomsFromText provider JSON_parse symptomsText t
     = (Threw (new_Error msg_parse_symptoms), t1))
    /\ (forall v, JSON_parse (trim text) = Some v ->
          (truthy (field v "predictions") = true ->
           GeminiService.predictSymptomsFromText provider JSON_parse
             symptomsText t = (Returned v, t1))
          /\ (truthy (field v "predictions") = false ->
              GeminiService.predictSymptomsFromText provider JSON_parse
                symptomsText t
              = (Threw (new_Error msg_invalid_prediction), t1)))
    /\ (forall v' t',
          GeminiService.predictSymptomsFromText provider JSON_parse
            symptomsText t = (Returned v', t') ->
          JSON_parse (trim text) = Some v'
          /\ truthy (field v' "predictions") = true).
Proof.
  intros provider JSON_parse symptomsText t t1 resp text Hcall Htext.
  unfold GeminiService.predictSymptomsFromText. run_js.
  rewrite Hcall, Htext. simpl.
  split; [|split].
  - intros Hparse. rewrite Hparse. reflexivity.
  - intros v Hparse. rewrite Hparse. simpl.
    destruct v as [| b | q | str | items | fields]; simpl;
      (split; intros H; [try discriminate | try reflexivity]).
    + rewrite H. reflexivity.
    + rewrite H. reflexivity.
  - intros v' t'.
    destruct (JSON_parse (trim text)) as [v|]; simpl; [|discriminate].
    destruct v as [| b | q | str | items | fields]; simpl;
      try discriminate.
    destruct (truthy (lookup "predictions" fields)) eqn:Hok; simpl;
      [|discriminate].
    intros H. inversion H; subst. split; [reflexivity | exact Hok].
Qed.

Lemma legacy_prediction_follows_the_reply_witness :
  fst (GeminiService.predictSymptomsFromText
         (Scenario.answers Scenario.text_predictions) Json.parse "fever" [])
  = Returned (JObject [("predictions", JArray [])]).
Proof.
  destruct (@legacy_prediction_follows_the_reply
              (Scenario.answers Scenario.text_predictions) Json.parse
              "fever" []
              (snd (GeminiService.predictSymptomsFromText
                      (Scenario.answers Scenario.text_predictions)
                      Json.parse "fever" []))
              (Scenario.reply Scenario.text_predictions)
              Scenario.text_predictions) as (_ & H & _).
  - vm_compute. reflexivity.
  - reflexivity.
  - destruct (H (JObject [("predictions", JArray [])])) as [Hok _].
    + vm_compute. reflexivity.
    + rewrite Hok; reflexivity.
Defined.

(** ** The routes *)

Lemma messages_not_empty :
  msg_parse_analysis <> EmptyString /\ msg_invalid_analysis <> EmptyString
  /\ msg_parse_symptoms <> EmptyString
  /\ msg_invalid_prediction <> EmptyString
  /\ msg_no_hospitals <> EmptyString /\ msg_no_tips <> EmptyString
  /\ msg_no_chat <> EmptyString.
Proof. repeat split; discriminate. Qed.

Section RouteFacts.

Variable provider : request -> nat -> outcome response.
Variable random : nat -> Q.
Variable JSON_parse : string -> option json.
Variable JSON_stringify : json -> string.
Variable js_to_string : js_value -> string.
Variable js_to_number : js_value -> option Q.
Variable toFixed0 : option Q -> string.


End RouteFacts.


(** X19.  The guards of the analysis route and of the service differ: a
    request whose [fileData] object carries no data, and which has no
    text, passes the route's guard (it is not answered 400), reaches the
    service, and is answered 500 with the generic failure message, without
    any provider call and without a database row. *)
Theorem analyze_route_file_without_data :
  forall (provider : request -> nat -> outcome response) (random : nat -> Q)
         (JSON_parse : string -> option json)
         (JSON_stringify : json -> string)
         (userId : Z) (reportText : option string) (file : file_data)
         (t : trace request),
    truthy_string reportText = false ->
    truthy_string (file_bytes file) = false ->
    AiRoutes.analyze provider random JSON_parse JSON_stringify userId
      reportText (Some file) t
    = (Returned (mkHttp 500 (BodyError msg_invalid_analysis), None), t).
Proof.
  intros provider random JSON_parse JSON_stringify userId reportText file t
         Hrt Hfile.
  unfold AiRoutes.analyze. rewrite Hrt. simpl. run_js.
  unfold AiService.analyzeHealthReport.
  destruct (@analyze_no_payload (AiService.with_retry provider random)
              aiAnalyze JSON_parse reportText (Some file) t Hrt Hfile)
    as [_ Hsvc].
  rewrite Hsvc. reflexivity.
Qed.

Lemma analyze_route_file_without_data_witness :
  AiRoutes.analyze (Scenario.answers Scenario.text_full) Scenario.half
    Json.parse (fun v => Scenario.to_string (Some v)) 7%Z None
    (Some (mkFileData None None)) []
  = (Returned (mkHttp 500 (BodyError msg_invalid_analysis), None), []).
Proof.
  apply (@analyze_route_file_without_data
           (Scenario.answers Scenario.text_full) Scenario.half Json.parse
           (fun v => Scenario.to_string (Some v)) 7%Z None
           (mkFileData None None) []); reflexivity.
Defined.

(** X20.  The hospital route answers 400, with no provider call, when a
    coordinate is missing and there is no query.  Its guard tests the
    coordinates for being defined while the service tests them for being
    truthy: a request with both coordinates given, one of them 0, and no
    query is not answered 400 but 500 with the service's failure message,
    again with no provider call. *)
Theorem hospital_route_guards :
  forall (provider : request -> nat -> outcome response) (random : nat -> Q)
         (lat lon : option Q) (query : option string) (t : trace request),
    truthy_string query = false ->
    (lat = None \/ lon = None ->
     AiRoutes.find_hospitals provider random lat lon query t
     = (Returned
          (mkHttp 400
             (BodyError "Either coordinates or a location query is required.")),
        t))
    /\ (forall a b,
          lat = Some a -> lon = Some b ->
          truthy_number lat = false \/ truthy_number lon = false ->
          AiRoutes.find_hospitals provider random lat lon query t
          = (Returned (mkHttp 500 (BodyError msg_no_hospitals)), t)).
Proof.
  intros provider random lat lon query t Hq. split.
  - intros Hmissing. unfold AiRoutes.find_hospitals. rewrite Hq.
    destruct Hmissing as [-> | ->]; simpl; [reflexivity|].
    rewrite orb_true_r. reflexivity.
  - intros a b -> -> Hzero. unfold AiRoutes.find_hospitals. simpl. run_js.
    unfold AiService.findHospitalsNearLocation.
    assert (Hb : truthy_number (Some a) && truthy_number (Some b) = false).
    { destruct Hzero as [H | H]; rewrite H;
        [reflexivity | apply andb_false_r]. }
    destruct (find_no_location (AiService.with_retry provider random) aiMaps
                (Some a) (Some b) query t Hb Hq) as [_ Hsvc].
    rewrite Hsvc. reflexivity.
Qed.

Lemma hospital_route_guards_witness :
  AiRoutes.find_hospitals Scenario.maps_answer Scenario.half
    (Some 0) (Some 0) None []
  = (Returned (mkHttp 500 (BodyError msg_no_hospitals)), []).
Proof.
  destruct (@hospital_route_guards Scenario.maps_answer Scenario.half
              (Some 0) (Some 0) None []) as [_ H].
  - reflexivity.
  - apply (H 0 0); [reflexivity | reflexivity | left; reflexivity].
Defined.





(** ** API keys *)

Lemma key_or_truthy (specific shared : option string) :
  truthy_string (key_or specific shared)
  = truthy_string specific || truthy_string shared.
Proof.
  unfold key_or. destruct (truthy_string specific) eqn:H; simpl.
  - exact H.
  - reflexivity.
Qed.

(** X23.  The multi-key service loads exactly when at least one of the six
    variables is set.  With the shared [API_KEY] set every client gets a
    key; but the load check does not ensure that: a single specific key is
    enough to load, and then every client whose own variable is unset is
    built without a key.  The single-key service loads exactly when
    [API_KEY] is set. *)
Theorem api_keys_at_load :
  forall env : environment,
    ((exists keys, load_ai_service env = Returned keys)
     <-> truthy_string (ANALYZE_API_KEY env)
         || truthy_string (SYMPTOMS_API_KEY env)
         || truthy_string (CHAT_API_KEY env)
         || truthy_string (TTS_API_KEY env)
         || truthy_string (MAPS_API_KEY env)
         || truthy_string (API_KEY env) = true)
    /\ (truthy_string (API_KEY env) = true ->
        exists keys,
          load_ai_service env = Returned keys
          /\ truthy_string (analyze_key keys) = true
          /\ truthy_string (symptoms_key keys) = true
          /\ truthy_string (chat_key keys) = true
          /\ truthy_string (tts_key keys) = true
          /\ truthy_string (maps_key keys) = true)
    /\ (truthy_string (API_KEY env) = false ->
        truthy_string (TTS_API_KEY env) = true ->
        truthy_string (ANALYZE_API_KEY env) = false ->
        exists keys,
          load_ai_service env = Returned keys
          /\ truthy_string (analyze_key keys) = false)
    /\ ((exists key, load_gemini_service env = Returned key)
        <-> truthy_string (API_KEY env) = true).
Proof.
  intros env. unfold load_ai_service, load_gemini_service.
  repeat split.
  - intros [keys H].
    destruct (negb (truthy_string (key_or (ANALYZE_API_KEY env) (API_KEY env)))
              && negb (truthy_string
                         (key_or (SYMPTOMS_API_KEY env) (API_KEY env)))
              && negb (truthy_string (key_or (CHAT_API_KEY env) (API_KEY env)))
              && negb (truthy_string (key_or (TTS_API_KEY env) (API_KEY env)))
              && negb (truthy_string (key_or (MAPS_API_KEY env) (API_KEY env))))
      eqn:Hb; [discriminate|].
    rewrite !key_or_truthy in Hb.
    destruct (truthy_string (ANALYZE_API_KEY env)),
             (truthy_string (SYMPTOMS_API_KEY env)),
             (truthy_string (CHAT_API_KEY env)),
             (truthy_string (TTS_API_KEY env)),
             (truthy_string (MAPS_API_KEY env)),
             (truthy_string (API_KEY env)); simpl in *;
      try reflexivity; discriminate.
  - intros H. rewrite !key_or_truthy.
    destruct (truthy_string (ANALYZE_API_KEY env)),
             (truthy_string (SYMPTOMS_API_KEY env)),
             (truthy_string (CHAT_API_KEY env)),
             (truthy_string (TTS_API_KEY env)),
             (truthy_string (MAPS_API_KEY env)),
             (truthy_string (API_KEY env)); simpl in *;
      try discriminate; eexists; reflexivity.
  - intros Hshared. rewrite !key_or_truthy, Hshared, !orb_true_r. simpl.
    eexists. split; [reflexivity|]. simpl.
    rewrite !key_or_truthy, Hshared, !orb_true_r. repeat split.
  - intros Hshared Htts Hanalyze.
    rewrite !key_or_truthy, Hshared, Htts, Hanalyze, !orb_false_r. simpl.
    rewrite !andb_false_r. simpl.
    eexists. split; [reflexivity|]. simpl.
    rewrite key_or_truthy, Hshared, Hanalyze. reflexivity.
  - intros [key H]. destruct (truthy_string (API_KEY env)); [reflexivity|].
    discriminate.
  - intros H. rewrite H. simpl. eexists. reflexivity.
Qed.

Lemma api_keys_at_load_witness :
  exists keys,
    load_ai_service (mkEnv None None None (Some "tts-key") None None)
    = Returned keys
    /\ truthy_string (analyze_key keys) = false.
Proof.
  destruct (api_keys_at_load
              (mkEnv None None None (Some "tts-key") None None))
    as (_ & _ & H & _).
  apply H; reflexivity.
Defined.
